(** * GraphingLib: default-parameter resolution, legends and operators

    A shallow embedding of [graphinglib/multifigure.py],
    [graphinglib/data_plotting_2d.py] and [graphinglib/tools.py], with the
    properties of the figure-style resolution protocol proved over it.

    Python objects are records or attribute dictionaries, methods are
    state transformers over the objects they can reach, exceptions are a
    sum type, and calls to the plotting backend are recorded in a trace. *)

From Stdlib Require Import ZArith QArith.
From stdpp Require Import base option list strings gmap.

Close Scope Q_scope.
Open Scope string_scope.
Open Scope list_scope.

(** ** Python values *)

Module Py.

(** The values that attributes and style entries hold.  A finite [float] is
    represented by the rational it denotes (comparisons between [int] and
    [float] are exact in Python); arrays, colormaps and artists are opaque
    objects known by identity. *)
#[warnings="-register-all"]
Inductive val :=
| None_
| Bool (b : bool)
| Int (n : Z)
| Float (q : Q)
| Str (s : string)
| Tuple (items : list val)
| Obj (id : N).

(** [type(v) == str and v == s]; also the value of [v == s] for the values
    a style file can hold, where only a [str] can equal a [str]. *)
Definition eq_str (v : val) (s : string) : bool :=
  match v with
  | Str t => bool_decide (t = s)
  | _ => false
  end.

(** [v is not None] *)
Definition is_not_None (v : val) : bool :=
  match v with
  | None_ => false
  | _ => true
  end.

(** [bool(v)], the truth value used by [if v:]. *)
Definition truthy (v : val) : bool :=
  match v with
  | None_ => false
  | Bool b => b
  | Int n => negb (n =? 0)%Z
  | Float q => negb (Qeq_bool q 0)
  | Str s => negb (bool_decide (s = ""))
  | Tuple items => negb (bool_decide (length items = 0))
  | Obj _ => true
  end.

(** The exceptions the modelled code raises or lets through. *)
Inductive exn :=
| GraphingException (msg : string)
| KeyError (key : string)
| AttributeError (name : string)
| RuntimeError (msg : string)
| ZeroDivisionError (msg : string)
| NotImplementedError
| TypeError (msg : string)
| IndexError (msg : string)
| OtherError (what : string).

(** A [dict] in insertion order, as iteration observes it. *)
Definition dict := list (string * val).

Fixpoint dict_get (k : string) (d : dict) : option val :=
  match d with
  | [] => None
  | (k', v) :: d' => if decide (k' = k) then Some v else dict_get k d'
  end.

(** [d[k] = v]: an existing key keeps its position, a new key goes last. *)
Fixpoint dict_set (k : string) (v : val) (d : dict) : dict :=
  match d with
  | [] => [(k, v)]
  | (k', v') :: d' =>
      if decide (k' = k) then (k', v) :: d' else (k', v') :: dict_set k v d'
  end.

Definition dict_keys (d : dict) : list string := d.*1.

(** A style dictionary as [FileLoader.load] returns it:
    [default_params[object_type][property]]. *)
Abbreviation style := (gmap string (gmap string val)).

(** [params[object_type][property]] with its [KeyError]s. *)
Definition style_item (params : style) (object_type property : string)
  : exn + val :=
  match params !! object_type with
  | None => inl (KeyError object_type)
  | Some section =>
      match section !! property with
      | None => inl (KeyError property)
      | Some v => inr v
      end
  end.

(** A method body: a state transformer that returns or raises. *)
Definition M (St A : Type) : Type := St → St * (exn + A).

Definition ret {St A} (a : A) : M St A := λ σ, (σ, inr a).
Definition raise {St A} (e : exn) : M St A := λ σ, (σ, inl e).
Definition bind {St A B} (m : M St A) (k : A → M St B) : M St B :=
  λ σ, match m σ with
       | (σ', inr a) => k a σ'
       | (σ', inl e) => (σ', inl e)
       end.
Definition get {St} : M St St := λ σ, (σ, inr σ).
Definition put {St} (σ' : St) : M St unit := λ _, (σ', inr tt).
Definition lift {St A} (r : exn + A) : M St A := λ σ, (σ, r).

(** Sequencing of expressions that may raise and touch no state. *)
Definition and_then {A B} (r : exn + A) (k : A → exn + B) : exn + B :=
  match r with
  | inr a => k a
  | inl e => inl e
  end.

End Py.

Notation "'let*' x ':=' m 'in' k" := (Py.bind m (fun x => k))
  (at level 10, x name, m at level 100, k at level 200).
Notation "m ';;;' k" := (Py.bind m (fun _ => k))
  (at level 100, k at level 200, right associativity).
Notation "'let?' x ':=' r 'in' k" := (Py.and_then r (fun x => k))
  (at level 10, x name, r at level 100, k at level 200).

(** ** Plottable elements *)

(** A Plottable as the containers see it: its class name and its instance
    dictionary [vars(element)], which belongs to the element alone. *)
Record Element := {
  class_name : string;
  __dict__ : Py.dict;
}.

(** [getattr(element, name)] on instance attributes. *)
Definition getattr (element : Element) (name : string) : Py.exn + Py.val :=
  match Py.dict_get name (__dict__ element) with
  | Some v => inr v
  | None => inl (Py.AttributeError name)
  end.

(** What a [_fill_in_missing_params] call can reach: the receiver and the
    element it is given. *)
Record Reach (Self : Type) := {
  self : Self;
  element : Element;
}.
Arguments self {Self} _.
Arguments element {Self} _.

(** [element.__dict__[property] = v] *)
Definition setitem {Self} (property : string) (v : Py.val)
  : Py.M (Reach Self) unit :=
  λ σ, ({| self := self σ;
           element := {| class_name := class_name (element σ);
                         __dict__ := Py.dict_set property v (__dict__ (element σ)) |} |},
        inr tt).

(** The item a dictionary iterator yields at its next step.  The iterator
    remembers the size the dictionary had when the loop began ([used]) and
    refuses to go on once the size differs. *)
Definition size_changed : Py.exn :=
  Py.RuntimeError "dictionary changed size during iteration".

(** ** The plotting backend *)

Module Backend.

(** Keyword arguments of [Axes.legend] and [Figure.legend]. *)
Record legend_args := {
  handles : list Py.val;
  labels : list Py.val;
  handleheight : Q;
  handler_map : list (string * string);
  frameon : Py.val;
  draggable : option bool;
}.

(** The calls the containers make on their collaborators, in order.  Axes
    are named by the position of the [subplot] call that created them. *)
Inductive call :=
| figure (layout : string) (figsize : Py.val)
| GridSpec (num_rows num_cols : Z)
| subplot (loc : Z * Z) (rowspan colspan : Z)
| set_xlabel (axes : nat) (name : string)
| set_ylabel (axes : nat) (name : string)
| set_xlim (axes : nat) (lim : Q * Q)
| set_ylim (axes : nat) (lim : Q * Q)
| set_xscale (axes : nat) (scale : string)
| set_yscale (axes : nat) (scale : string)
| tick_params (axes : nat) (axis direction which : string)
| grid (axes : nat) (which : string) (linestyle linewidth color alpha : Py.val)
| plot_element (element : Element) (axes : nat) (z_order : Z)
| axes_legend (axes : nat) (args : legend_args)
| figure_legend (args : legend_args)
| suptitle (title : option string)
| show
| savefig (file_name bbox_inches : string).

Definition is_plot_element (c : call) : bool :=
  match c with plot_element _ _ _ => true | _ => false end.

Definition is_legend (c : call) : bool :=
  match c with axes_legend _ _ | figure_legend _ => true | _ => false end.

Definition is_axes_legend (c : call) : bool :=
  match c with axes_legend _ _ => true | _ => false end.

Definition is_figure_legend (c : call) : bool :=
  match c with figure_legend _ => true | _ => false end.

End Backend.

(** The [handler_map] literal that every legend call is given. *)
Definition legend_handler_map : list (string * string) :=
  [("Polygon", "HandlerPatch(patch_func=histogram_legend_artist)");
   ("LineCollection", "HandlerMultipleLines()");
   ("VerticalLineCollection", "HandlerMultipleVerticalLines()")].

(** What the code under [src/] does not define: the style loader, the
    elements' own [_plot_element] and whether the backend accepts a
    legend call. *)
Record Collaborators := {
  (** [FileLoader(figure_style).load()] *)
  load : string → Py.exn + Py.style;
  (** [element._plot_element(axes, z_order)]: the element afterwards and
      the exception it raised, if any. *)
  _plot_element : Element → nat → Z → Element * option Py.exn;
  (** What a legend call raises, if anything; the bare [except:] catches
      whatever it is. *)
  legend_raises : Backend.call → option Py.exn;
}.

(** A container together with the backend calls made so far. *)
Record Scene (Self : Type) := {
  this : Self;
  calls : list Backend.call;
}.
Arguments this {Self} _.
Arguments calls {Self} _.

(** Makes a backend call; the result is the position of the call. *)
Definition backend {Self} (c : Backend.call) : Py.M (Scene Self) nat :=
  λ σ, ({| this := this σ; calls := calls σ ++ [c] |}, inr (length (calls σ))).

(** Assigns to the receiver. *)
Definition update {Self} (f : Self → Self) : Py.M (Scene Self) unit :=
  λ σ, ({| this := f (this σ); calls := calls σ |}, inr tt).

Definition receiver {Self} : Py.M (Scene Self) Self :=
  λ σ, (σ, inr (this σ)).

Definition when {St} (b : bool) (m : Py.M St unit) : Py.M St unit :=
  if b then m else Py.ret tt.

(** [self.name] for an attribute that may not have been assigned. *)
Definition assigned {St} (name : string) (a : option Py.val) : Py.M St Py.val :=
  match a with
  | Some v => Py.ret v
  | None => Py.raise (Py.AttributeError name)
  end.

(** ** SubFigure *)

Module SubFigure.

Record t := {
  x_axis_name : string;
  y_axis_name : string;
  x_lim : option (Q * Q);
  y_lim : option (Q * Q);
  placement : Z * Z * Z * Z;
  default_params : Py.style;
  log_scale_x : Py.val;
  log_scale_y : Py.val;
  legend_is_boxed : Py.val;
  ticks_are_in : Py.val;
  grid_is_set : bool;
  (** the four grid attributes exist once [set_grid] has run *)
  grid_line_style : option Py.val;
  grid_line_width : option Py.val;
  grid_color : option Py.val;
  grid_alpha : option Py.val;
  _elements : list Element;
  _labels : list Py.val;
  _handles : list Py.val;
  _axes : option nat;
}.

Definition with_elements (s : t) (l : list Element) : t :=
  {| x_axis_name := x_axis_name s; y_axis_name := y_axis_name s;
     x_lim := x_lim s; y_lim := y_lim s; placement := placement s;
     default_params := default_params s;
     log_scale_x := log_scale_x s; log_scale_y := log_scale_y s;
     legend_is_boxed := legend_is_boxed s; ticks_are_in := ticks_are_in s;
     grid_is_set := grid_is_set s;
     grid_line_style := grid_line_style s; grid_line_width := grid_line_width s;
     grid_color := grid_color s; grid_alpha := grid_alpha s;
     _elements := l; _labels := _labels s; _handles := _handles s;
     _axes := _axes s |}.

Definition with_labels (s : t) (l : list Py.val) : t :=
  {| x_axis_name := x_axis_name s; y_axis_name := y_axis_name s;
     x_lim := x_lim s; y_lim := y_lim s; placement := placement s;
     default_params := default_params s;
     log_scale_x := log_scale_x s; log_scale_y := log_scale_y s;
     legend_is_boxed := legend_is_boxed s; ticks_are_in := ticks_are_in s;
     grid_is_set := grid_is_set s;
     grid_line_style := grid_line_style s; grid_line_width := grid_line_width s;
     grid_color := grid_color s; grid_alpha := grid_alpha s;
     _elements := _elements s; _labels := l; _handles := _handles s;
     _axes := _axes s |}.

Definition with_handles (s : t) (l : list Py.val) : t :=
  {| x_axis_name := x_axis_name s; y_axis_name := y_axis_name s;
     x_lim := x_lim s; y_lim := y_lim s; placement := placement s;
     default_params := default_params s;
     log_scale_x := log_scale_x s; log_scale_y := log_scale_y s;
     legend_is_boxed := legend_is_boxed s; ticks_are_in := ticks_are_in s;
     grid_is_set := grid_is_set s;
     grid_line_style := grid_line_style s; grid_line_width := grid_line_width s;
     grid_color := grid_color s; grid_alpha := grid_alpha s;
     _elements := _elements s; _labels := _labels s; _handles := l;
     _axes := _axes s |}.

Definition with_axes (s : t) (a : nat) : t :=
  {| x_axis_name := x_axis_name s; y_axis_name := y_axis_name s;
     x_lim := x_lim s; y_lim := y_lim s; placement := placement s;
     default_params := default_params s;
     log_scale_x := log_scale_x s; log_scale_y := log_scale_y s;
     legend_is_boxed := legend_is_boxed s; ticks_are_in := ticks_are_in s;
     grid_is_set := grid_is_set s;
     grid_line_style := grid_line_style s; grid_line_width := grid_line_width s;
     grid_color := grid_color s; grid_alpha := grid_alpha s;
     _elements := _elements s; _labels := _labels s; _handles := _handles s;
     _axes := Some a |}.

(** [given if given != "default" else default_params["Figure"][key]] *)
Definition or_figure_default (given : Py.val) (params : Py.style) (key : string)
  : Py.exn + Py.val :=
  if negb (Py.eq_str given "default") then inr given
  else Py.style_item params "Figure" key.

Section Init.
Context (env : Collaborators).

Definition __init__ (placement : Z * Z * Z * Z) (x_label y_label : string)
    (x_lim y_lim : option (Q * Q)) (figure_style : string)
    (log_scale_x log_scale_y show_grid legend_is_boxed ticks_are_in : Py.val)
  : Py.exn + t :=
  let? params := load env figure_style in
  let? legend_is_boxed := or_figure_default legend_is_boxed params "boxed_legend" in
  let? ticks_are_in := or_figure_default ticks_are_in params "ticks_are_in" in
  let? log_scale_x := or_figure_default log_scale_x params "log_scale_x" in
  let? log_scale_y := or_figure_default log_scale_y params "log_scale_y" in
  let? show_grid := or_figure_default show_grid params "show_grid" in
  inr {| x_axis_name := x_label; y_axis_name := y_label;
         x_lim := x_lim; y_lim := y_lim; placement := placement;
         default_params := params;
         log_scale_x := log_scale_x; log_scale_y := log_scale_y;
         legend_is_boxed := legend_is_boxed; ticks_are_in := ticks_are_in;
         grid_is_set := false;
         grid_line_style := None; grid_line_width := None;
         grid_color := None; grid_alpha := None;
         _elements := []; _labels := []; _handles := []; _axes := None |}.

End Init.

(** What [add_element] does with one of its arguments. *)
Definition add_one (s : t) (element : Element) : t :=
  let s := with_elements s (_elements s ++ [element]) in
  match getattr element "label" with
  | inr label =>
      if Py.is_not_None label then with_labels s (_labels s ++ [label]) else s
  | inl _ => s
  end.

Definition add_element (s : t) (elements : list Element) : t :=
  foldl add_one s elements.

(** [self.default_params[object_type][property]] *)
Definition default_param (object_type property : string)
  : Py.M (Reach t) Py.val :=
  λ σ, (σ, Py.style_item (default_params (self σ)) object_type property).

(** The body of the [for property, value in vars(element).items()] loop. *)
Definition fill_one (object_type property : string) (value : Py.val)
  : Py.M (Reach t) unit :=
  if Py.eq_str value "default" then
    let* entry := default_param object_type property in
    if Py.eq_str entry "same as curve" then
      let* color := default_param object_type "color" in
      setitem "errorbars_color" color ;;;
      let* line_width := default_param object_type "line_width" in
      setitem "errorbars_line_width" line_width ;;;
      let* line_width := default_param object_type "line_width" in
      setitem "cap_thickness" line_width
    else
      let* entry := default_param object_type property in
      if Py.eq_str entry "same as scatter" then
        let* face_color := default_param object_type "face_color" in
        setitem "errorbars_color" face_color
      else
        let* v := default_param object_type property in
        setitem property v
  else Py.ret tt.

(** The loop itself: [properties] are the keys still to be visited, each
    read with the value the dictionary holds when its turn comes. *)
Fixpoint fill_loop (object_type : string) (used : nat) (properties : list string)
  : Py.M (Reach t) unit :=
  λ σ,
    if decide (length (__dict__ (element σ)) = used) then
      match properties with
      | [] => (σ, inr tt)
      | property :: rest =>
          match Py.dict_get property (__dict__ (element σ)) with
          | Some value =>
              (fill_one object_type property value ;;;
               fill_loop object_type used rest) σ
          | None => (σ, inl (Py.RuntimeError "dictionary keys changed during iteration"))
          end
      end
    else (σ, inl size_changed).

Definition _fill_in_missing_params : Py.M (Reach t) unit :=
  let* σ := Py.get in
  let object_type := class_name (element σ) in
  fill_loop object_type (length (__dict__ (element σ)))
            (Py.dict_keys (__dict__ (element σ))).

Section Prepare.
Context (env : Collaborators).

(** Runs a method that reaches the receiver and its [i]-th element. *)
Definition on_element {A} (i : nat) (m : Py.M (Reach t) A) : Py.M (Scene t) A :=
  λ σ,
    match _elements (this σ) !! i with
    | Some e =>
        let '(ρ, r) := m {| self := this σ; element := e |} in
        ({| this := with_elements (self ρ) (<[i := element ρ]> (_elements (self ρ)));
            calls := calls σ |}, r)
    | None => (σ, inl (Py.IndexError "list index out of range"))
    end.

(** [element._plot_element(self._axes, z_order)] *)
Definition plot (i : nat) (axes : nat) (z_order : Z) : Py.M (Scene t) unit :=
  λ σ,
    match _elements (this σ) !! i with
    | Some e =>
        let '(e', raised) := _plot_element env e axes z_order in
        ({| this := with_elements (this σ) (<[i := e']> (_elements (this σ)));
            calls := calls σ ++ [Backend.plot_element e axes z_order] |},
         match raised with Some x => inl x | None => inr tt end)
    | None => (σ, inl (Py.IndexError "list index out of range"))
    end.

(** The [try] block of the loop; [true] when [except AttributeError]
    reached [continue]. *)
Definition collect_handle (i : nat) : Py.M (Scene t) bool :=
  λ σ,
    match _elements (this σ) !! i with
    | Some e =>
        match getattr e "_label" with
        | inr label =>
            if Py.is_not_None label then
              match getattr e "_handle" with
              | inr handle =>
                  ({| this := with_handles (this σ) (_handles (this σ) ++ [handle]);
                      calls := calls σ |}, inr false)
              | inl _ => (σ, inr true)
              end
            else (σ, inr false)
        | inl _ => (σ, inr true)
        end
    | None => (σ, inl (Py.IndexError "list index out of range"))
    end.

(** [for element in self._elements], by position. *)
Fixpoint plot_loop (axes : nat) (indices : list nat) (z_order : Z)
  : Py.M (Scene t) unit :=
  match indices with
  | [] => Py.ret tt
  | i :: rest =>
      on_element i _fill_in_missing_params ;;;
      plot i axes z_order ;;;
      let* continued := collect_handle i in
      plot_loop axes rest (if continued then z_order else (z_order + 2)%Z)
  end.

Definition legend_args_of (handles labels : list Py.val) (frameon : Py.val)
    (draggable : option bool) : Backend.legend_args :=
  {| Backend.handles := handles; Backend.labels := labels;
     Backend.handleheight := 13 # 10;
     Backend.handler_map := legend_handler_map;
     Backend.frameon := frameon; Backend.draggable := draggable |}.

(** [try: legend(..., draggable=True) except: legend(...)] *)
Definition try_legend {Self} (mk : Backend.legend_args → Backend.call)
    (handles labels : list Py.val) (frameon : Py.val) : Py.M (Scene Self) unit :=
  let first := mk (legend_args_of handles labels frameon (Some true)) in
  backend first ;;;
  match legend_raises env first with
  | None => Py.ret tt
  | Some _ =>
      let second := mk (legend_args_of handles labels frameon None) in
      backend second ;;;
      match legend_raises env second with
      | None => Py.ret tt
      | Some x => Py.raise x
      end
  end.

(** The first part of [_prepare_SubFigure]: the axes of the SubFigure,
    labelled, scaled and gridded. *)
Definition set_up_axes : Py.M (Scene t) nat :=
  let* s := receiver in
  let '(row, col, rowspan, colspan) := placement s in
  let* axes := backend (Backend.subplot (row, col) rowspan colspan) in
  update (λ s, with_axes s axes) ;;;
  backend (Backend.set_xlabel axes (x_axis_name s)) ;;;
  backend (Backend.set_ylabel axes (y_axis_name s)) ;;;
  match x_lim s with
  | Some lim => backend (Backend.set_xlim axes lim) ;;; Py.ret tt
  | None => Py.ret tt
  end ;;;
  match y_lim s with
  | Some lim => backend (Backend.set_ylim axes lim) ;;; Py.ret tt
  | None => Py.ret tt
  end ;;;
  when (Py.truthy (log_scale_x s)) (backend (Backend.set_xscale axes "log") ;;; Py.ret tt) ;;;
  when (Py.truthy (log_scale_y s)) (backend (Backend.set_yscale axes "log") ;;; Py.ret tt) ;;;
  when (Py.truthy (ticks_are_in s))
       (backend (Backend.tick_params axes "both" "in" "both") ;;; Py.ret tt) ;;;
  when (grid_is_set s)
       (let* linestyle := assigned "grid_line_style" (grid_line_style s) in
        let* linewidth := assigned "grid_line_width" (grid_line_width s) in
        let* color := assigned "grid_color" (grid_color s) in
        let* alpha := assigned "grid_alpha" (grid_alpha s) in
        backend (Backend.grid axes "major" linestyle linewidth color alpha) ;;;
        Py.ret tt) ;;;
  Py.ret axes.

Definition _prepare_SubFigure (legend : bool)
  : Py.M (Scene t) (list Py.val * list Py.val) :=
  let* axes := set_up_axes in
  let* s := receiver in
  let legend := match _labels s with [] => false | _ => legend end in
  match _elements s with
  | _ :: _ =>
      plot_loop axes (seq 0 (length (_elements s))) 0 ;;;
      let* s := receiver in
      when legend
           (try_legend (Backend.axes_legend axes) (_handles s) (_labels s)
                       (legend_is_boxed s))
  | [] => Py.raise (Py.GraphingException "No curves to be plotted!")
  end ;;;
  let* s := receiver in
  Py.ret (_labels s, _handles s).

End Prepare.

(** Assigns the grid attributes. *)
Definition with_grid (s : t) (is_set : bool)
    (line_style line_width color alpha : option Py.val) : t :=
  {| x_axis_name := x_axis_name s; y_axis_name := y_axis_name s;
     x_lim := x_lim s; y_lim := y_lim s; placement := placement s;
     default_params := default_params s;
     log_scale_x := log_scale_x s; log_scale_y := log_scale_y s;
     legend_is_boxed := legend_is_boxed s; ticks_are_in := ticks_are_in s;
     grid_is_set := is_set;
     grid_line_style := line_style; grid_line_width := line_width;
     grid_color := color; grid_alpha := alpha;
     _elements := _elements s; _labels := _labels s; _handles := _handles s;
     _axes := _axes s |}.

(** [set_grid(line_width, line_style, color, alpha)]: four assignments,
    each of which may raise, then [grid_is_set = True]. *)
Definition set_grid (line_width line_style color alpha : Py.val) : Py.M t unit :=
  let* s := Py.get in
  let* v := Py.lift (or_figure_default line_style (default_params s) "grid_line_style") in
  Py.put (with_grid s (grid_is_set s) (Some v) (grid_line_width s) (grid_color s)
                    (grid_alpha s)) ;;;
  let* s := Py.get in
  let* v := Py.lift (or_figure_default line_width (default_params s) "grid_line_width") in
  Py.put (with_grid s (grid_is_set s) (grid_line_style s) (Some v) (grid_color s)
                    (grid_alpha s)) ;;;
  let* s := Py.get in
  let* v := Py.lift (or_figure_default color (default_params s) "grid_color") in
  Py.put (with_grid s (grid_is_set s) (grid_line_style s) (grid_line_width s) (Some v)
                    (grid_alpha s)) ;;;
  let* s := Py.get in
  let* v := Py.lift (or_figure_default alpha (default_params s) "grid_alpha") in
  Py.put (with_grid s (grid_is_set s) (grid_line_style s) (grid_line_width s)
                    (grid_color s) (Some v)) ;;;
  let* s := Py.get in
  Py.put (with_grid s true (grid_line_style s) (grid_line_width s) (grid_color s)
                    (grid_alpha s)).

End SubFigure.

(** ** MultiFigure *)

Module MultiFigure.

Record t := {
  num_rows : Z;
  num_cols : Z;
  title : option string;
  figure_style : string;
  default_params : Py.style;
  size : Py.val;
  legend_is_boxed : Py.val;
  _SubFigures : list SubFigure.t;
  _figure : option nat;
}.

Definition with_SubFigures (m : t) (l : list SubFigure.t) : t :=
  {| num_rows := num_rows m; num_cols := num_cols m; title := title m;
     figure_style := figure_style m; default_params := default_params m;
     size := size m; legend_is_boxed := legend_is_boxed m;
     _SubFigures := l; _figure := _figure m |}.

Definition with_figure (m : t) (f : nat) : t :=
  {| num_rows := num_rows m; num_cols := num_cols m; title := title m;
     figure_style := figure_style m; default_params := default_params m;
     size := size m; legend_is_boxed := legend_is_boxed m;
     _SubFigures := _SubFigures m; _figure := Some f |}.

(** [v[i]] for the values a figure size can be. *)
Definition getitem (v : Py.val) (i : nat) : Py.exn + Py.val :=
  match v with
  | Py.Tuple items =>
      match items !! i with
      | Some x => inr x
      | None => inl (Py.IndexError "tuple index out of range")
      end
  | Py.Str s =>
      match String.get i s with
      | Some c => inr (Py.Str (String c ""))
      | None => inl (Py.IndexError "string index out of range")
      end
  | _ => inl (Py.TypeError "object is not subscriptable")
  end.

(** [n >= v] for an [int] [n]. *)
Definition int_ge (n : Z) (v : Py.val) : Py.exn + bool :=
  match v with
  | Py.Int k => inr (k <=? n)%Z
  | Py.Bool b => inr ((if b then 1 else 0) <=? n)%Z
  | Py.Float q => inr (Qle_bool q (inject_Z n))
  | _ => inl (Py.TypeError "'>=' not supported")
  end.

Section Methods.
Context (env : Collaborators).

(** The constructor, without its update of the global [rcParams]. *)
Definition __init__ (num_rows num_cols : Z) (size : Py.val) (title : option string)
    (figure_style : string) (legend_is_boxed : Py.val) : Py.exn + t :=
  let? params := load env figure_style in
  let? size := SubFigure.or_figure_default size params "size" in
  let? legend_is_boxed :=
    SubFigure.or_figure_default legend_is_boxed params "boxed_legend" in
  inr {| num_rows := num_rows; num_cols := num_cols; title := title;
         figure_style := figure_style; default_params := params;
         size := size; legend_is_boxed := legend_is_boxed;
         _SubFigures := []; _figure := None |}.

Definition add_SubFigure (placement : Z * Z * Z * Z) (x_label y_label : string)
    (x_lim y_lim : option (Q * Q))
    (log_scale_x log_scale_y show_grid legend_is_boxed ticks_are_in : Py.val)
  : Py.M t SubFigure.t :=
  let* m := Py.get in
  let '(row, col, _, _) := placement in
  let* rows_out := Py.lift (let? bound := getitem (size m) 0 in int_ge row bound) in
  let* outside :=
    if rows_out then Py.ret true
    else Py.lift (let? bound := getitem (size m) 1 in int_ge col bound) in
  if outside then
    Py.raise (Py.GraphingException
                "The placement value must be inside the size of the MultiFigure.")
  else if (row <? 0)%Z || (col <? 0)%Z then
    Py.raise (Py.GraphingException "The placement value cannot be negative.")
  else
    let* new_SubFigure :=
      Py.lift (SubFigure.__init__ env placement x_label y_label x_lim y_lim
                 (figure_style m) log_scale_x log_scale_y show_grid
                 legend_is_boxed ticks_are_in) in
    let* m := Py.get in
    Py.put (with_SubFigures m (_SubFigures m ++ [new_SubFigure])) ;;;
    Py.ret new_SubFigure.

(** Runs a SubFigure method on the [i]-th SubFigure of the receiver. *)
Definition on_SubFigure {A} (i : nat) (m : Py.M (Scene SubFigure.t) A)
  : Py.M (Scene t) A :=
  λ σ,
    match _SubFigures (this σ) !! i with
    | Some s =>
        let '(ρ, r) := m {| this := s; calls := calls σ |} in
        ({| this := with_SubFigures (this σ) (<[i := this ρ]> (_SubFigures (this σ)));
            calls := calls ρ |}, r)
    | None => (σ, inl (Py.IndexError "list index out of range"))
    end.

(** [for SubFigure in self._SubFigures], by position. *)
Fixpoint prepare_loop (SubFigures_legend : bool) (indices : list nat)
    (labels handles : list Py.val)
  : Py.M (Scene t) (list Py.val * list Py.val) :=
  match indices with
  | [] => Py.ret (labels, handles)
  | i :: rest =>
      let* lh := on_SubFigure i (SubFigure._prepare_SubFigure env SubFigures_legend) in
      let '(SubFigure_labels, SubFigure_handles) := lh in
      prepare_loop SubFigures_legend rest
                   (labels ++ SubFigure_labels) (handles ++ SubFigure_handles)
  end.

Definition _prepare_MultiFigure (legend : bool) : Py.M (Scene t) unit :=
  let* m := receiver in
  let* fig := backend (Backend.figure "constrained" (size m)) in
  update (λ m, with_figure m fig) ;;;
  backend (Backend.GridSpec (num_rows m) (num_cols m)) ;;;
  let SubFigures_legend := if negb legend then true else false in
  let* lh := prepare_loop SubFigures_legend (seq 0 (length (_SubFigures m))) [] [] in
  let '(labels, handles) := lh in
  when legend
       (SubFigure.try_legend env Backend.figure_legend handles labels
                             (legend_is_boxed m)) ;;;
  backend (Backend.suptitle (title m)) ;;;
  Py.ret tt.

Definition display (legend : bool) : Py.M (Scene t) unit :=
  _prepare_MultiFigure legend ;;;
  backend Backend.show ;;;
  Py.ret tt.

Definition save_figure (file_name : string) (legend : bool) : Py.M (Scene t) unit :=
  _prepare_MultiFigure legend ;;;
  backend (Backend.savefig file_name "tight") ;;;
  Py.ret tt.

End Methods.

(** [self.default_params[object_type][property]] *)
Definition default_param (object_type property : string)
  : Py.M (Reach t) Py.val :=
  λ σ, (σ, Py.style_item (default_params (self σ)) object_type property).

(** The body of the [for property, value in vars(element).items()] loop. *)
Definition fill_one (object_type property : string) (value : Py.val)
  : Py.M (Reach t) unit :=
  if Py.eq_str value "default" then
    let* entry := default_param object_type property in
    if Py.eq_str entry "same as curve" then
      let* color := default_param object_type "color" in
      setitem "errorbars_color" color ;;;
      let* line_width := default_param object_type "line_width" in
      setitem "errorbars_line_width" line_width ;;;
      let* line_width := default_param object_type "line_width" in
      setitem "cap_thickness" line_width
    else
      let* entry := default_param object_type property in
      if Py.eq_str entry "same as scatter" then
        let* face_color := default_param object_type "face_color" in
        setitem "errorbars_color" face_color
      else
        let* v := default_param object_type property in
        setitem property v
  else Py.ret tt.

Fixpoint fill_loop (object_type : string) (used : nat) (properties : list string)
  : Py.M (Reach t) unit :=
  λ σ,
    if decide (length (__dict__ (element σ)) = used) then
      match properties with
      | [] => (σ, inr tt)
      | property :: rest =>
          match Py.dict_get property (__dict__ (element σ)) with
          | Some value =>
              (fill_one object_type property value ;;;
               fill_loop object_type used rest) σ
          | None => (σ, inl (Py.RuntimeError "dictionary keys changed during iteration"))
          end
      end
    else (σ, inl size_changed).

Definition _fill_in_missing_params : Py.M (Reach t) unit :=
  let* σ := Py.get in
  let object_type := class_name (element σ) in
  fill_loop object_type (length (__dict__ (element σ)))
            (Py.dict_keys (__dict__ (element σ))).

End MultiFigure.

(** ** data_plotting_2d *)

(** The array library and image reader that [data_plotting_2d] imports. *)
Record Numerics := {
  (** [imread(file_name)], which raises when the file cannot be read *)
  imread : string → Py.exn + Py.val;
  (** [np.array(data)] *)
  np_array : Py.val → Py.val;
}.

(** Drawing calls made by the elements themselves. *)
Inductive drawing :=
| imshow (image cmap alpha aspect origin interpolation : Py.val)
         (extent : option (Q * Q * Q * Q)) (zorder : Z)
| colorbar (ax : nat)
| quiver (x y u v color : Py.val) (zorder : Z) (angles : string)
         (width headwidth headlength headaxislength : Py.val).

Module Heatmap.

Record t := {
  image : Py.val;
  x_axis_range : option (Q * Q);
  y_axis_range : option (Q * Q);
  color_map : Py.val;
  show_color_bar : bool;
  alpha_value : Py.val;
  aspect_ratio : Py.val;
  origin_position : Py.val;
  interpolation : Py.val;
  (** assigned by [__post_init__] only *)
  _xy_range : option (Q * Q * Q * Q);
}.

Definition with_image (h : t) (v : Py.val) : t :=
  {| image := v; x_axis_range := x_axis_range h; y_axis_range := y_axis_range h;
     color_map := color_map h; show_color_bar := show_color_bar h;
     alpha_value := alpha_value h; aspect_ratio := aspect_ratio h;
     origin_position := origin_position h; interpolation := interpolation h;
     _xy_range := _xy_range h |}.

Definition with_show_color_bar (h : t) (b : bool) : t :=
  {| image := image h; x_axis_range := x_axis_range h; y_axis_range := y_axis_range h;
     color_map := color_map h; show_color_bar := b;
     alpha_value := alpha_value h; aspect_ratio := aspect_ratio h;
     origin_position := origin_position h; interpolation := interpolation h;
     _xy_range := _xy_range h |}.

Definition with_xy_range (h : t) (r : Q * Q * Q * Q) : t :=
  {| image := image h; x_axis_range := x_axis_range h; y_axis_range := y_axis_range h;
     color_map := color_map h; show_color_bar := show_color_bar h;
     alpha_value := alpha_value h; aspect_ratio := aspect_ratio h;
     origin_position := origin_position h; interpolation := interpolation h;
     _xy_range := Some r |}.

(** Tuple concatenation [x_axis_range + y_axis_range]. *)
Definition concat_ranges (x y : Q * Q) : Q * Q * Q * Q :=
  (x.1, x.2, y.1, y.2).

Section Methods.
Context (lib : Numerics).

Definition __post_init__ : Py.M t unit :=
  let* h := Py.get in
  match image h with
  | Py.Str file_name =>
      let* pixels := Py.lift (imread lib file_name) in
      let* h := Py.get in
      Py.put (with_image h pixels) ;;;
      let* h := Py.get in
      Py.put (with_show_color_bar h false)
  | data =>
      Py.put (with_image h (np_array lib data))
  end ;;;
  let* h := Py.get in
  match x_axis_range h, y_axis_range h with
  | Some x, Some y => Py.put (with_xy_range h (concat_ranges x y))
  | _, _ => Py.ret tt
  end.

(** The dataclass constructor: the generated [__init__] stores the
    arguments and calls [__post_init__]. *)
Definition new (image : Py.val) (x_axis_range y_axis_range : option (Q * Q))
    (color_map : Py.val) (show_color_bar : bool)
    (alpha_value aspect_ratio origin_position interpolation : Py.val)
  : Py.exn + t :=
  let fresh :=
    {| image := image; x_axis_range := x_axis_range; y_axis_range := y_axis_range;
       color_map := color_map; show_color_bar := show_color_bar;
       alpha_value := alpha_value; aspect_ratio := aspect_ratio;
       origin_position := origin_position; interpolation := interpolation;
       _xy_range := None |} in
  match __post_init__ fresh with
  | (h, inr _) => inr h
  | (_, inl e) => inl e
  end.

End Methods.

(** [_plot_element(axes, z_order)]: the drawing calls, or the
    [AttributeError] of a missing [_xy_range]. *)
Definition _plot_element (h : t) (axes : nat) (z_order : Z)
  : Py.exn + list drawing :=
  let? shown :=
    match x_axis_range h, y_axis_range h with
    | Some _, Some _ =>
        match _xy_range h with
        | Some extent =>
            inr (imshow (image h) (color_map h) (alpha_value h) (aspect_ratio h)
                        (origin_position h) (interpolation h) (Some extent) z_order)
        | None => inl (Py.AttributeError "_xy_range")
        end
    | _, _ =>
        inr (imshow (image h) (color_map h) (alpha_value h) (aspect_ratio h)
                    (origin_position h) (interpolation h) None z_order)
    end in
  inr (if show_color_bar h then [shown; colorbar axes] else [shown]).

End Heatmap.

Module VectorField.

Record t := {
  x_data : Py.val;
  y_data : Py.val;
  u_data : Py.val;
  v_data : Py.val;
  arrow_length_multiplier : Py.val;
  arrow_width : Py.val;
  arrow_head_width : Py.val;
  arrow_head_length : Py.val;
  arrow_head_axis_length : Py.val;
  angle_in_data_coords : Py.val;
  color : Py.val;
}.

Definition __post_init__ (lib : Numerics) (f : t) : t :=
  {| x_data := np_array lib (x_data f); y_data := np_array lib (y_data f);
     u_data := np_array lib (u_data f); v_data := np_array lib (v_data f);
     arrow_length_multiplier := arrow_length_multiplier f;
     arrow_width := arrow_width f; arrow_head_width := arrow_head_width f;
     arrow_head_length := arrow_head_length f;
     arrow_head_axis_length := arrow_head_axis_length f;
     angle_in_data_coords := angle_in_data_coords f; color := color f |}.

(** [_plot_element(axes, z_order)]: the one [axes.quiver] call. *)
Definition _plot_element (f : t) (axes : nat) (z_order : Z) : drawing :=
  let angle := if Py.truthy (angle_in_data_coords f) then "xy" else "uv" in
  quiver (x_data f) (y_data f) (u_data f) (v_data f) (color f) z_order angle
         (arrow_width f) (arrow_head_width f) (arrow_head_length f)
         (arrow_head_axis_length f).

(** Two vector fields that agree on every attribute except, possibly,
    [arrow_length_multiplier]. *)
Definition differ_only_in_arrow_length_multiplier (f g : t) : Prop :=
  x_data f = x_data g ∧ y_data f = y_data g ∧
  u_data f = u_data g ∧ v_data f = v_data g ∧
  arrow_width f = arrow_width g ∧ arrow_head_width f = arrow_head_width g ∧
  arrow_head_length f = arrow_head_length g ∧
  arrow_head_axis_length f = arrow_head_axis_length g ∧
  angle_in_data_coords f = angle_in_data_coords g ∧ color f = color g.

End VectorField.

(** ** tools *)

Module MathematicalObject.

(** [Self | float]: the other operand of an operator. *)
Inductive operand (Obj : Type) :=
| Same (x : Obj)
| Number (v : Py.val).
Arguments Same {Obj} _.
Arguments Number {Obj} _.

(** The operators the children class must implement.  They run over the
    program's objects [Heap], return an object or raise. *)
Class Operators (Heap Obj : Type) := {
  __add__ : Obj → operand Obj → Py.M Heap Obj;
  __sub__ : Obj → operand Obj → Py.M Heap Obj;
  __mul__ : Obj → operand Obj → Py.M Heap Obj;
  __truediv__ : Obj → operand Obj → Py.M Heap Obj;
  __pow__ : Obj → operand Obj → Py.M Heap Obj;
}.

Section Mixin.
Context {Heap Obj : Type} {ops : Operators Heap Obj}.

(** The literal [(-1)]. *)
Definition minus_one : operand Obj := Number (Py.Int (-1)).

Definition __radd__ (self : Obj) (other : operand Obj) : Py.M Heap Obj :=
  __add__ self other.

Definition __iadd__ (self : Obj) (other : operand Obj) : Py.M Heap Obj :=
  let* self := __add__ self other in
  Py.ret self.

Definition __rsub__ (self : Obj) (other : operand Obj) : Py.M Heap Obj :=
  let* difference := __sub__ self other in
  __mul__ difference minus_one.

Definition __isub__ (self : Obj) (other : operand Obj) : Py.M Heap Obj :=
  let* self := __sub__ self other in
  Py.ret self.

Definition __rmul__ (self : Obj) (other : operand Obj) : Py.M Heap Obj :=
  __mul__ self other.

Definition __imul__ (self : Obj) (other : operand Obj) : Py.M Heap Obj :=
  let* self := __mul__ self other in
  Py.ret self.

Definition __rtruediv__ (self : Obj) (other : operand Obj) : Py.M Heap Obj :=
  λ h,
    match (let* quotient := __truediv__ self other in
           __pow__ quotient minus_one) h with
    | (h', inl (Py.ZeroDivisionError _)) =>
        (h', inl (Py.ZeroDivisionError "Cannot divide by zero."))
    | outcome => outcome
    end.

Definition __itruediv__ (self : Obj) (other : operand Obj) : Py.M Heap Obj :=
  let* self := __truediv__ self other in
  Py.ret self.

Definition __rpow__ (self : Obj) (other : operand Obj) : Py.M Heap Obj :=
  Py.raise Py.NotImplementedError.

Definition __ipow__ (self : Obj) (other : operand Obj) : Py.M Heap Obj :=
  let* self := __pow__ self other in
  Py.ret self.

End Mixin.

End MathematicalObject.

(** ** The resolution loop as a function on the attribute dictionary *)

(** Both [_fill_in_missing_params] methods compute this function of the
    style dictionary and the element's attributes; it is used to state what
    they compute. *)
Module Resolution.

(** The attributes that an alias marker in the style assigns. *)
Definition alias_targets : list string :=
  ["errorbars_color"; "errorbars_line_width"; "cap_thickness"].

Definition is_alias (v : Py.val) : bool :=
  Py.eq_str v "same as curve" || Py.eq_str v "same as scatter".

Definition step (params : Py.style) (object_type property : string)
    (value : Py.val) (d : Py.dict) : Py.dict * (Py.exn + unit) :=
  if Py.eq_str value "default" then
    match Py.style_item params object_type property with
    | inl e => (d, inl e)
    | inr entry =>
        if Py.eq_str entry "same as curve" then
          match Py.style_item params object_type "color" with
          | inl e => (d, inl e)
          | inr color =>
              let d := Py.dict_set "errorbars_color" color d in
              match Py.style_item params object_type "line_width" with
              | inl e => (d, inl e)
              | inr line_width =>
                  (Py.dict_set "cap_thickness" line_width
                     (Py.dict_set "errorbars_line_width" line_width d), inr tt)
              end
          end
        else if Py.eq_str entry "same as scatter" then
          match Py.style_item params object_type "face_color" with
          | inl e => (d, inl e)
          | inr face_color => (Py.dict_set "errorbars_color" face_color d, inr tt)
          end
        else (Py.dict_set property entry d, inr tt)
    end
  else (d, inr tt).

Fixpoint run (params : Py.style) (object_type : string) (used : nat)
    (properties : list string) (d : Py.dict) : Py.dict * (Py.exn + unit) :=
  if decide (length d = used) then
    match properties with
    | [] => (d, inr tt)
    | property :: rest =>
        match Py.dict_get property d with
        | Some value =>
            match step params object_type property value d with
            | (d', inr _) => run params object_type used rest d'
            | (d', inl e) => (d', inl e)
            end
        | None => (d, inl (Py.RuntimeError "dictionary keys changed during iteration"))
        end
    end
  else (d, inl size_changed).

Definition fill (params : Py.style) (e : Element) : Element * (Py.exn + unit) :=
  let r := run params (class_name e) (length (__dict__ e))
               (Py.dict_keys (__dict__ e)) (__dict__ e) in
  ({| class_name := class_name e; __dict__ := r.1 |}, r.2).

End Resolution.

(** The state a [_fill_in_missing_params] call reaches when the element's
    attributes become [d]. *)
Definition with_dict {Self} (σ : Reach Self) (d : Py.dict) : Reach Self :=
  {| self := self σ;
     element := {| class_name := class_name (element σ); __dict__ := d |} |}.

(** The elements handed to [_plot_element], in the order of the calls. *)
Definition plotted (cs : list Backend.call) : list Element :=
  omap (λ c, match c with Backend.plot_element e _ _ => Some e | _ => None end) cs.

(** What the [try] block of the plotting loop does with an element: the
    handles it appends and whether it reaches [continue]. *)
Definition try_handle (e : Element) : list Py.val * bool :=
  match getattr e "_label" with
  | inr label =>
      if Py.is_not_None label then
        match getattr e "_handle" with
        | inr handle => ([handle], false)
        | inl _ => ([], true)
        end
      else ([], false)
  | inl _ => ([], true)
  end.

(** An element that resolves and plots without raising. *)
Definition plots_cleanly (env : Collaborators) (params : Py.style) (e : Element)
  : Prop :=
  (Resolution.fill params e).2 = inr tt ∧
  ∀ axes z_order,
    (_plot_element env (Resolution.fill params e).1 axes z_order).2 = None.

(** The attributes of a SubFigure that preparing it never assigns. *)
Definition fixed (s : SubFigure.t) :=
  (SubFigure.x_axis_name s, SubFigure.y_axis_name s, SubFigure.x_lim s,
   SubFigure.y_lim s, SubFigure.placement s, SubFigure.default_params s,
   SubFigure.log_scale_x s, SubFigure.log_scale_y s,
   SubFigure.legend_is_boxed s, SubFigure.ticks_are_in s,
   SubFigure.grid_is_set s, SubFigure.grid_line_style s,
   SubFigure.grid_line_width s, SubFigure.grid_color s, SubFigure.grid_alpha s,
   SubFigure._labels s).

(** Calls that label, scale or grid an axes. *)
Definition is_decoration (c : Backend.call) : bool :=
  negb (Backend.is_plot_element c) && negb (Backend.is_legend c).

(** [set_grid] has run whenever [grid_is_set] says so. *)
Definition grid_ready (s : SubFigure.t) : Prop :=
  SubFigure.grid_is_set s = true →
  is_Some (SubFigure.grid_line_style s) ∧ is_Some (SubFigure.grid_line_width s) ∧
  is_Some (SubFigure.grid_color s) ∧ is_Some (SubFigure.grid_alpha s).

(** The exception of an empty SubFigure. *)
Definition no_curves : Py.exn :=
  Py.GraphingException "No curves to be plotted!".

(** Collaborators that never raise the SubFigure's own exception. *)
Definition foreign (env : Collaborators) : Prop :=
  (∀ e axes z_order, (_plot_element env e axes z_order).2 ≠ Some no_curves) ∧
  (∀ c, legend_raises env c ≠ Some no_curves).

(** The keyword arguments that every legend call of the containers has
    in common: the handle height and the composite handler map. *)
Definition common_legend_args (args : Backend.legend_args) : Prop :=
  Backend.handleheight args = (13 # 10)%Q ∧
  Backend.handler_map args =
    [("Polygon", "HandlerPatch(patch_func=histogram_legend_artist)");
     ("LineCollection", "HandlerMultipleLines()");
     ("VerticalLineCollection", "HandlerMultipleVerticalLines()")].

(** The legend call a SubFigure makes for itself: on its own axes, with
    its handles, its labels and its frame. *)
Definition own_legend (sf : SubFigure.t) (c : Backend.call) : Prop :=
  ∃ a args,
    SubFigure._axes sf = Some a ∧ c = Backend.axes_legend a args ∧
    Backend.handles args = SubFigure._handles sf ∧
    Backend.labels args = SubFigure._labels sf ∧
    Backend.frameon args = SubFigure.legend_is_boxed sf ∧
    common_legend_args args.

(** The figure-level legend call over all SubFigures: the handles and the
    labels of the SubFigures, concatenated in their order, and the frame of
    the MultiFigure. *)
Definition figure_legend_of (m : MultiFigure.t) (subfigures : list SubFigure.t)
    (c : Backend.call) : Prop :=
  ∃ args,
    c = Backend.figure_legend args ∧
    Backend.handles args = concat (SubFigure._handles <$> subfigures) ∧
    Backend.labels args = concat (SubFigure._labels <$> subfigures) ∧
    Backend.frameon args = MultiFigure.legend_is_boxed m ∧
    common_legend_args args.

(** A legend call is given the composite handler map. *)
Definition carries_handler_map (c : Backend.call) : Prop :=
  ∀ args, c = Backend.figure_legend args ∨ (∃ a, c = Backend.axes_legend a args) →
          Backend.handler_map args =
            [("Polygon", "HandlerPatch(patch_func=histogram_legend_artist)");
             ("LineCollection", "HandlerMultipleLines()");
             ("VerticalLineCollection", "HandlerMultipleVerticalLines()")].
(** ** Sample objects *)

(** An excerpt of a figure style in the shape [FileLoader.load] returns. *)
Definition plain : Py.style :=
  {[ "Figure" := {[ "size" := Py.Tuple [Py.Int 11; Py.Int 7];
                    "boxed_legend" := Py.Bool true;
                    "ticks_are_in" := Py.Bool false;
                    "log_scale_x" := Py.Bool false;
                    "log_scale_y" := Py.Bool false;
                    "show_grid" := Py.Bool false ]};
     "Curve" := {[ "color" := Py.Str "k";
                   "line_width" := Py.Int 2;
                   "line_style" := Py.Str "-";
                   "errorbars_color" := Py.Str "same as curve";
                   "errorbars_line_width" := Py.Str "same as curve";
                   "cap_thickness" := Py.Str "same as curve" ]};
     "Scatter" := {[ "face_color" := Py.Str "k";
                     "marker_size" := Py.Int 30;
                     "errorbars_color" := Py.Str "same as scatter";
                     "errorbars_line_width" := Py.Str "same as scatter" ]} ]}.

(** Collaborators that load [plain], let every element plot itself and
    record an artist as its handle, and accept every legend call. *)
Definition sample_env : Collaborators :=
  {| load := λ figure_style,
       if decide (figure_style = "plain") then inr plain
       else inl (Py.OtherError "FileNotFoundError");
     _plot_element := λ e axes z_order,
       ({| class_name := class_name e;
           __dict__ := Py.dict_set "_handle" (Py.Obj (N.of_nat axes)) (__dict__ e) |},
        None);
     legend_raises := λ _, None |}.

Definition plain_SubFigure : SubFigure.t :=
  {| SubFigure.x_axis_name := "x axis"; SubFigure.y_axis_name := "y axis";
     SubFigure.x_lim := None; SubFigure.y_lim := None;
     SubFigure.placement := (0, 0, 1, 1)%Z;
     SubFigure.default_params := plain;
     SubFigure.log_scale_x := Py.Bool false; SubFigure.log_scale_y := Py.Bool false;
     SubFigure.legend_is_boxed := Py.Bool true; SubFigure.ticks_are_in := Py.Bool false;
     SubFigure.grid_is_set := false;
     SubFigure.grid_line_style := None; SubFigure.grid_line_width := None;
     SubFigure.grid_color := None; SubFigure.grid_alpha := None;
     SubFigure._elements := []; SubFigure._labels := []; SubFigure._handles := [];
     SubFigure._axes := None |}.

Definition plain_MultiFigure : MultiFigure.t :=
  {| MultiFigure.num_rows := 2; MultiFigure.num_cols := 2;
     MultiFigure.title := None; MultiFigure.figure_style := "plain";
     MultiFigure.default_params := plain;
     MultiFigure.size := Py.Tuple [Py.Int 11; Py.Int 7];
     MultiFigure.legend_is_boxed := Py.Bool true;
     MultiFigure._SubFigures := []; MultiFigure._figure := None |}.

(** A curve whose colour and line style are left to the style. *)
Definition plain_curve : Element :=
  {| class_name := "Curve";
     __dict__ := [("label", Py.Str "sine"); ("_label", Py.Str "sine");
                  ("color", Py.Str "default"); ("line_width", Py.Int 3);
                  ("line_style", Py.Str "default")] |}.

(** A curve with error bars: their colour is left to the style, their
    line width and cap thickness were chosen by the caller. *)
Definition curve_with_errorbars : Element :=
  {| class_name := "Curve";
     __dict__ := [("color", Py.Str "b"); ("line_width", Py.Int 1);
                  ("errorbars_color", Py.Str "default");
                  ("errorbars_line_width", Py.Int 5);
                  ("cap_thickness", Py.Int 3)] |}.

(** A scatter plot with error bars left to the style. *)
Definition scatter_with_errorbars : Element :=
  {| class_name := "Scatter";
     __dict__ := [("face_color", Py.Str "default");
                  ("errorbars_color", Py.Str "default");
                  ("errorbars_line_width", Py.Str "default")] |}.

(** The resolution property in its strongest form: every attribute that
    held ["default"] holds its own style entry afterwards and no attribute
    holds ["default"] any more, for a style with an entry for each
    attribute of the element. *)
Definition resolves_every_default (s : SubFigure.t) (e : Element) : Prop :=
  let entry := Py.style_item (SubFigure.default_params s) (class_name e) in
  let after :=
    __dict__ (element (SubFigure._fill_in_missing_params
                         {| self := s; element := e |}).1) in
  (∀ p, is_Some (Py.dict_get p (__dict__ e)) → ∃ w, entry p = inr w) →
  (∀ p, Py.dict_get p (__dict__ e) = Some (Py.Str "default") →
        ∃ w, entry p = inr w ∧ Py.dict_get p after = Some w) ∧
  (∀ p, Py.dict_get p after ≠ Some (Py.Str "default")).

(** Two SubFigures of the sample MultiFigure: one with a labelled curve
    and a curve with error bars, one with a curve with error bars only. *)
Definition sample_SubFigures : list SubFigure.t :=
  [SubFigure.add_element plain_SubFigure [plain_curve; curve_with_errorbars];
   SubFigure.add_element plain_SubFigure [curve_with_errorbars]].

Definition sample_MultiFigure : MultiFigure.t :=
  MultiFigure.with_SubFigures plain_MultiFigure sample_SubFigures.

(** A grid of 20 by 20 squares on a figure of 11 by 7 inches. *)
Definition fine_MultiFigure : MultiFigure.t :=
  {| MultiFigure.num_rows := 20; MultiFigure.num_cols := 20;
     MultiFigure.title := None; MultiFigure.figure_style := "plain";
     MultiFigure.default_params := plain;
     MultiFigure.size := Py.Tuple [Py.Int 11; Py.Int 7];
     MultiFigure.legend_is_boxed := Py.Bool true;
     MultiFigure._SubFigures := []; MultiFigure._figure := None |}.

(** [mf.add_SubFigure(placement)] with every other argument at its default. *)
Definition add_SubFigure_at (placement : Z * Z * Z * Z)
  : Py.M MultiFigure.t SubFigure.t :=
  MultiFigure.add_SubFigure sample_env placement "x axis" "y axis" None None
    (Py.Str "default") (Py.Str "default") (Py.Str "default")
    (Py.Str "default") (Py.Str "default").

(** A placement is valid for the grid of a MultiFigure. *)
Definition valid_placement (m : MultiFigure.t) (placement : Z * Z * Z * Z) : Prop :=
  let '(row, col, _, _) := placement in
  (0 ≤ row < MultiFigure.num_rows m)%Z ∧ (0 ≤ col < MultiFigure.num_cols m)%Z.

(** An image reader that knows one file and an array constructor that
    leaves arrays as they are. *)
Definition sample_numerics : Numerics :=
  {| imread := λ file_name,
       if decide (file_name = "image.png") then inr (Py.Obj 7)
       else inl (Py.OtherError "FileNotFoundError");
     np_array := λ data, data |}.

Definition sample_VectorField (arrow_length_multiplier : Py.val) : VectorField.t :=
  {| VectorField.x_data := Py.Obj 1; VectorField.y_data := Py.Obj 2;
     VectorField.u_data := Py.Obj 3; VectorField.v_data := Py.Obj 4;
     VectorField.arrow_length_multiplier := arrow_length_multiplier;
     VectorField.arrow_width := Py.Float (1 # 200);
     VectorField.arrow_head_width := Py.Int 3;
     VectorField.arrow_head_length := Py.Int 5;
     VectorField.arrow_head_axis_length := Py.Float (9 # 2);
     VectorField.angle_in_data_coords := Py.Bool true;
     VectorField.color := Py.Str "k" |}.

(** ** Arithmetic meaning of the operators *)

Module Arithmetic.
Import MathematicalObject.

Section Meaning.
Context {Heap Obj : Type} {ops : Operators Heap Obj}.
(** The number an object stands for. *)
Context (den : Obj → Q).

(** The number an operand stands for. *)
Definition value_of (a : operand Obj) : option Q :=
  match a with
  | Same y => Some (den y)
  | Number (Py.Int n) => Some (inject_Z n)
  | Number (Py.Float q) => Some q
  | Number _ => None
  end.

End Meaning.

Section Laws.
Context {Heap Obj : Type} {ops : Operators Heap Obj}.
(** What the objects stand for: values of some kind [T], compared by
    [eqv], with a subtraction, a division, a negation and an inversion. *)
Context {T : Type} (eqv : relation T) (sub div : T → T → T) (neg inv : T → T).
(** The value an object stands for and the value of a number. *)
Context (den : Obj → T) (num : Py.val → option T).

(** The value an operand stands for. *)
Definition meaning (a : operand Obj) : option T :=
  match a with
  | Same y => Some (den y)
  | Number v => num v
  end.

(** Negation distributes over subtraction and inversion over division. *)
Definition laws : Prop :=
  (∀ u v, eqv (neg (sub u v)) (sub v u)) ∧
  (∀ u v, eqv (inv (div u v)) (div v u)).

(** The operators of the children class satisfy ordinary arithmetic laws:
    [__sub__] and [__truediv__] compute a subtraction and a division,
    multiplying by [-1] negates and raising to the power [-1] inverts, and
    the two laws hold. *)
Definition ordinary : Prop :=
  Equivalence eqv ∧ Proper (eqv ==> eqv) neg ∧ Proper (eqv ==> eqv) inv ∧
  laws ∧
  (∀ x a h h' r v, __sub__ x a h = (h', inr r) → meaning a = Some v →
                   eqv (den r) (sub (den x) v)) ∧
  (∀ x h h' r, __mul__ x minus_one h = (h', inr r) → eqv (den r) (neg (den x))) ∧
  (∀ x a h h' r v, __truediv__ x a h = (h', inr r) → meaning a = Some v →
                   eqv (den r) (div (den x) v)) ∧
  (∀ x h h' r, __pow__ x minus_one h = (h', inr r) → eqv (den r) (inv (den x))).

End Laws.

(** The rational a number stands for. *)
Definition rational_number (v : Py.val) : option Q :=
  match v with
  | Py.Int n => Some (inject_Z n)
  | Py.Float q => Some q
  | _ => None
  end.

(** A children class of exact rationals without state of its own. *)
Definition number (a : operand Q) : Py.exn + Q :=
  match value_of (λ q, q) a with
  | Some v => inr v
  | None => inl (Py.TypeError "unsupported operand type")
  end.

Definition Rational : Operators unit Q :=
  {| __add__ := λ x a, Py.lift (let? v := number a in inr (x + v)%Q);
     __sub__ := λ x a, Py.lift (let? v := number a in inr (x - v)%Q);
     __mul__ := λ x a, Py.lift (let? v := number a in inr (x * v)%Q);
     __truediv__ := λ x a,
       Py.lift (let? v := number a in
                if Qeq_bool v 0 then inl (Py.ZeroDivisionError "division by zero")
                else inr (x / v)%Q);
     __pow__ := λ x a,
       Py.lift (match a with
                | Number (Py.Int n) =>
                    if (n <? 0)%Z && Qeq_bool x 0
                    then inl (Py.ZeroDivisionError "zero to a negative power")
                    else inr (Qpower x n)
                | _ => inl (Py.TypeError "unsupported operand type")
                end) |}.

End Arithmetic.

(** ** Further notions used to state what the code does *)

(** The label [add_element] records for an element, if any. *)
Definition label_of (e : Element) : option Py.val :=
  match getattr e "label" with
  | inr label => if Py.is_not_None label then Some label else None
  | inl _ => None
  end.

(** The elements handed to [_plot_element] with the axes and the
    [z_order] of each call, in the order of the calls. *)
Definition plot_calls (cs : list Backend.call) : list (Element * nat * Z) :=
  omap (λ c, match c with
             | Backend.plot_element e axes z => Some (e, axes, z)
             | _ => None
             end) cs.

(** The [z_order] the plotting loop holds after the turn that made the
    call [c]: unchanged when the [try] block of that turn reached
    [continue], two more otherwise. *)
Definition next_z_order (env : Collaborators) (c : Element * nat * Z) : Z :=
  let '(e, axes, z_order) := c in
  if (try_handle (_plot_element env e axes z_order).1).2 then z_order
  else (z_order + 2)%Z.

(** An [int], [float] or [bool]: what an [int] can be compared with. *)
Definition is_number (v : Py.val) : bool :=
  match v with
  | Py.Int _ | Py.Float _ | Py.Bool _ => true
  | _ => false
  end.

(** A MultiFigure holds the style its [figure_style] names, and so does
    each of its SubFigures. *)
Definition styled (env : Collaborators) (m : MultiFigure.t) : Prop :=
  load env (MultiFigure.figure_style m) = inr (MultiFigure.default_params m) ∧
  Forall (λ sf, SubFigure.default_params sf = MultiFigure.default_params m)
         (MultiFigure._SubFigures m).

(** The three error-bar attributes hold what ["same as curve"] assigns:
    the style's [color] and [line_width], as far as the assigned values
    are not ["default"] themselves. *)
Definition as_curve (params : Py.style) (object_type : string) (d : Py.dict) : Prop :=
  ∃ color line_width,
    Py.style_item params object_type "color" = inr color ∧
    Py.style_item params object_type "line_width" = inr line_width ∧
    (color ≠ Py.Str "default" → Py.dict_get "errorbars_color" d = Some color) ∧
    (line_width ≠ Py.Str "default" →
     Py.dict_get "errorbars_line_width" d = Some line_width ∧
     Py.dict_get "cap_thickness" d = Some line_width).

(** [errorbars_color] holds what ["same as scatter"] assigns: the style's
    [face_color], if that is not ["default"] itself. *)
Definition as_scatter (params : Py.style) (object_type : string) (d : Py.dict) : Prop :=
  ∃ face_color,
    Py.style_item params object_type "face_color" = inr face_color ∧
    (face_color ≠ Py.Str "default" →
     Py.dict_get "errorbars_color" d = Some face_color).

(** * Properties *)

(** ** Attribute dictionaries *)

Lemma dict_get_set k v q (d : Py.dict) :
  Py.dict_get q (Py.dict_set k v d) = if decide (k = q) then Some v else Py.dict_get q d.
Proof.
  induction d as [|[k' v'] d IH]; simpl.
  - destruct (decide (k = q)); reflexivity.
  - destruct (decide (k' = k)) as [->|Hk]; simpl.
    + destruct (decide (k = q)); reflexivity.
    + destruct (decide (k' = q)) as [->|Hq].
      * destruct (decide (k = q)); congruence.
      * exact IH.
Qed.

Lemma dict_get_set_eq k v (d : Py.dict) :
  Py.dict_get k (Py.dict_set k v d) = Some v.
Proof. rewrite dict_get_set. destruct (decide (k = k)); congruence. Qed.

Lemma dict_get_set_ne k v q (d : Py.dict) :
  k ≠ q → Py.dict_get q (Py.dict_set k v d) = Py.dict_get q d.
Proof. intros H. rewrite dict_get_set. destruct (decide (k = q)); congruence. Qed.

Lemma dict_get_is_Some k (d : Py.dict) :
  is_Some (Py.dict_get k d) ↔ k ∈ Py.dict_keys d.
Proof.
  unfold Py.dict_keys. induction d as [|[k' v'] d IH]; simpl.
  - split; [intros [? ?]; discriminate | intros H; inversion H].
  - destruct (decide (k' = k)) as [->|Hk].
    + split; [intros _; left | eauto].
    + rewrite IH. split; [intros H; by right|].
      intros H. apply elem_of_cons in H as [H|H]; [congruence | done].
Qed.

Lemma dict_get_Some_key k v (d : Py.dict) :
  Py.dict_get k d = Some v → k ∈ Py.dict_keys d.
Proof. intros H. apply dict_get_is_Some. rewrite H. eauto. Qed.

Lemma dict_set_length k v (d : Py.dict) :
  is_Some (Py.dict_get k d) → length (Py.dict_set k v d) = length d.
Proof.
  induction d as [|[k' v'] d IH]; simpl.
  - intros [? ?]; discriminate.
  - destruct (decide (k' = k)); simpl; [done|]. intros H. by rewrite IH.
Qed.

Lemma dict_set_keys k v (d : Py.dict) :
  is_Some (Py.dict_get k d) → Py.dict_keys (Py.dict_set k v d) = Py.dict_keys d.
Proof.
  unfold Py.dict_keys. induction d as [|[k' v'] d IH]; simpl.
  - intros [? ?]; discriminate.
  - destruct (decide (k' = k)); simpl; [done|]. intros H. f_equal. by apply IH.
Qed.

Lemma eq_str_true v s : Py.eq_str v s = true ↔ v = Py.Str s.
Proof.
  destruct v; simpl; try (split; [discriminate | congruence]).
  rewrite bool_decide_eq_true. split; congruence.
Qed.

(** ** Both methods run the resolution function *)

Lemma with_dict_same {Self} (σ : Reach Self) : with_dict σ (__dict__ (element σ)) = σ.
Proof. by destruct σ as [s [c d]]. Qed.

(** Runs a method body on a state by cases on what it looks up. *)
Ltac run_method :=
  repeat (simpl;
          match goal with
          | H : ?t = _ |- context [?t] => rewrite H
          | |- context [(if ?b then _ else _) _] => destruct b eqn:?
          | |- context [match Py.style_item ?P ?t ?p with _ => _ end] =>
              destruct (Py.style_item P t p) eqn:?
          | |- context [if Py.eq_str ?v ?s then _ else _] =>
              destruct (Py.eq_str v s) eqn:?
          end);
  try reflexivity.

Lemma SubFigure_fill_one_step object_type property value (σ : Reach SubFigure.t) :
  SubFigure.fill_one object_type property value σ =
  let r := Resolution.step (SubFigure.default_params (self σ)) object_type property
                           value (__dict__ (element σ)) in
  (with_dict σ r.1, r.2).
Proof.
  destruct σ as [s [c d]].
  unfold SubFigure.fill_one, Resolution.step, Py.bind, SubFigure.default_param,
    setitem, Py.ret, with_dict.
  run_method.
Qed.

Lemma MultiFigure_fill_one_step object_type property value (σ : Reach MultiFigure.t) :
  MultiFigure.fill_one object_type property value σ =
  let r := Resolution.step (MultiFigure.default_params (self σ)) object_type property
                           value (__dict__ (element σ)) in
  (with_dict σ r.1, r.2).
Proof.
  destruct σ as [s [c d]].
  unfold MultiFigure.fill_one, Resolution.step, Py.bind, MultiFigure.default_param,
    setitem, Py.ret, with_dict.
  run_method.
Qed.

Lemma SubFigure_fill_loop_run object_type used properties (σ : Reach SubFigure.t) :
  SubFigure.fill_loop object_type used properties σ =
  let r := Resolution.run (SubFigure.default_params (self σ)) object_type used
                          properties (__dict__ (element σ)) in
  (with_dict σ r.1, r.2).
Proof.
  revert σ. induction properties as [|p rest IH]; intros σ; simpl.
  - destruct (decide _); simpl; by rewrite with_dict_same.
  - destruct (decide _); simpl; [|by rewrite with_dict_same].
    destruct (Py.dict_get p _) as [value|]; simpl; [|by rewrite with_dict_same].
    unfold Py.bind. rewrite SubFigure_fill_one_step. simpl.
    destruct (Resolution.step _ _ _ _ _) as [d' [x|[]]]; simpl; [done|].
    rewrite IH. reflexivity.
Qed.

Lemma MultiFigure_fill_loop_run object_type used properties (σ : Reach MultiFigure.t) :
  MultiFigure.fill_loop object_type used properties σ =
  let r := Resolution.run (MultiFigure.default_params (self σ)) object_type used
                          properties (__dict__ (element σ)) in
  (with_dict σ r.1, r.2).
Proof.
  revert σ. induction properties as [|p rest IH]; intros σ; simpl.
  - destruct (decide _); simpl; by rewrite with_dict_same.
  - destruct (decide _); simpl; [|by rewrite with_dict_same].
    destruct (Py.dict_get p _) as [value|]; simpl; [|by rewrite with_dict_same].
    unfold Py.bind. rewrite MultiFigure_fill_one_step. simpl.
    destruct (Resolution.step _ _ _ _ _) as [d' [x|[]]]; simpl; [done|].
    rewrite IH. reflexivity.
Qed.

Lemma SubFigure_fill_run (s : SubFigure.t) (e : Element) :
  SubFigure._fill_in_missing_params {| self := s; element := e |} =
  let r := Resolution.fill (SubFigure.default_params s) e in
  ({| self := s; element := r.1 |}, r.2).
Proof.
  unfold SubFigure._fill_in_missing_params, Py.bind, Py.get. simpl.
  rewrite SubFigure_fill_loop_run. reflexivity.
Qed.

Lemma MultiFigure_fill_run (m : MultiFigure.t) (e : Element) :
  MultiFigure._fill_in_missing_params {| self := m; element := e |} =
  let r := Resolution.fill (MultiFigure.default_params m) e in
  ({| self := m; element := r.1 |}, r.2).
Proof.
  unfold MultiFigure._fill_in_missing_params, Py.bind, Py.get. simpl.
  rewrite MultiFigure_fill_loop_run. reflexivity.
Qed.

(** ** What one visit of the loop changes *)

Lemma not_alias_target q :
  q ∉ Resolution.alias_targets →
  "errorbars_color" ≠ q ∧ "errorbars_line_width" ≠ q ∧ "cap_thickness" ≠ q.
Proof.
  unfold Resolution.alias_targets. intros H.
  repeat split; intros <-; apply H; set_solver.
Qed.

(** A visit writes the visited attribute or the alias targets, nothing else. *)
Lemma step_frame params object_type property value d q :
  q ≠ property → q ∉ Resolution.alias_targets →
  Py.dict_get q (Resolution.step params object_type property value d).1 = Py.dict_get q d.
Proof.
  intros Hp Hq. apply not_alias_target in Hq as (H1 & H2 & H3).
  unfold Resolution.step.
  repeat (match goal with
          | |- context [match Py.style_item ?P ?t ?p with _ => _ end] =>
              destruct (Py.style_item P t p)
          | |- context [if Py.eq_str ?v ?s then _ else _] => destruct (Py.eq_str v s)
          end; simpl);
    rewrite ?dict_get_set_ne; done.
Qed.

(** A visit never changes which attributes exist when it only assigns
    existing ones, and never removes one. *)
Lemma step_keeps params object_type property value d q :
  is_Some (Py.dict_get q d) →
  is_Some (Py.dict_get q (Resolution.step params object_type property value d).1).
Proof.
  intros Hq. unfold Resolution.step.
  repeat (match goal with
          | |- context [match Py.style_item ?P ?t ?p with _ => _ end] =>
              destruct (Py.style_item P t p)
          | |- context [if Py.eq_str ?v ?s then _ else _] => destruct (Py.eq_str v s)
          end; simpl);
    rewrite ?dict_get_set; repeat case_decide; eauto.
Qed.

(** The plain case: the visited attribute receives its style entry. *)
Lemma step_plain params object_type property d w :
  Py.style_item params object_type property = inr w →
  Resolution.is_alias w = false →
  Resolution.step params object_type property (Py.Str "default") d =
  (Py.dict_set property w d, inr tt).
Proof.
  intros Hw Ha. unfold Resolution.is_alias in Ha.
  apply orb_false_iff in Ha as [Hc Hs].
  unfold Resolution.step. simpl. rewrite Hw, Hc, Hs. reflexivity.
Qed.

(** ** The whole loop *)

Section Loop.
Context (params : Py.style) (object_type : string) (used : nat).

Local Abbreviation run := (Resolution.run params object_type used).
Local Abbreviation step := (Resolution.step params object_type).
Local Abbreviation entry := (Py.style_item params object_type).

Lemma run_frame properties d q :
  q ∉ properties → q ∉ Resolution.alias_targets →
  Py.dict_get q (run properties d).1 = Py.dict_get q d.
Proof.
  revert d. induction properties as [|p rest IH]; intros d Hq Ht; simpl.
  - by destruct (decide _).
  - destruct (decide _); [|done].
    destruct (Py.dict_get p d) as [value|] eqn:Hp; [|done].
    apply not_elem_of_cons in Hq as [Hqp Hq].
    pose proof (step_frame params object_type p value d q Hqp Ht) as Hs.
    destruct (step p value d) as [d' [x|[]]]; simpl in *; [done|].
    rewrite IH; done.
Qed.

(** An attribute left at ["default"] whose style entry is an ordinary value
    holds that value once the loop has returned, unless it is one of the
    attributes that alias markers assign. *)
Lemma run_resolves properties d d' p w :
  NoDup properties → p ∈ properties → p ∉ Resolution.alias_targets →
  Py.dict_get p d = Some (Py.Str "default") →
  entry p = inr w → Resolution.is_alias w = false →
  run properties d = (d', inr tt) →
  Py.dict_get p d' = Some w.
Proof.
  intros Hnd Hin Ht Hd Hw Ha. revert d Hd Hnd Hin.
  induction properties as [|k rest IH]; intros d Hd Hnd Hin Hrun; [by inversion Hin|].
  simpl in Hrun. destruct (decide _); [|done].
  apply NoDup_cons in Hnd as [Hk Hnd].
  destruct (decide (k = p)) as [->|Hkp].
  - rewrite Hd in Hrun. rewrite (step_plain _ _ _ _ w) in Hrun by done.
    pose proof (run_frame rest (Py.dict_set p w d) p Hk Ht) as Hf.
    rewrite Hrun in Hf. simpl in Hf. by rewrite Hf, dict_get_set_eq.
  - apply elem_of_cons in Hin as [->|Hin]; [done|].
    destruct (Py.dict_get k d) as [value|] eqn:Hkd; [|done].
    pose proof (step_frame params object_type k value d p (not_eq_sym Hkp) Ht) as Hs.
    destruct (step k value d) as [d1 [x|[]]]; simpl in *; [done|].
    apply (IH d1); [congruence|done..].
Qed.

(** When no attribute left at ["default"] has an alias marker for style
    entry, the loop returns and every such attribute holds its entry. *)
Lemma run_plain properties d :
  NoDup properties → length d = used →
  (∀ q, q ∈ properties → is_Some (Py.dict_get q d)) →
  (∀ q, q ∈ properties → Py.dict_get q d = Some (Py.Str "default") →
        ∃ w, entry q = inr w ∧ Resolution.is_alias w = false) →
  (run properties d).2 = inr tt ∧
  (∀ q w, q ∈ properties → Py.dict_get q d = Some (Py.Str "default") →
          entry q = inr w → Py.dict_get q (run properties d).1 = Some w) ∧
  (∀ q, q ∉ properties → Py.dict_get q (run properties d).1 = Py.dict_get q d).
Proof.
  revert d. induction properties as [|k rest IH]; intros d Hnd Hlen Hex Hplain; simpl.
  - destruct (decide _); [|done]. split; [done|]. split; [|done].
    intros q w Hq. inversion Hq.
  - destruct (decide _); [|done].
    apply NoDup_cons in Hnd as [Hk Hnd].
    destruct (Hex k) as [value Hv]; [left|]. rewrite Hv.
    assert (∃ d1, step k value d = (d1, inr tt) ∧ length d1 = used ∧
                  (∀ q, q ≠ k → Py.dict_get q d1 = Py.dict_get q d) ∧
                  (∀ w, value = Py.Str "default" → entry k = inr w →
                        Py.dict_get k d1 = Some w)) as (d1 & Hs & Hl1 & Hf1 & Hk1).
    { destruct (Py.eq_str value "default") eqn:Hdef.
      - apply eq_str_true in Hdef as ->.
        destruct (Hplain k) as (w & Hw & Ha); [left|done|].
        exists (Py.dict_set k w d). rewrite (step_plain _ _ _ _ w) by done.
        split; [done|]. split; [by rewrite dict_set_length|].
        split; [intros q Hq; by rewrite dict_get_set_ne|].
        intros w' _ Hw'. rewrite dict_get_set_eq. congruence.
      - exists d. unfold Resolution.step. rewrite Hdef.
        split; [done|]. split; [done|]. split; [done|].
        intros w ->. vm_compute in Hdef. discriminate. }
    rewrite Hs.
    destruct (IH d1) as (Ho & Hr & Hf); [done|done| | |].
    { intros q Hq. rewrite Hf1; [apply Hex; by right|]. intros ->. done. }
    { intros q Hq Hqd. rewrite Hf1 in Hqd by (intros ->; done).
      apply Hplain; [by right|done]. }
    split; [done|]. split.
    + intros q w Hq Hqd Hw. apply elem_of_cons in Hq as [->|Hq].
      * rewrite Hf by done. apply Hk1; [congruence|done].
      * apply Hr; [done| |done]. rewrite Hf1; [done|]. intros ->. done.
    + intros q Hq. apply not_elem_of_cons in Hq as [Hqk Hq].
      rewrite Hf by done. by apply Hf1.
Qed.

(** A visit that returns leaves no new ["default"]: an attribute that
    holds ["default"] afterwards held it before and is not the visited
    one, provided alias markers stand where the code supports them and
    the style itself holds no ["default"]. *)
Lemma step_no_new_default property value d d1 q :
  (∀ p w, entry p = inr w → Py.eq_str w "default" = false) →
  (entry property = inr (Py.Str "same as curve") →
   property ∈ Resolution.alias_targets) →
  (entry property = inr (Py.Str "same as scatter") →
   property = "errorbars_color") →
  Py.dict_get property d = Some value →
  step property value d = (d1, inr tt) →
  Py.dict_get q d1 = Some (Py.Str "default") →
  q ≠ property ∧ Py.dict_get q d = Some (Py.Str "default").
Proof.
  intros Hnd Hcurve Hscatter Hv Hs Hq.
  assert (∀ p w, entry p = inr w → w ≠ Py.Str "default") as Hnd'.
  { intros p w Hw ->. specialize (Hnd _ _ Hw). vm_compute in Hnd. discriminate. }
  unfold Resolution.step in Hs.
  destruct (Py.eq_str value "default") eqn:Hdef.
  - destruct (entry property) as [x|w] eqn:Hw; [congruence|].
    destruct (Py.eq_str w "same as curve") eqn:Hc.
    + apply eq_str_true in Hc as ->. specialize (Hcurve eq_refl).
      destruct (entry "color") as [x|color] eqn:Hcol; [congruence|].
      destruct (entry "line_width") as [x|lw] eqn:Hlw; [congruence|].
      injection Hs as <-.
      rewrite !dict_get_set in Hq.
      repeat case_decide; subst;
        try (exfalso; simplify_eq; (eapply Hnd'; [|reflexivity]; eassumption)).
      split; [|done]. intros ->.
      unfold Resolution.alias_targets in Hcurve.
      repeat (apply elem_of_cons in Hcurve as [?|Hcurve]; [congruence|]).
      inversion Hcurve.
    + destruct (Py.eq_str w "same as scatter") eqn:Hsc.
      * apply eq_str_true in Hsc as ->. specialize (Hscatter eq_refl).
        destruct (entry "face_color") as [x|fc] eqn:Hfc; [congruence|].
        injection Hs as <-. rewrite dict_get_set in Hq.
        case_decide; subst; [exfalso; simplify_eq; (eapply Hnd'; [|reflexivity]; eassumption)|].
        split; [congruence|done].
      * injection Hs as <-. rewrite dict_get_set in Hq.
        case_decide; subst; [exfalso; simplify_eq; (eapply Hnd'; [|reflexivity]; eassumption)|].
        split; [congruence|done].
  - injection Hs as <-. split; [|done]. intros ->.
    rewrite Hv in Hq. injection Hq as ->. vm_compute in Hdef. discriminate.
Qed.

Lemma run_no_default properties d d' :
  (∀ p w, entry p = inr w → Py.eq_str w "default" = false) →
  (∀ p, p ∈ properties → entry p = inr (Py.Str "same as curve") →
        p ∈ Resolution.alias_targets) →
  (∀ p, p ∈ properties → entry p = inr (Py.Str "same as scatter") →
        p = "errorbars_color") →
  (∀ q, Py.dict_get q d = Some (Py.Str "default") → q ∈ properties) →
  run properties d = (d', inr tt) →
  ∀ q, Py.dict_get q d' ≠ Some (Py.Str "default").
Proof.
  intros Hnd. revert d.
  induction properties as [|k rest IH]; intros d Hcurve Hscatter Hall Hrun q Hq;
    simpl in Hrun; (destruct (decide _); [|done]).
  - injection Hrun as <-. apply Hall in Hq. inversion Hq.
  - destruct (Py.dict_get k d) as [value|] eqn:Hk; [|done].
    destruct (step k value d) as [d1 [x|[]]] eqn:Hs; [done|].
    apply (IH d1) with (q := q); try done.
    + intros p Hp. apply Hcurve. by right.
    + intros p Hp. apply Hscatter. by right.
    + intros q' Hq'.
      destruct (step_no_new_default k value d d1 q') as [Hne Hold]; try done.
      * apply Hcurve. left.
      * apply Hscatter. left.
      * apply Hall in Hold. apply elem_of_cons in Hold as [->|Hold]; done.
Qed.

End Loop.
(** ** What the alias markers assign *)

Section Aliases.
Context (params : Py.style) (object_type : string) (used : nat).

Local Abbreviation run := (Resolution.run params object_type used).
Local Abbreviation step := (Resolution.step params object_type).
Local Abbreviation entry := (Py.style_item params object_type).
Local Abbreviation as_curve := (as_curve params object_type).
Local Abbreviation as_scatter := (as_scatter params object_type).

(** A visit leaves an attribute outside the alias targets alone unless it
    is the visited one, holds ["default"] and has an ordinary entry. *)
Lemma step_outside property value d d1 q v :
  q ∉ Resolution.alias_targets →
  Py.dict_get q d = Some v →
  v ≠ Py.Str "default" ∨ (∃ w, entry q = inr w ∧ Resolution.is_alias w = true) →
  Py.dict_get property d = Some value →
  step property value d = (d1, inr tt) →
  Py.dict_get q d1 = Some v.
Proof.
  intros Ht Hq Hcond Hv Hs.
  destruct (decide (q = property)) as [->|Hne].
  - rewrite Hq in Hv. injection Hv as <-.
    apply not_alias_target in Ht as (H1 & H2 & H3).
    unfold Resolution.step in Hs.
    destruct (Py.eq_str v "default") eqn:Hdef; [|by injection Hs as <-].
    apply eq_str_true in Hdef as ->.
    destruct Hcond as [?|(w & Hw & Ha)]; [done|].
    rewrite Hw in Hs. unfold Resolution.is_alias in Ha.
    destruct (Py.eq_str w "same as curve").
    + destruct (entry "color"); [done|].
      destruct (entry "line_width"); [done|].
      injection Hs as <-. by rewrite !dict_get_set_ne.
    + simpl in Ha. rewrite Ha in Hs.
      destruct (entry "face_color"); [done|].
      injection Hs as <-. by rewrite dict_get_set_ne.
  - pose proof (step_frame params object_type property value d q Hne Ht) as Hf.
    rewrite Hs in Hf. simpl in Hf. by rewrite Hf.
Qed.

Lemma run_outside properties d d' q v :
  q ∉ Resolution.alias_targets →
  Py.dict_get q d = Some v →
  v ≠ Py.Str "default" ∨ (∃ w, entry q = inr w ∧ Resolution.is_alias w = true) →
  run properties d = (d', inr tt) →
  Py.dict_get q d' = Some v.
Proof.
  intros Ht Hq Hcond. revert d Hq.
  induction properties as [|k rest IH]; intros d Hq Hrun;
    simpl in Hrun; (destruct (decide _); [|done]).
  - by injection Hrun as <-.
  - destruct (Py.dict_get k d) as [value|] eqn:Hk; [|done].
    destruct (step k value d) as [d1 [x|[]]] eqn:Hs; [done|].
    apply (IH d1); [|done]. by eapply step_outside.
Qed.

(** Without ["same as curve"], a visit leaves every attribute other than
    [errorbars_color] alone unless it is the visited one, holds
    ["default"] and has an ordinary entry. *)
Lemma step_beside_scatter property value d d1 q v :
  entry property ≠ inr (Py.Str "same as curve") →
  q ≠ "errorbars_color" →
  Py.dict_get q d = Some v →
  v ≠ Py.Str "default" ∨ entry q = inr (Py.Str "same as scatter") →
  Py.dict_get property d = Some value →
  step property value d = (d1, inr tt) →
  Py.dict_get q d1 = Some v.
Proof.
  intros Hnc Hne Hq Hcond Hv Hs. unfold Resolution.step in Hs.
  destruct (Py.eq_str value "default") eqn:Hdef; [|by injection Hs as <-].
  apply eq_str_true in Hdef as ->.
  destruct (entry property) as [x|w] eqn:Hw; [done|].
  destruct (Py.eq_str w "same as curve") eqn:Hc.
  { apply eq_str_true in Hc as ->. done. }
  destruct (Py.eq_str w "same as scatter") eqn:Hsc.
  - destruct (entry "face_color"); [done|].
    injection Hs as <-. by rewrite dict_get_set_ne.
  - injection Hs as <-.
    destruct (decide (property = q)) as [->|Hpq]; [|by rewrite dict_get_set_ne].
    rewrite Hq in Hv. injection Hv as ->.
    destruct Hcond as [?|Hq']; [done|].
    rewrite Hq' in Hw. injection Hw as <-. vm_compute in Hsc. discriminate.
Qed.

Lemma run_beside_scatter properties d d' q v :
  (∀ p, p ∈ properties → entry p ≠ inr (Py.Str "same as curve")) →
  q ≠ "errorbars_color" →
  Py.dict_get q d = Some v →
  v ≠ Py.Str "default" ∨ entry q = inr (Py.Str "same as scatter") →
  run properties d = (d', inr tt) →
  Py.dict_get q d' = Some v.
Proof.
  intros Hnc Hne Hq Hcond. revert d Hnc Hq.
  induction properties as [|k rest IH]; intros d Hnc Hq Hrun;
    simpl in Hrun; (destruct (decide _); [|done]).
  - by injection Hrun as <-.
  - destruct (Py.dict_get k d) as [value|] eqn:Hk; [|done].
    destruct (step k value d) as [d1 [x|[]]] eqn:Hs; [done|].
    apply (IH d1); [intros p Hp; apply Hnc; by right| |done].
    eapply step_beside_scatter; [|done..]. apply Hnc. by left.
Qed.

(** One visit, without ["same as scatter"]: the three attributes keep
    what ["same as curve"] assigned, and receive it when the visited
    attribute holds ["default"] and has ["same as curve"] for entry. *)
Lemma step_curve property value d d1 :
  entry property ≠ inr (Py.Str "same as scatter") →
  Py.dict_get property d = Some value →
  step property value d = (d1, inr tt) →
  (as_curve d → as_curve d1) ∧
  (value = Py.Str "default" → entry property = inr (Py.Str "same as curve") →
   as_curve d1) ∧
  (∀ p, p ≠ property → Py.dict_get p d = Some (Py.Str "default") →
        Py.dict_get p d1 = Some (Py.Str "default") ∨ as_curve d1).
Proof.
  intros Hns Hv Hs. unfold Resolution.step in Hs.
  destruct (Py.eq_str value "default") eqn:Hdef.
  2:{ injection Hs as <-. split; [done|]. split; [|by left].
      intros ->. vm_compute in Hdef. discriminate. }
  apply eq_str_true in Hdef as ->.
  destruct (entry property) as [x|w] eqn:Hw; [done|].
  destruct (Py.eq_str w "same as curve") eqn:Hc.
  - destruct (entry "color") as [x|color] eqn:Hcol; [done|].
    destruct (entry "line_width") as [x|lw] eqn:Hlw; [done|].
    injection Hs as <-.
    assert (as_curve (Py.dict_set "cap_thickness" lw
                        (Py.dict_set "errorbars_line_width" lw
                           (Py.dict_set "errorbars_color" color d)))) as Hnew.
    { exists color, lw. split; [done|]. split; [done|].
      split; [intros _|intros _; split];
        repeat (rewrite dict_get_set_eq || rewrite dict_get_set_ne by done); done. }
    split; [done|]. split; [done|]. intros; by right.
  - destruct (Py.eq_str w "same as scatter") eqn:Hsc.
    { apply eq_str_true in Hsc as ->. done. }
    injection Hs as <-. split; [|split].
    + intros (color & lw & Hcol & Hlw & Hec & Helw). exists color, lw.
      split; [done|]. split; [done|].
      rewrite !dict_get_set. split.
      * intros Hne. specialize (Hec Hne). case_decide; [|done].
        subst. rewrite Hv in Hec. by injection Hec as <-.
      * intros Hne. destruct (Helw Hne) as [H1 H2].
        repeat case_decide; subst; try done;
          rewrite Hv in *; by simplify_eq.
    + intros _ [= ->]. vm_compute in Hc. discriminate.
    + intros p Hp Hpd. left. by rewrite dict_get_set_ne.
Qed.

Lemma run_curve properties d d' :
  (∀ p, p ∈ properties → entry p ≠ inr (Py.Str "same as scatter")) →
  run properties d = (d', inr tt) →
  as_curve d ∨ (∃ p, p ∈ properties ∧ Py.dict_get p d = Some (Py.Str "default") ∧
                     entry p = inr (Py.Str "same as curve")) →
  as_curve d'.
Proof.
  revert d. induction properties as [|k rest IH]; intros d Hns Hrun Hor;
    simpl in Hrun; (destruct (decide _); [|done]).
  - injection Hrun as <-. destruct Hor as [?|(p & Hp & _)]; [done|inversion Hp].
  - destruct (Py.dict_get k d) as [value|] eqn:Hk; [|done].
    destruct (step k value d) as [d1 [x|[]]] eqn:Hs; [done|].
    destruct (step_curve k value d d1) as (Hkeep & Hhere & Hother);
      [apply Hns; by left|done|done|].
    apply (IH d1); [intros p Hp; apply Hns; by right|done|].
    destruct Hor as [Ha|(p & Hp & Hpd & Hpe)]; [left; by apply Hkeep|].
    destruct (decide (p = k)) as [->|Hpk].
    + left. apply Hhere; [congruence|done].
    + apply elem_of_cons in Hp as [?|Hp]; [done|].
      destruct (Hother p Hpk Hpd) as [?|?]; [right; eauto|by left].
Qed.

(** The same for ["same as scatter"], without ["same as curve"]. *)
Lemma step_scatter property value d d1 :
  entry property ≠ inr (Py.Str "same as curve") →
  Py.dict_get property d = Some value →
  step property value d = (d1, inr tt) →
  (as_scatter d → as_scatter d1) ∧
  (value = Py.Str "default" → entry property = inr (Py.Str "same as scatter") →
   as_scatter d1) ∧
  (∀ p, p ≠ property → Py.dict_get p d = Some (Py.Str "default") →
        Py.dict_get p d1 = Some (Py.Str "default") ∨ as_scatter d1).
Proof.
  intros Hnc Hv Hs. unfold Resolution.step in Hs.
  destruct (Py.eq_str value "default") eqn:Hdef.
  2:{ injection Hs as <-. split; [done|]. split; [|by left].
      intros ->. vm_compute in Hdef. discriminate. }
  apply eq_str_true in Hdef as ->.
  destruct (entry property) as [x|w] eqn:Hw; [done|].
  destruct (Py.eq_str w "same as curve") eqn:Hc.
  { apply eq_str_true in Hc as ->. done. }
  destruct (Py.eq_str w "same as scatter") eqn:Hsc.
  - destruct (entry "face_color") as [x|fc] eqn:Hfc; [done|].
    injection Hs as <-.
    assert (as_scatter (Py.dict_set "errorbars_color" fc d)) as Hnew.
    { exists fc. split; [done|]. by rewrite dict_get_set_eq. }
    split; [done|]. split; [done|]. intros; by right.
  - injection Hs as <-. split; [|split].
    + intros (fc & Hfc & Hec). exists fc. split; [done|].
      intros Hne. specialize (Hec Hne). rewrite dict_get_set.
      case_decide; [|done]. subst. rewrite Hv in Hec. by injection Hec as <-.
    + intros _ [= ->]. vm_compute in Hsc. discriminate.
    + intros p Hp Hpd. left. by rewrite dict_get_set_ne.
Qed.

Lemma run_scatter properties d d' :
  (∀ p, p ∈ properties → entry p ≠ inr (Py.Str "same as curve")) →
  run properties d = (d', inr tt) →
  as_scatter d ∨ (∃ p, p ∈ properties ∧ Py.dict_get p d = Some (Py.Str "default") ∧
                       entry p = inr (Py.Str "same as scatter")) →
  as_scatter d'.
Proof.
  revert d. induction properties as [|k rest IH]; intros d Hnc Hrun Hor;
    simpl in Hrun; (destruct (decide _); [|done]).
  - injection Hrun as <-. destruct Hor as [?|(p & Hp & _)]; [done|inversion Hp].
  - destruct (Py.dict_get k d) as [value|] eqn:Hk; [|done].
    destruct (step k value d) as [d1 [x|[]]] eqn:Hs; [done|].
    destruct (step_scatter k value d d1) as (Hkeep & Hhere & Hother);
      [apply Hnc; by left|done|done|].
    apply (IH d1); [intros p Hp; apply Hnc; by right|done|].
    destruct Hor as [Ha|(p & Hp & Hpd & Hpe)]; [left; by apply Hkeep|].
    destruct (decide (p = k)) as [->|Hpk].
    + left. apply Hhere; [congruence|done].
    + apply elem_of_cons in Hp as [?|Hp]; [done|].
      destruct (Hother p Hpk Hpd) as [?|?]; [right; eauto|by left].
Qed.

End Aliases.

(** ** Default-parameter resolution *)




(** C2.  The two [_fill_in_missing_params] methods agree: on equal
    elements and equal [default_params] they leave equal elements and end
    the same way, by return or by the same exception. *)
Theorem C2_same_resolution_in_both_containers
    (s : SubFigure.t) (m : MultiFigure.t) (e1 e2 : Element) :
  SubFigure.default_params s = MultiFigure.default_params m →
  e1 = e2 →
  let r1 := SubFigure._fill_in_missing_params {| self := s; element := e1 |} in
  let r2 := MultiFigure._fill_in_missing_params {| self := m; element := e2 |} in
  element r1.1 = element r2.1 ∧ r1.2 = r2.2.
Proof.
  intros Hparams -> r1 r2. subst r1 r2.
  rewrite SubFigure_fill_run, MultiFigure_fill_run. simpl.
  rewrite Hparams. split; reflexivity.
Qed.

(** C2, witness: the sample curve in the sample containers. *)
Lemma C2_same_resolution_in_both_containers_witness :
  let r1 := SubFigure._fill_in_missing_params
              {| self := plain_SubFigure; element := plain_curve |} in
  let r2 := MultiFigure._fill_in_missing_params
              {| self := plain_MultiFigure; element := plain_curve |} in
  element r1.1 = element r2.1 ∧ r1.2 = r2.2.
Proof.
  apply (C2_same_resolution_in_both_containers plain_SubFigure plain_MultiFigure
           plain_curve plain_curve); reflexivity.
Defined.

(** C3, at the failing input.  The caller chose [errorbars_line_width = 5]
    and [cap_thickness = 3] and left only [errorbars_color] to the style;
    resolving [errorbars_color] replaces both chosen values by the style's
    [line_width]. *)
Theorem C3_explicit_errorbar_attributes_overwritten :
  let out := SubFigure._fill_in_missing_params
               {| self := plain_SubFigure; element := curve_with_errorbars |} in
  out.2 = inr tt ∧
  getattr curve_with_errorbars "errorbars_line_width" = inr (Py.Int 5) ∧
  getattr (element out.1) "errorbars_line_width" = inr (Py.Int 2) ∧
  getattr curve_with_errorbars "cap_thickness" = inr (Py.Int 3) ∧
  getattr (element out.1) "cap_thickness" = inr (Py.Int 2).
Proof. vm_compute. repeat split; reflexivity. Qed.

(** Outside the three error-bar attributes the frame does hold: an
    attribute that is not ["default"] keeps its value. *)
Lemma fill_keeps_set_attributes (s : SubFigure.t) (e : Element) p v :
  Py.dict_get p (__dict__ e) = Some v → v ≠ Py.Str "default" →
  p ∉ Resolution.alias_targets →
  Py.dict_get p
    (__dict__ (element (SubFigure._fill_in_missing_params
                          {| self := s; element := e |}).1)) = Some v.
Proof.
  intros Hp Hv Ht. rewrite SubFigure_fill_run. unfold Resolution.fill. simpl.
  rewrite <- Hp. generalize (length (__dict__ e)). intros used.
  assert (∀ properties d, Py.dict_get p d = Some v →
            Py.dict_get p (Resolution.run (SubFigure.default_params s) (class_name e)
                             used properties d).1 = Py.dict_get p d) as Hall.
  { induction properties as [|k rest IH]; intros d Hd; simpl.
    - by destruct (decide _).
    - destruct (decide _); [|done].
      destruct (Py.dict_get k d) as [value|] eqn:Hk; [|done].
      assert (Py.dict_get p (Resolution.step (SubFigure.default_params s)
                               (class_name e) k value d).1 = Py.dict_get p d) as Hs.
      { destruct (decide (p = k)) as [->|Hpk]; [|by apply step_frame].
        unfold Resolution.step.
        destruct (Py.eq_str value "default") eqn:Hdef; [|done].
        apply eq_str_true in Hdef. congruence. }
      destruct (Resolution.step _ _ _ _ _) as [d1 [x|[]]]; simpl in *; [done|].
      rewrite IH; congruence. }
  apply Hall. done.
Qed.

(** C7.  Neither [_fill_in_missing_params] changes the style dictionary of
    its receiver, whether it returns or raises: the receiver comes out as
    it went in. *)
Theorem C7_style_dictionary_unchanged
    (s : SubFigure.t) (m : MultiFigure.t) (e : Element) :
  SubFigure.default_params
    (self (SubFigure._fill_in_missing_params {| self := s; element := e |}).1)
  = SubFigure.default_params s ∧
  MultiFigure.default_params
    (self (MultiFigure._fill_in_missing_params {| self := m; element := e |}).1)
  = MultiFigure.default_params m.
Proof.
  rewrite SubFigure_fill_run, MultiFigure_fill_run. split; reflexivity.
Qed.

(** ** Preparing a SubFigure *)

Lemma style_item_raises params object_type property x :
  Py.style_item params object_type property = inl x → ∃ k, x = Py.KeyError k.
Proof.
  unfold Py.style_item. destruct (params !! object_type) as [section|]; [|naive_solver].
  destruct (section !! property); naive_solver.
Qed.

Lemma step_raises params object_type property value d x :
  (Resolution.step params object_type property value d).2 = inl x →
  ∃ k, x = Py.KeyError k.
Proof.
  unfold Resolution.step.
  repeat (match goal with
          | |- context [match Py.style_item ?P ?t ?p with _ => _ end] =>
              destruct (Py.style_item P t p) eqn:?
          | |- context [if Py.eq_str ?v ?s then _ else _] => destruct (Py.eq_str v s)
          end; simpl);
    intros [= <-] || done; by eapply style_item_raises.
Qed.

Lemma run_raises params object_type used properties d x :
  (Resolution.run params object_type used properties d).2 = inl x →
  (∃ k, x = Py.KeyError k) ∨ (∃ msg, x = Py.RuntimeError msg).
Proof.
  revert d. induction properties as [|p rest IH]; intros d; simpl.
  - destruct (decide _); simpl; [done|]. intros [= <-]. right. eauto.
  - destruct (decide _); simpl; [|intros [= <-]; right; eauto].
    destruct (Py.dict_get p d) as [value|]; simpl; [|intros [= <-]; right; eauto].
    pose proof (step_raises params object_type p value d) as Hs.
    destruct (Resolution.step params object_type p value d) as [d1 [y|[]]];
      simpl in *; [|apply IH].
    intros [= <-]. left. by apply Hs.
Qed.

Lemma fill_raises params e x :
  (Resolution.fill params e).2 = inl x →
  (∃ k, x = Py.KeyError k) ∨ (∃ msg, x = Py.RuntimeError msg).
Proof. unfold Resolution.fill. simpl. apply run_raises. Qed.

Lemma on_element_fill i e (σ : Scene SubFigure.t) :
  SubFigure._elements (this σ) !! i = Some e →
  SubFigure.on_element i SubFigure._fill_in_missing_params σ =
  let r := Resolution.fill (SubFigure.default_params (this σ)) e in
  ({| this := SubFigure.with_elements (this σ)
                (<[i := r.1]> (SubFigure._elements (this σ)));
      calls := calls σ |}, r.2).
Proof.
  intros Hi. unfold SubFigure.on_element. rewrite Hi.
  rewrite SubFigure_fill_run. reflexivity.
Qed.

Lemma plot_run env i axes z e (σ : Scene SubFigure.t) :
  SubFigure._elements (this σ) !! i = Some e →
  SubFigure.plot env i axes z σ =
  ({| this := SubFigure.with_elements (this σ)
                (<[i := (_plot_element env e axes z).1]> (SubFigure._elements (this σ)));
      calls := calls σ ++ [Backend.plot_element e axes z] |},
   match (_plot_element env e axes z).2 with Some x => inl x | None => inr tt end).
Proof.
  intros Hi. unfold SubFigure.plot. rewrite Hi.
  by destruct (_plot_element env e axes z).
Qed.

Lemma collect_handle_run i e (σ : Scene SubFigure.t) :
  SubFigure._elements (this σ) !! i = Some e →
  SubFigure.collect_handle i σ =
  ({| this := SubFigure.with_handles (this σ)
                (SubFigure._handles (this σ) ++ (try_handle e).1);
      calls := calls σ |}, inr (try_handle e).2).
Proof.
  intros Hi. unfold SubFigure.collect_handle, try_handle. rewrite Hi.
  destruct σ as [[] cs]. simpl.
  destruct (getattr e "_label") as [?|label]; simpl;
    [by rewrite app_nil_r|].
  destruct (Py.is_not_None label); simpl; [|by rewrite app_nil_r].
  destruct (getattr e "_handle"); simpl; [by rewrite app_nil_r|done].
Qed.

Arguments Resolution.fill : simpl never.
Arguments SubFigure.with_elements : simpl never.
Arguments SubFigure.with_handles : simpl never.
Arguments SubFigure.with_axes : simpl never.
Arguments fixed : simpl never.

Section PlotLoop.
Context (env : Collaborators) (axes : nat).

(** One turn of the loop over the elements. *)
Lemma plot_loop_cons i rest z e (σ : Scene SubFigure.t) :
  SubFigure._elements (this σ) !! i = Some e →
  SubFigure.plot_loop env axes (i :: rest) z σ =
  let filled := Resolution.fill (SubFigure.default_params (this σ)) e in
  let σ1 := {| this := SubFigure.with_elements (this σ)
                         (<[i := filled.1]> (SubFigure._elements (this σ)));
               calls := calls σ |} in
  match filled.2 with
  | inl x => (σ1, inl x)
  | inr _ =>
      let drawn := _plot_element env filled.1 axes z in
      let σ2 := {| this := SubFigure.with_elements (this σ1)
                             (<[i := drawn.1]> (SubFigure._elements (this σ1)));
                   calls := calls σ ++ [Backend.plot_element filled.1 axes z] |} in
      match drawn.2 with
      | Some x => (σ2, inl x)
      | None =>
          SubFigure.plot_loop env axes rest
            (if (try_handle drawn.1).2 then z else (z + 2)%Z)
            {| this := SubFigure.with_handles (this σ2)
                         (SubFigure._handles (this σ2) ++ (try_handle drawn.1).1);
               calls := calls σ2 |}
      end
  end.
Proof.
  intros He. pose proof (lookup_lt_Some _ _ _ He) as Hi.
  change (SubFigure.plot_loop env axes (i :: rest) z) with
    (SubFigure.on_element i SubFigure._fill_in_missing_params ;;;
     SubFigure.plot env i axes z ;;;
     let* continued := SubFigure.collect_handle i in
     SubFigure.plot_loop env axes rest (if continued then z else (z + 2)%Z)).
  unfold Py.bind at 1. rewrite (on_element_fill i e σ He). cbv zeta.
  destruct (Resolution.fill _ e) as [e1 [x|[]]]; cbn [fst snd]; [done|].
  set (σ1 := {| this := SubFigure.with_elements (this σ)
                          (<[i := e1]> (SubFigure._elements (this σ)));
                calls := calls σ |}).
  assert (SubFigure._elements (this σ1) !! i = Some e1) as He1
    by (simpl; by rewrite list_lookup_insert_eq).
  unfold Py.bind at 1. rewrite (plot_run env i axes z e1 σ1 He1).
  destruct (_plot_element env e1 axes z) as [e2 [x|]]; cbn [fst snd]; [done|].
  set (σ2 := {| this := SubFigure.with_elements (this σ1)
                          (<[i := e2]> (SubFigure._elements (this σ1)));
                calls := calls σ1 ++ [Backend.plot_element e1 axes z] |}).
  assert (SubFigure._elements (this σ2) !! i = Some e2) as He2
    by (simpl; rewrite list_lookup_insert_eq; [done|by rewrite length_insert]).
  unfold Py.bind at 1. rewrite (collect_handle_run i e2 σ2 He2). reflexivity.
Qed.

Lemma plot_loop_spec k : ∀ i z (σ σ' : Scene SubFigure.t) r,
  i + k = length (SubFigure._elements (this σ)) →
  SubFigure.plot_loop env axes (seq i k) z σ = (σ', r) →
  let params := SubFigure.default_params (this σ) in
  ∃ new more,
    calls σ' = calls σ ++ new ∧
    Forall (λ c, Backend.is_plot_element c = true) new ∧
    fixed (this σ') = fixed (this σ) ∧
    SubFigure._axes (this σ') = SubFigure._axes (this σ) ∧
    SubFigure._handles (this σ') = SubFigure._handles (this σ) ++ more ∧
    length (SubFigure._elements (this σ')) = length (SubFigure._elements (this σ)) ∧
    (r = inr tt →
     plotted new = map (λ e, (Resolution.fill params e).1)
                       (drop i (SubFigure._elements (this σ)))) ∧
    ((∀ e, e ∈ drop i (SubFigure._elements (this σ)) → plots_cleanly env params e) →
     r = inr tt) ∧
    (∀ x, r = inl x →
          (∃ key, x = Py.KeyError key) ∨ (∃ msg, x = Py.RuntimeError msg) ∨
          (∃ e a z', (_plot_element env e a z').2 = Some x)).
Proof.
  induction k as [|k IH]; intros i z σ σ' r Hlen Hrun params.
  - injection Hrun as <- <-. exists [], []. rewrite !app_nil_r.
    repeat split; try done.
    intros _. rewrite drop_ge by lia. done.
  - destruct (lookup_lt_is_Some_2 (SubFigure._elements (this σ)) i) as [e He]; [lia|].
    pose proof (lookup_lt_Some _ _ _ He) as Hi.
    rewrite <- cons_seq, (plot_loop_cons _ _ _ e) in Hrun by done.
    cbv zeta in Hrun. fold params in Hrun. rewrite (drop_S _ _ _ He).
    destruct (Resolution.fill params e) as [e1 [x|[]]] eqn:Hfill; cbn [fst snd] in Hrun.
    { (* the resolution raised *)
      injection Hrun as <- <-. exists [], []. cbn [this calls]. rewrite !app_nil_r.
      repeat split; try done.
      - simpl. by rewrite length_insert.
      - intros Hall. destruct (Hall e) as [Hc _]; [left|].
        rewrite Hfill in Hc. done.
      - intros y [= <-].
        destruct (fill_raises params e x) as [?|?]; [by rewrite Hfill|eauto..]. }
    destruct (_plot_element env e1 axes z) as [e2 [x|]] eqn:Hplot; cbn [fst snd] in Hrun.
    { (* the element raised *)
      injection Hrun as <- <-.
      exists [Backend.plot_element e1 axes z], []. cbn [this calls].
      rewrite !app_nil_r.
      repeat split; try done.
      - by repeat constructor.
      - simpl. by rewrite !length_insert.
      - intros Hall. destruct (Hall e) as [_ Hc]; [left|].
        specialize (Hc axes z). rewrite Hfill in Hc. simpl in Hc.
        rewrite Hplot in Hc. done.
      - intros y [= <-]. right. right. exists e1, axes, z. by rewrite Hplot. }
    apply IH in Hrun as (new & more & Hc & Hp & Hfix & Hax & Hh & Hl & Hok & Htot & Hexn);
      [|simpl; rewrite !length_insert; lia].
    cbn [this calls] in *.
    change (SubFigure.default_params (SubFigure.with_handles _ _)) with params in *.
    change (SubFigure._elements (SubFigure.with_handles ?s _)) with
      (SubFigure._elements s) in *.
    repeat change (SubFigure._elements (SubFigure.with_elements _ ?l)) with l in *.
    rewrite !length_insert in Hl.
    rewrite !drop_insert_lt in Hok, Htot by lia.
    exists (Backend.plot_element e1 axes z :: new), ((try_handle e2).1 ++ more).
    split; [rewrite Hc; simpl; by rewrite <- app_assoc|].
    split; [by constructor|].
    split; [by rewrite Hfix|].
    split; [by rewrite Hax|].
    split; [rewrite Hh; simpl; by rewrite app_assoc|].
    split; [done|].
    split; [intros Ho; rewrite map_cons, Hfill, <- (Hok Ho); reflexivity|].
    split; [|done].
    intros Hall. apply Htot. intros e' He'. apply Hall. by right.
Qed.

End PlotLoop.

Lemma set_up_axes_spec (σ σ' : Scene SubFigure.t) r :
  SubFigure.set_up_axes σ = (σ', r) →
  ∃ new,
    calls σ' = calls σ ++ new ∧
    Forall (λ c, is_decoration c = true) new ∧
    this σ' = SubFigure.with_axes (this σ) (length (calls σ)) ∧
    (∀ a, r = inr a → a = length (calls σ)) ∧
    (grid_ready (this σ) → r = inr (length (calls σ))) ∧
    (∀ x, r = inl x → ∃ name, x = Py.AttributeError name).
Proof.
  destruct σ as [[] cs]. unfold grid_ready. simpl.
  unfold SubFigure.set_up_axes, Py.bind, receiver, backend, update, when,
    assigned, Py.ret, Py.raise. simpl.
  destruct placement as [[[row col] rowspan] colspan].
  destruct grid_is_set;
    [destruct grid_line_style, grid_line_width, grid_color, grid_alpha|];
    destruct x_lim, y_lim, (Py.truthy log_scale_x), (Py.truthy log_scale_y),
      (Py.truthy ticks_are_in);
    simpl; intros Hrun; simplify_eq; simpl; rewrite <- ?app_assoc;
    (eexists; split; [reflexivity|]);
    (split; [repeat constructor|]);
    (split; [reflexivity|]);
    (split; [by intros a [= <-]|]);
    (split; [first [done | intros H; destruct (H eq_refl) as ([? ?] & [? ?] & [? ?] & [? ?]);
                           discriminate]|]);
    intros x [= <-]; eauto.
Qed.

Lemma try_legend_spec {Self} env (mk : Backend.legend_args → Backend.call)
    handles labels frameon (σ σ' : Scene Self) r :
  SubFigure.try_legend env mk handles labels frameon σ = (σ', r) →
  ∃ new,
    calls σ' = calls σ ++ new ∧ this σ' = this σ ∧ new ≠ [] ∧
    Forall (λ c, ∃ d, c = mk (SubFigure.legend_args_of handles labels frameon d)) new ∧
    (∀ x, r = inl x → ∃ c, legend_raises env c = Some x) ∧
    ((∀ c, legend_raises env c = None) → r = inr tt).
Proof.
  unfold SubFigure.try_legend, Py.bind, backend, Py.ret, Py.raise. simpl.
  destruct (legend_raises env (mk (SubFigure.legend_args_of handles labels frameon
                                      (Some true)))) as [x1|] eqn:H1; simpl.
  - destruct (legend_raises env (mk (SubFigure.legend_args_of handles labels frameon
                                       None))) as [x2|] eqn:H2; simpl;
      intros Hrun; simplify_eq; simpl; rewrite <- app_assoc;
      (eexists; split; [reflexivity|]); (split; [done|]); (split; [done|]);
      (split; [repeat constructor; eauto|]).
    + split; [intros x [= <-]; eauto|]. intros Hall. by rewrite Hall in H1.
    + split; [done|]. done.
  - intros Hrun; simplify_eq; simpl.
    (eexists; split; [reflexivity|]); (split; [done|]); (split; [done|]);
      (split; [repeat constructor; eauto|]). done.
Qed.

Lemma plotted_decoration cs :
  Forall (λ c, is_decoration c = true) cs → plotted cs = [].
Proof.
  induction 1 as [|c cs Hc _ IH]; [done|].
  destruct c; try discriminate Hc; exact IH.
Qed.

Lemma plotted_legends cs :
  Forall (λ c, Backend.is_legend c = true) cs → plotted cs = [].
Proof.
  induction 1 as [|c cs Hc _ IH]; [done|].
  destruct c; try discriminate Hc; exact IH.
Qed.

Lemma plotted_app cs1 cs2 : plotted (cs1 ++ cs2) = plotted cs1 ++ plotted cs2.
Proof. unfold plotted. apply omap_app. Qed.

Lemma bind_receiver {Self A} (k : Self → Py.M (Scene Self) A) σ :
  Py.bind receiver k σ = k (this σ) σ.
Proof. reflexivity. Qed.

Lemma bind_backend {Self A} (c : Backend.call) (k : nat → Py.M (Scene Self) A) σ :
  Py.bind (backend c) k σ =
  k (length (calls σ)) {| this := this σ; calls := calls σ ++ [c] |}.
Proof. reflexivity. Qed.

Lemma bind_update {Self A} (f : Self → Self) (k : unit → Py.M (Scene Self) A) σ :
  Py.bind (update f) k σ = k tt {| this := f (this σ); calls := calls σ |}.
Proof. reflexivity. Qed.

Lemma fixed_labels s s' : fixed s' = fixed s → SubFigure._labels s' = SubFigure._labels s.
Proof. unfold fixed. by intros [= ]. Qed.

Lemma fixed_legend_is_boxed s s' :
  fixed s' = fixed s → SubFigure.legend_is_boxed s' = SubFigure.legend_is_boxed s.
Proof. unfold fixed. by intros [= ]. Qed.

Lemma fixed_default_params s s' :
  fixed s' = fixed s → SubFigure.default_params s' = SubFigure.default_params s.
Proof. unfold fixed. by intros [= ]. Qed.

Section PrepareSubFigure.
Context (env : Collaborators).

(** What [_prepare_SubFigure] does, in every outcome: the calls it makes
    are decorations of the axes, then one [_plot_element] per element,
    then the legend calls, if any. *)
Lemma prepare_SubFigure_spec legend (σ σ' : Scene SubFigure.t) r :
  SubFigure._prepare_SubFigure env legend σ = (σ', r) →
  let s := this σ in
  let axes := length (calls σ) in
  ∃ deco plots legends more,
    calls σ' = calls σ ++ deco ++ plots ++ legends ∧
    Forall (λ c, is_decoration c = true) deco ∧
    Forall (λ c, Backend.is_plot_element c = true) plots ∧
    Forall (λ c, ∃ d, c = Backend.axes_legend axes
                          (SubFigure.legend_args_of (SubFigure._handles (this σ'))
                             (SubFigure._labels s) (SubFigure.legend_is_boxed s) d))
           legends ∧
    (legend = false ∨ SubFigure._labels s = [] → legends = []) ∧
    fixed (this σ') = fixed s ∧
    SubFigure._axes (this σ') = Some axes ∧
    SubFigure._handles (this σ') = SubFigure._handles s ++ more ∧
    length (SubFigure._elements (this σ')) = length (SubFigure._elements s) ∧
    (grid_ready s → SubFigure._elements s = [] → r = inl no_curves) ∧
    (SubFigure._elements s ≠ [] → foreign env → r ≠ inl no_curves) ∧
    (∀ ls hs, r = inr (ls, hs) →
       SubFigure._elements s ≠ [] ∧
       ls = SubFigure._labels s ∧ hs = SubFigure._handles (this σ') ∧
       plotted plots = map (λ e, (Resolution.fill (SubFigure.default_params s) e).1)
                           (SubFigure._elements s) ∧
       (legend = true → SubFigure._labels s ≠ [] → legends ≠ [])) ∧
    (grid_ready s → SubFigure._elements s ≠ [] →
     (∀ e, e ∈ SubFigure._elements s →
           plots_cleanly env (SubFigure.default_params s) e) →
     (∀ c, legend_raises env c = None) →
     ∃ hs, r = inr (SubFigure._labels s, hs)).
Proof.
  intros Hrun s axes.
  unfold SubFigure._prepare_SubFigure in Hrun. unfold Py.bind at 1 in Hrun.
  destruct (SubFigure.set_up_axes σ) as [σa ra] eqn:Hsetup.
  apply set_up_axes_spec in Hsetup as (deco & Hca & Hdeco & Hthis & Hax & Hready & Hattr).
  fold s axes in Hthis, Hax, Hready.
  destruct ra as [x|a].
  { (* a grid attribute is missing *)
    injection Hrun as <- <-.
    exists deco, [], [], []. rewrite !app_nil_r, Hthis.
    destruct (Hattr x eq_refl) as [name ->].
    repeat split; try done.
    - intros Hr. by specialize (Hready Hr).
    - intros Hr. by specialize (Hready Hr). }
  pose proof (Hax a eq_refl) as ->. clear Hax Hattr.
  rewrite bind_receiver in Hrun. rewrite Hthis in Hrun.
  change (SubFigure._elements (SubFigure.with_axes s axes)) with
    (SubFigure._elements s) in Hrun.
  change (SubFigure._labels (SubFigure.with_axes s axes)) with
    (SubFigure._labels s) in Hrun.
  destruct (SubFigure._elements s) as [|e0 els] eqn:Hels.
  { (* no element *)
    injection Hrun as <- <-.
    exists deco, [], [], []. rewrite !app_nil_r, Hthis.
    repeat match goal with |- _ ∧ _ => split end;
      try done; try reflexivity; try (intros; congruence).
    change (length (SubFigure._elements s) = 0). by rewrite Hels. }
  rewrite <- Hels in *.
  assert (SubFigure._elements s ≠ []) as Hne by (rewrite Hels; done).
  clear e0 els Hels.
  unfold Py.bind at 1 2 in Hrun.
  destruct (SubFigure.plot_loop env axes _ 0 σa) as [σp rp] eqn:Hloop.
  apply plot_loop_spec in Hloop
    as (plots & more & Hcp & Hplots & Hfix & Haxp & Hh & Hl & Hok & Htot & Hexn);
    [|rewrite Hthis; reflexivity].
  rewrite Hthis in Hfix, Haxp, Hh, Hl, Hok, Htot.
  change (fixed (SubFigure.with_axes s axes)) with (fixed s) in Hfix.
  change (SubFigure._axes (SubFigure.with_axes s axes)) with (Some axes) in Haxp.
  change (SubFigure._handles (SubFigure.with_axes s axes)) with
    (SubFigure._handles s) in Hh.
  change (SubFigure._elements (SubFigure.with_axes s axes)) with
    (SubFigure._elements s) in Hl, Hok, Htot.
  change (SubFigure.default_params (SubFigure.with_axes s axes)) with
    (SubFigure.default_params s) in Hok, Htot.
  rewrite drop_0 in Hok, Htot.
  pose proof (fixed_labels _ _ Hfix) as Hlab.
  pose proof (fixed_legend_is_boxed _ _ Hfix) as Hbox.
  destruct rp as [x|[]].
  { (* resolving or plotting an element raised *)
    injection Hrun as <- <-.
    exists deco, plots, [], more. rewrite app_nil_r, Hcp, Hca, <- app_assoc.
    repeat match goal with |- _ ∧ _ => split end;
      try done; try (intros; congruence).
    - intros _ [Hplot _] [= ->].
      destruct (Hexn _ eq_refl) as [[? ?]|[[? ?]|(e & a & z & He)]];
        [discriminate..|]. by apply Hplot in He.
    - intros _ _ Hall _. by specialize (Htot Hall). }
  rewrite bind_receiver in Hrun.
  destruct (match SubFigure._labels s with [] => false | _ :: _ => legend end)
    eqn:Hlegend.
  - (* the SubFigure draws its own legend *)
    assert (legend = true ∧ SubFigure._labels s ≠ []) as [-> Hsome]
      by (destruct (SubFigure._labels s); [done|by destruct legend]).
    unfold when in Hrun.
    destruct (SubFigure.try_legend env _ _ _ _ σp) as [σl rl] eqn:Hleg.
    apply try_legend_spec in Hleg as (legends & Hcl & Htl & Hnl & Hfl & Hxl & Hol).
    rewrite Hlab, Hbox in Hfl.
    assert (calls σl = calls σ ++ deco ++ plots ++ legends) as Hcalls
      by (rewrite Hcl, Hcp, Hca, <- !app_assoc; done).
    destruct rl as [x|[]].
    + injection Hrun as <- <-.
      exists deco, plots, legends, more. rewrite Htl.
      repeat match goal with |- _ ∧ _ => split end;
        try done; try (intros; congruence).
      * intros [?|?]; congruence.
      * intros _ [_ Hlegend'] [= ->].
        destruct (Hxl _ eq_refl) as [c Hc]. by apply Hlegend' in Hc.
      * intros _ _ _ Hall. by specialize (Hol Hall).
    + rewrite bind_receiver in Hrun. injection Hrun as <- <-.
      exists deco, plots, legends, more. rewrite Htl.
      repeat match goal with |- _ ∧ _ => split end;
        try done; try (intros; congruence).
      * intros [?|?]; congruence.
      * intros ls hs [= <- <-]. eauto 10.
      * intros _ _ _ _. rewrite Hlab. eauto.
  - (* no legend of its own *)
    unfold when, Py.ret in Hrun. rewrite bind_receiver in Hrun.
    injection Hrun as <- <-.
    exists deco, plots, [], more. rewrite app_nil_r, Hcp, Hca, <- app_assoc.
    repeat match goal with |- _ ∧ _ => split end;
      try done; try (intros; congruence).
    + intros ls hs [= <- <-].
      repeat match goal with |- _ ∧ _ => split end; try done; auto.
      intros -> Hsome. destruct (SubFigure._labels s); done.
    + intros _ _ _ _. rewrite Hlab. eauto.
Qed.

End PrepareSubFigure.

(** C6.  For a SubFigure whose grid attributes are in place and whose
    collaborators raise exceptions of their own only,
    [_prepare_SubFigure] raises [GraphingException("No curves to be plotted!")]
    exactly when [_elements] is empty.  When there is an element, and
    resolving and plotting the elements and drawing the legend raise
    nothing, it hands every element, resolved, to [_plot_element] in the
    order of the list and returns the pair [(_labels, _handles)]. *)
Theorem C6_no_curves_iff_no_elements env (s : SubFigure.t)
    (cs : list Backend.call) (legend : bool) :
  grid_ready s → foreign env →
  let out := SubFigure._prepare_SubFigure env legend {| this := s; calls := cs |} in
  (out.2 = inl no_curves ↔ SubFigure._elements s = []) ∧
  (SubFigure._elements s ≠ [] →
   (∀ e, e ∈ SubFigure._elements s →
         plots_cleanly env (SubFigure.default_params s) e) →
   (∀ c, legend_raises env c = None) →
   ∃ new,
     calls out.1 = cs ++ new ∧
     plotted new = map (λ e, (Resolution.fill (SubFigure.default_params s) e).1)
                       (SubFigure._elements s) ∧
     out.2 = inr (SubFigure._labels (this out.1), SubFigure._handles (this out.1)) ∧
     SubFigure._labels (this out.1) = SubFigure._labels s).
Proof.
  intros Hready Hforeign out.
  destruct out as [σ' r] eqn:Hout. subst out.
  apply prepare_SubFigure_spec in Hout
    as (deco & plots & legends & more & Hc & Hd & Hp & Hl & _ & Hfix & _ & _ & _ &
        Hempty & Hnonempty & Hret & Htot).
  simpl in *. split.
  - split.
    + intros Hr. destruct (SubFigure._elements s) eqn:Hels; [done|].
      exfalso. apply Hnonempty; done.
    + by apply Hempty.
  - intros Hne Hclean Hlegend.
    destruct (Htot Hready Hne Hclean Hlegend) as [hs ->].
    destruct (Hret _ _ eq_refl) as (_ & _ & -> & Hplotted & _).
    exists (deco ++ plots ++ legends). split; [done|].
    split; [|by rewrite (fixed_labels _ _ Hfix)].
    rewrite !plotted_app, (plotted_decoration _ Hd), Hplotted.
    rewrite (plotted_legends legends), app_nil_r; [done|].
    eapply Forall_impl; [exact Hl|]. by intros c [d ->].
Qed.

(** C6, witness: a SubFigure with the two sample curves. *)
Lemma C6_no_curves_iff_no_elements_witness :
  let s := SubFigure.add_element plain_SubFigure [plain_curve; curve_with_errorbars] in
  let out := SubFigure._prepare_SubFigure sample_env true {| this := s; calls := [] |} in
  out.2 = inl no_curves ↔ SubFigure._elements s = [].
Proof.
  refine (proj1 (C6_no_curves_iff_no_elements sample_env
                   (SubFigure.add_element plain_SubFigure
                      [plain_curve; curve_with_errorbars]) [] true _ _)).
  - intros H. discriminate H.
  - split; intros; discriminate.
Defined.

(** ** Preparing a MultiFigure *)

Lemma on_SubFigure_run {A} i sf (m : Py.M (Scene SubFigure.t) A)
    (σ : Scene MultiFigure.t) :
  MultiFigure._SubFigures (this σ) !! i = Some sf →
  MultiFigure.on_SubFigure i m σ =
  let out := m {| this := sf; calls := calls σ |} in
  ({| this := MultiFigure.with_SubFigures (this σ)
                (<[i := this out.1]> (MultiFigure._SubFigures (this σ)));
      calls := calls out.1 |}, out.2).
Proof.
  intros Hi. unfold MultiFigure.on_SubFigure. rewrite Hi.
  by destruct (m _).
Qed.

Arguments MultiFigure.with_SubFigures : simpl never.
Arguments MultiFigure.with_figure : simpl never.

Lemma decoration_no_legend c :
  is_decoration c = true →
  Backend.is_axes_legend c = false ∧ Backend.is_figure_legend c = false.
Proof. by destruct c. Qed.

Lemma plot_no_legend c :
  Backend.is_plot_element c = true →
  Backend.is_axes_legend c = false ∧ Backend.is_figure_legend c = false.
Proof. by destruct c. Qed.

Section PrepareMultiFigure.
Context (env : Collaborators) (b : bool).

Lemma prepare_loop_spec k : ∀ i labels handles (σ σ' : Scene MultiFigure.t) r,
  i + k = length (MultiFigure._SubFigures (this σ)) →
  MultiFigure.prepare_loop env b (seq i k) labels handles σ = (σ', r) →
  let before := MultiFigure._SubFigures (this σ) in
  let after := MultiFigure._SubFigures (this σ') in
  ∃ new,
    calls σ' = calls σ ++ new ∧
    Forall (λ c, Backend.is_figure_legend c = false) new ∧
    (b = false → Forall (λ c, Backend.is_axes_legend c = false) new) ∧
    Forall carries_handler_map new ∧
    this σ' = MultiFigure.with_SubFigures (this σ) after ∧
    length after = length before ∧
    take i after = take i before ∧
    SubFigure._labels <$> after = SubFigure._labels <$> before ∧
    (∀ L H, r = inr (L, H) →
       L = labels ++ concat (SubFigure._labels <$> drop i after) ∧
       H = handles ++ concat (SubFigure._handles <$> drop i after) ∧
       (b = true → ∀ sf, sf ∈ drop i after → SubFigure._labels sf ≠ [] →
                         ∃ c, c ∈ new ∧ own_legend sf c)).
Proof.
  induction k as [|k IH]; intros i labels handles σ σ' r Hlen Hrun before after.
  - injection Hrun as <- <-. exists []. subst before after.
    rewrite app_nil_r.
    repeat match goal with |- _ ∧ _ => split end; try done.
    + by destruct σ as [[] ?].
    + intros L H [= <- <-]. rewrite drop_ge by lia. simpl.
      rewrite !app_nil_r.
      repeat match goal with |- _ ∧ _ => split end; try done.
      intros _ sf Hsf. inversion Hsf.
  - destruct (lookup_lt_is_Some_2 before i) as [sf Hsf]; [subst before; lia|].
    pose proof (lookup_lt_Some _ _ _ Hsf) as Hi.
    rewrite <- cons_seq in Hrun.
    change (MultiFigure.prepare_loop env b (i :: seq (S i) k) labels handles) with
      (let* lh := MultiFigure.on_SubFigure i (SubFigure._prepare_SubFigure env b) in
       let '(SubFigure_labels, SubFigure_handles) := lh in
       MultiFigure.prepare_loop env b (seq (S i) k)
         (labels ++ SubFigure_labels) (handles ++ SubFigure_handles)) in Hrun.
    unfold Py.bind at 1 in Hrun.
    rewrite (on_SubFigure_run i sf) in Hrun by done. cbv zeta in Hrun.
    destruct (SubFigure._prepare_SubFigure env b {| this := sf; calls := calls σ |})
      as [ρ rs] eqn:Hprep.
    apply prepare_SubFigure_spec in Hprep
      as (deco & plots & legends & more & Hc & Hd & Hp & Hl & Hnol & Hfix & Hax & _ & _ &
          _ & _ & Hret & _).
    cbn [this calls fst snd] in *.
    set (sf' := this ρ) in *.
    pose proof (fixed_labels _ _ Hfix) as Hlab.
    pose proof (fixed_legend_is_boxed _ _ Hfix) as Hbox.
    assert (Forall (λ c, Backend.is_figure_legend c = false) (deco ++ plots ++ legends))
      as Hnofig.
    { rewrite !Forall_app. repeat split.
      - eapply Forall_impl; [exact Hd|]. intros c Hc'. by apply decoration_no_legend.
      - eapply Forall_impl; [exact Hp|]. intros c Hc'. by apply plot_no_legend.
      - eapply Forall_impl; [exact Hl|]. by intros c [d ->]. }
    assert (b = false → Forall (λ c, Backend.is_axes_legend c = false)
                               (deco ++ plots ++ legends)) as Hnoax.
    { intros Hb. rewrite (Hnol (or_introl Hb)), app_nil_r, Forall_app. split.
      - eapply Forall_impl; [exact Hd|]. intros c Hc'. by apply decoration_no_legend.
      - eapply Forall_impl; [exact Hp|]. intros c Hc'. by apply plot_no_legend. }
    assert (Forall carries_handler_map (deco ++ plots ++ legends)) as Hmap.
    { rewrite !Forall_app. repeat split.
      - eapply Forall_impl; [exact Hd|]. intros c Hc' args [->|[a ->]]; done.
      - eapply Forall_impl; [exact Hp|]. intros c Hc' args [->|[a ->]]; done.
      - eapply Forall_impl; [exact Hl|].
        intros c [d ->] args [?|[a [= _ <-]]]; done. }
    assert (SubFigure._labels <$> <[i := sf']> before = SubFigure._labels <$> before)
      as Hlabels.
    { rewrite list_fmap_insert, Hlab. apply list_insert_id.
      by rewrite list_lookup_fmap, Hsf. }
    destruct rs as [x|[ls hs]].
    { (* preparing the SubFigure raised *)
      injection Hrun as <- <-. exists (deco ++ plots ++ legends).
      subst after. cbn [this calls].
      change (MultiFigure._SubFigures (MultiFigure.with_SubFigures _ ?l)) with l.
      repeat match goal with |- _ ∧ _ => split end; try done.
      - by rewrite length_insert.
      - by rewrite take_insert_ge. }
    destruct (Hret _ _ eq_refl) as (_ & -> & -> & _ & Hown).
    apply IH in Hrun
      as (new & Hcn & Hfn & Han & Hmn & Hthis & Hlenn & Htake & Hlabn & Hretn);
      [|cbn [this]; change (MultiFigure._SubFigures (MultiFigure.with_SubFigures _ ?l))
                      with l; rewrite length_insert; subst before; lia].
    cbn [this calls] in *.
    change (MultiFigure._SubFigures (MultiFigure.with_SubFigures _ ?l)) with l in *.
    fold after in Hthis, Hlenn, Htake, Hlabn, Hretn.
    rewrite length_insert in Hlenn.
    assert (after !! i = Some sf') as Hafter.
    { rewrite <- (lookup_take_lt after (S i) i) by lia. rewrite Htake.
      rewrite lookup_take_lt by lia. by apply list_lookup_insert_eq. }
    exists ((deco ++ plots ++ legends) ++ new).
    split; [rewrite Hcn, Hc, <- !app_assoc; done|].
    split; [by apply Forall_app|].
    split; [intros Hb; apply Forall_app; auto|].
    split; [by apply Forall_app|].
    split; [rewrite Hthis; by destruct σ as [[] ?]|].
    split; [done|].
    split.
    { assert (take i after = take i (take (S i) after)) as ->
        by (rewrite take_take; f_equal; lia).
      rewrite Htake, take_take.
      replace (i `min` S i) with i by lia. by rewrite take_insert_ge. }
    split; [by rewrite Hlabn|].
    intros L H Hr. destruct (Hretn L H Hr) as (-> & -> & Hothers).
    rewrite (drop_S _ _ _ Hafter). rewrite !fmap_cons. simpl.
    rewrite <- !app_assoc, Hlab.
    split; [done|]. split; [done|].
    intros Hb sf0 Hsf0 Hsome. apply elem_of_cons in Hsf0 as [->|Hsf0].
    + rewrite Hlab in Hsome. specialize (Hown Hb Hsome).
      destruct legends as [|c legends']; [done|].
      apply Forall_cons in Hl as [[d ->] _].
      eexists. split.
      * rewrite !elem_of_app, elem_of_cons. right. right. left. left. reflexivity.
      * eexists _, _. split; [exact Hax|]. split; [reflexivity|].
        cbn [Backend.handles Backend.labels Backend.frameon SubFigure.legend_args_of].
        rewrite Hlab, Hbox. by repeat split.
    + destruct (Hothers Hb sf0 Hsf0 Hsome) as (c & Hc' & Hown').
      exists c. split; [|done]. rewrite !elem_of_app. auto.
Qed.

End PrepareMultiFigure.

(** C4.  [_prepare_MultiFigure(legend=True)] makes no per-axes legend
    call; every figure-level legend call it makes carries the
    concatenation, in the order of [_SubFigures], of the SubFigures' handles
    and of their labels together with the composite handler map, and when
    it returns it has made such a call.  [_prepare_MultiFigure(legend=False)]
    makes no figure-level legend call, and when it returns every SubFigure
    with at least one label has had its own legend drawn on its axes. *)
Theorem C4_figure_legend_or_axes_legends env (m : MultiFigure.t)
    (cs : list Backend.call) (legend : bool) :
  let out := MultiFigure._prepare_MultiFigure env legend {| this := m; calls := cs |} in
  let subfigures := MultiFigure._SubFigures (this out.1) in
  ∃ new,
    calls out.1 = cs ++ new ∧
    SubFigure._labels <$> subfigures = SubFigure._labels <$> MultiFigure._SubFigures m ∧
    Forall carries_handler_map new ∧
    (legend = true →
     Forall (λ c, Backend.is_axes_legend c = false) new ∧
     Forall (λ c, Backend.is_figure_legend c = true →
                  figure_legend_of m subfigures c) new ∧
     (out.2 = inr tt → ∃ c, c ∈ new ∧ figure_legend_of m subfigures c)) ∧
    (legend = false →
     Forall (λ c, Backend.is_figure_legend c = false) new ∧
     (out.2 = inr tt →
      ∀ sf, sf ∈ subfigures → SubFigure._labels sf ≠ [] →
            ∃ c, c ∈ new ∧ own_legend sf c)).
Proof.
  intros out subfigures.
  destruct out as [σ' r] eqn:Hout. subst out subfigures. cbn [fst snd].
  unfold MultiFigure._prepare_MultiFigure in Hout.
  rewrite bind_receiver, bind_backend, bind_update, bind_backend in Hout.
  cbn [this calls] in Hout.
  set (SubFigures_legend := if negb legend then true else false) in Hout.
  assert (SubFigures_legend = negb legend) as Hsl by (by destruct legend).
  unfold Py.bind at 1 in Hout.
  destruct (MultiFigure.prepare_loop env SubFigures_legend _ [] [] _)
    as [σl rl] eqn:Hloop.
  apply prepare_loop_spec in Hloop
    as (new & Hcn & Hfn & Han & Hmn & Hthis & Hlen & _ & Hlab & Hret);
    [|reflexivity].
  cbn [this calls] in *.
  change (MultiFigure._SubFigures (MultiFigure.with_figure m _)) with
    (MultiFigure._SubFigures m) in *.
  set (start := [Backend.figure "constrained" (MultiFigure.size m);
                 Backend.GridSpec (MultiFigure.num_rows m) (MultiFigure.num_cols m)]).
  assert (calls σl = cs ++ start ++ new) as Hcalls
    by (rewrite Hcn; subst start; by rewrite <- !app_assoc).
  clear Hcn.
  assert (Forall (λ c, Backend.is_axes_legend c = false) start) as Hstart_axes
    by (by repeat constructor).
  assert (Forall (λ c, Backend.is_figure_legend c = false) start) as Hstart_figure
    by (by repeat constructor).
  assert (Forall carries_handler_map start) as Hstart_map
    by (repeat constructor; intros args [?|[? ?]]; discriminate).
  destruct rl as [x|[L H]].
  { (* preparing a SubFigure raised *)
    injection Hout as <- <-. exists (start ++ new).
    split; [done|]. split; [done|].
    split; [by apply Forall_app|].
    split.
    - intros ->. split; [|split; [|done]].
      + apply Forall_app. split; [done|]. by apply Han.
      + apply Forall_app. split.
        * eapply Forall_impl; [exact Hstart_figure|]. intros c Hc. congruence.
        * eapply Forall_impl; [exact Hfn|]. intros c Hc. congruence.
    - intros ->. split; [|done].
      by apply Forall_app. }
  destruct (Hret _ _ eq_refl) as (-> & -> & Hown). clear Hret.
  rewrite drop_0 in *. rewrite !app_nil_l in Hout.
  assert (MultiFigure.legend_is_boxed (MultiFigure.with_figure m (length cs)) =
          MultiFigure.legend_is_boxed m) as Hbox by reflexivity.
  assert (MultiFigure.title (MultiFigure.with_figure m (length cs)) =
          MultiFigure.title m) as Htitle by reflexivity.
  destruct legend.
  - (* one legend for the figure *)
    unfold when in Hout. unfold Py.bind at 1 in Hout.
    destruct (SubFigure.try_legend env _ _ _ _ σl) as [σt rt] eqn:Hleg.
    apply try_legend_spec in Hleg as (legends & Hcl & Htl & Hnl & Hfl & _ & _).
    assert (Forall (figure_legend_of m (MultiFigure._SubFigures (this σl))) legends)
      as Hfig.
    { eapply Forall_impl; [exact Hfl|]. intros c [d ->].
      eexists. split; [reflexivity|]. by repeat split. }
    assert (Forall (λ c, Backend.is_axes_legend c = false ∧ carries_handler_map c)
                   legends) as Hleg.
    { eapply Forall_impl; [exact Hfl|]. intros c [d ->].
      split; [done|]. by intros args [[= <-]|[a ?]]. }
    assert (∃ tail,
              calls σ' = cs ++ (start ++ new ++ legends) ++ tail ∧
              this σ' = this σt ∧
              Forall (λ c, Backend.is_legend c = false) tail ∧
              (r = inr tt → True)) as (tail & Hc' & Ht' & Htail & _).
    { destruct rt as [x|[]].
      - injection Hout as <- <-. exists []. rewrite app_nil_r, Hcl, Hcalls.
        by rewrite <- !app_assoc.
      - rewrite bind_backend in Hout. injection Hout as <- <-.
        exists [Backend.suptitle (MultiFigure.title m)]. cbn [this calls].
        rewrite Hcl, Hcalls, <- !app_assoc. repeat split; try done.
        by repeat constructor. }
    exists ((start ++ new ++ legends) ++ tail). rewrite Ht', Htl.
    split; [done|]. split; [done|].
    split.
    { rewrite !Forall_app. repeat split.
      - done.
      - done.
      - eapply Forall_impl; [exact Hleg|]. by intros c [_ Hc].
      - eapply Forall_impl; [exact Htail|].
        intros c Hc args [->|[a ->]]; discriminate. }
    split; [|done]. intros _. split; [|split].
    + rewrite !Forall_app. repeat split.
      * done.
      * by apply Han.
      * eapply Forall_impl; [exact Hleg|]. by intros c [Hc _].
      * eapply Forall_impl; [exact Htail|]. by intros [].
    + rewrite !Forall_app. repeat split.
      * eapply Forall_impl; [exact Hstart_figure|]. intros c Hc. congruence.
      * eapply Forall_impl; [exact Hfn|]. intros c Hc. congruence.
      * eapply Forall_impl; [exact Hfig|]. auto.
      * eapply Forall_impl; [exact Htail|]. by intros [].
    + intros _. destruct legends as [|c legends']; [done|].
      apply Forall_cons in Hfig as [Hc _]. exists c. split; [|done].
      rewrite !elem_of_app, elem_of_cons. left. right. right. by left.
  - (* each SubFigure draws its own *)
    unfold when, Py.ret in Hout. unfold Py.bind at 1 in Hout.
    rewrite bind_backend in Hout. injection Hout as <- <-. cbn [this calls].
    exists ((start ++ new) ++ [Backend.suptitle (MultiFigure.title m)]).
    split; [rewrite Hcalls, <- !app_assoc; done|]. split; [done|].
    split.
    { rewrite !Forall_app. repeat split.
      - done.
      - done.
      - repeat constructor. intros args [?|[a ?]]; discriminate. }
    split; [done|]. intros _. split.
    + rewrite !Forall_app. repeat split.
      * done.
      * done.
      * by repeat constructor.
    + intros _ sf Hsf Hsome.
      destruct (Hown eq_refl sf Hsf Hsome) as (c & Hc & Hown').
      exists c. split; [|done]. rewrite !elem_of_app. auto.
Qed.

(** C4, witness: the sample MultiFigure prepared with [legend=True]
    returns, so that one of its calls is the figure legend over the
    handles and the labels of its SubFigures. *)
Lemma C4_figure_legend_or_axes_legends_witness :
  let out := MultiFigure._prepare_MultiFigure sample_env true
               {| this := sample_MultiFigure; calls := [] |} in
  out.2 = inr tt ∧
  ∃ new c, calls out.1 = [] ++ new ∧ Forall carries_handler_map new ∧
           c ∈ new ∧
           figure_legend_of sample_MultiFigure (MultiFigure._SubFigures (this out.1)) c.
Proof.
  intros out.
  assert (out.2 = inr tt) as Hret by (vm_compute; reflexivity).
  split; [exact Hret|].
  destruct (C4_figure_legend_or_axes_legends sample_env sample_MultiFigure [] true)
    as (new & Hcalls & _ & Hmap & Hfigure & _).
  destruct (Hfigure eq_refl) as (_ & _ & Hmade).
  destruct (Hmade Hret) as (c & Hc & Hlegend).
  exists new, c. repeat split; assumption.
Defined.

(** The calls of the sample MultiFigure with a figure legend: the one
    label and the one handle of its first SubFigure reach the legend. *)
Example sample_figure_legend :
  let out := MultiFigure._prepare_MultiFigure sample_env true
               {| this := sample_MultiFigure; calls := [] |} in
  out.2 = inr tt ∧
  filter (λ c, Backend.is_legend c = true) (calls out.1) =
  [Backend.figure_legend
     {| Backend.handles := [Py.Obj 2]; Backend.labels := [Py.Str "sine"];
        Backend.handleheight := 13 # 10;
        Backend.handler_map :=
          [("Polygon", "HandlerPatch(patch_func=histogram_legend_artist)");
           ("LineCollection", "HandlerMultipleLines()");
           ("VerticalLineCollection", "HandlerMultipleVerticalLines()")];
        Backend.frameon := Py.Bool true; Backend.draggable := Some true |}].
Proof. vm_compute. split; reflexivity. Qed.

(** The same MultiFigure without a figure legend: the SubFigure that has
    a label draws its own legend, the other draws none. *)
Example sample_axes_legend :
  let out := MultiFigure._prepare_MultiFigure sample_env false
               {| this := sample_MultiFigure; calls := [] |} in
  out.2 = inr tt ∧
  filter (λ c, Backend.is_legend c = true) (calls out.1) =
  [Backend.axes_legend 2
     {| Backend.handles := [Py.Obj 2]; Backend.labels := [Py.Str "sine"];
        Backend.handleheight := 13 # 10;
        Backend.handler_map :=
          [("Polygon", "HandlerPatch(patch_func=histogram_legend_artist)");
           ("LineCollection", "HandlerMultipleLines()");
           ("VerticalLineCollection", "HandlerMultipleVerticalLines()")];
        Backend.frameon := Py.Bool true; Backend.draggable := Some true |}].
Proof. vm_compute. split; reflexivity. Qed.

(** ** Adding a SubFigure *)

(** Whatever [add_SubFigure] decides, an error leaves the MultiFigure as
    it was and a return has appended the SubFigure it returns. *)
Lemma add_SubFigure_outcome env placement x_label y_label x_lim y_lim
    log_scale_x log_scale_y show_grid legend_is_boxed ticks_are_in
    (m : MultiFigure.t) :
  let out := MultiFigure.add_SubFigure env placement x_label y_label x_lim y_lim
               log_scale_x log_scale_y show_grid legend_is_boxed ticks_are_in m in
  match out.2 with
  | inl _ => out.1 = m
  | inr new_SubFigure =>
      out.1 = MultiFigure.with_SubFigures m
                (MultiFigure._SubFigures m ++ [new_SubFigure])
  end.
Proof.
  destruct placement as [[[row col] rowspan] colspan].
  unfold MultiFigure.add_SubFigure, Py.bind, Py.get, Py.put, Py.lift, Py.ret,
    Py.raise. simpl.
  destruct (let? bound := MultiFigure.getitem (MultiFigure.size m) 0 in
            MultiFigure.int_ge row bound) as [x|[]]; simpl; try done.
  destruct (let? bound := MultiFigure.getitem (MultiFigure.size m) 1 in
            MultiFigure.int_ge col bound) as [x|[]]; simpl; try done.
  destruct ((row <? 0)%Z || (col <? 0)%Z); simpl; try done.
  by destruct (SubFigure.__init__ _ _ _ _ _ _ _ _ _ _ _ _).
Qed.

(** C5, at the failing inputs.  On a grid of 2 by 2 squares of a figure of
    11 by 7 inches, the placement [(5, 0, 1, 1)] lies outside the grid and
    is accepted: a SubFigure is appended and returned.  On a grid of 20 by
    20 squares of a figure of the same size, the placement [(12, 0, 1, 1)]
    lies inside the grid and is refused. *)
Theorem C5_placement_checked_against_figure_size :
  (¬ valid_placement plain_MultiFigure (5, 0, 1, 1)%Z ∧
   ∃ new_SubFigure,
     add_SubFigure_at (5, 0, 1, 1)%Z plain_MultiFigure =
     (MultiFigure.with_SubFigures plain_MultiFigure [new_SubFigure],
      inr new_SubFigure)) ∧
  (valid_placement fine_MultiFigure (12, 0, 1, 1)%Z ∧
   add_SubFigure_at (12, 0, 1, 1)%Z fine_MultiFigure =
   (fine_MultiFigure,
    inl (Py.GraphingException
           "The placement value must be inside the size of the MultiFigure."))).
Proof.
  split; split.
  - unfold valid_placement. simpl. lia.
  - vm_compute. eexists. reflexivity.
  - unfold valid_placement. simpl. lia.
  - vm_compute. reflexivity.
Qed.

(** ** data_plotting_2d *)

(** C8.  A Heatmap built from an array is always built and keeps the
    [show_color_bar] it was given; one built from a file name, when the
    file can be read, has [show_color_bar = False] whatever was given.  In
    both cases [_xy_range] exists exactly when both ranges were given, and
    is then their concatenation. *)
Theorem C8_heatmap_post_init lib (image : Py.val)
    (x_axis_range y_axis_range : option (Q * Q)) (color_map : Py.val)
    (show_color_bar : bool)
    (alpha_value aspect_ratio origin_position interpolation : Py.val) :
  let built := Heatmap.new lib image x_axis_range y_axis_range color_map
                 show_color_bar alpha_value aspect_ratio origin_position
                 interpolation in
  ((∀ file_name, image ≠ Py.Str file_name) → ∃ h, built = inr h) ∧
  ∀ h, built = inr h →
    (∀ file_name, image = Py.Str file_name → Heatmap.show_color_bar h = false) ∧
    ((∀ file_name, image ≠ Py.Str file_name) →
     Heatmap.show_color_bar h = show_color_bar) ∧
    (is_Some (Heatmap._xy_range h) ↔ is_Some x_axis_range ∧ is_Some y_axis_range) ∧
    (∀ x y, x_axis_range = Some x → y_axis_range = Some y →
            Heatmap._xy_range h = Some (Heatmap.concat_ranges x y)).
Proof.
  intros built. subst built.
  unfold Heatmap.new, Heatmap.__post_init__, Py.bind, Py.get, Py.put, Py.lift,
    Py.ret. simpl.
  split.
  - intros Harray.
    destruct image; try (exfalso; by eapply Harray);
      destruct x_axis_range, y_axis_range; simpl; eauto.
  - intros h.
    destruct image; simpl;
      try destruct (imread lib s) as [x|pixels]; simpl;
      destruct x_axis_range as [x0|], y_axis_range as [y0|]; simpl;
      intros Hh; simplify_eq; simpl;
      (split; [intros; by simplify_eq|]);
      (split; [intros Harray; try done; exfalso; by eapply Harray|]);
      (split; [split; [intros [? ?]; by simplify_eq || eauto
                      |intros [[? ?] [? ?]]; by simplify_eq || eauto]|]);
      intros x y ? ?; by simplify_eq.
Qed.

(** C8, witness: a heatmap read from a file with [show_color_bar=True]. *)
Lemma C8_heatmap_post_init_witness :
  ∃ h, Heatmap.new sample_numerics (Py.Str "image.png") (Some (0, 10)%Q) None
         (Py.Str "default") true (Py.Float 1) (Py.Str "default")
         (Py.Str "default") (Py.Str "none") = inr h ∧
       Heatmap.show_color_bar h = false.
Proof.
  eexists. split; [vm_compute; reflexivity|].
  refine (proj1 (proj2 (C8_heatmap_post_init sample_numerics (Py.Str "image.png")
                          (Some (0, 10)%Q) None (Py.Str "default") true (Py.Float 1)
                          (Py.Str "default") (Py.Str "default") (Py.Str "none")) _ _)
                "image.png" eq_refl).
  vm_compute. reflexivity.
Defined.

(** C9.  Two vector fields that differ only in [arrow_length_multiplier]
    make the same [quiver] call on the same axes at the same [z_order]. *)
Theorem C9_arrow_length_multiplier_ignored (f g : VectorField.t) (axes : nat) (z_order : Z) :
  VectorField.differ_only_in_arrow_length_multiplier f g →
  VectorField._plot_element f axes z_order = VectorField._plot_element g axes z_order.
Proof.
  intros (Hx & Hy & Hu & Hv & Hw & Hhw & Hhl & Hhal & Ha & Hc).
  unfold VectorField._plot_element.
  by rewrite Hx, Hy, Hu, Hv, Hw, Hhw, Hhl, Hhal, Ha, Hc.
Qed.

(** C9, witness: the sample field with multipliers 1 and 25. *)
Lemma C9_arrow_length_multiplier_ignored_witness :
  VectorField._plot_element (sample_VectorField (Py.Int 1)) 0 0 =
  VectorField._plot_element (sample_VectorField (Py.Int 25)) 0 0.
Proof.
  apply (C9_arrow_length_multiplier_ignored (sample_VectorField (Py.Int 1))
           (sample_VectorField (Py.Int 25)) 0 0).
  unfold VectorField.differ_only_in_arrow_length_multiplier. simpl.
  repeat split; reflexivity.
Defined.

(** ** tools *)

Lemma bind_ret {St A} (m : Py.M St A) σ : Py.bind m Py.ret σ = m σ.
Proof. unfold Py.bind, Py.ret. by destruct (m σ) as [σ' [x|a]]. Qed.

Section Operators.
Import MathematicalObject Arithmetic.
Context {Heap Obj : Type} {ops : Operators Heap Obj}.

(** C10 (as amended).  The reflected operators are the forward ones:
    [__radd__] and [__rmul__] are [__add__] and [__mul__], [__rsub__] is
    [__sub__] times [-1], and [__rtruediv__] returns exactly when
    [__truediv__] to the power [-1] returns, with the same result.  The
    in-place operators are the binary ones, with their result and their
    effect on the program's objects and none of their own.  When the
    operators satisfy ordinary arithmetic laws, whatever [__rsub__] returns
    stands for [a - x] and whatever [__rtruediv__] returns stands for
    [a / x].  But [__rtruediv__] does not return whenever [a / x] exists:
    it raises [ZeroDivisionError] whenever [__truediv__] does, that is,
    whenever [x / a] is refused. *)
Theorem C10_reflected_and_in_place_operators {T : Type} (eqv : relation T)
    (sub div : T → T → T) (neg inv : T → T) (den : Obj → T)
    (num : Py.val → option T) (x : Obj) (a : operand Obj) (h : Heap) :
  (__radd__ x a h = __add__ x a h ∧
   __rmul__ x a h = __mul__ x a h ∧
   __rsub__ x a h = (let* difference := __sub__ x a in __mul__ difference minus_one) h ∧
   (∀ h' r, __rtruediv__ x a h = (h', inr r) ↔
            (let* quotient := __truediv__ x a in __pow__ quotient minus_one) h
            = (h', inr r))) ∧
  (__iadd__ x a h = __add__ x a h ∧
   __isub__ x a h = __sub__ x a h ∧
   __imul__ x a h = __mul__ x a h ∧
   __itruediv__ x a h = __truediv__ x a h ∧
   __ipow__ x a h = __pow__ x a h) ∧
  (ordinary eqv sub div neg inv den num →
   ∀ v h' r, meaning den num a = Some v →
     (__rsub__ x a h = (h', inr r) → eqv (den r) (sub v (den x))) ∧
     (__rtruediv__ x a h = (h', inr r) → eqv (den r) (div v (den x)))) ∧
  (∀ h' msg, __truediv__ x a h = (h', inl (Py.ZeroDivisionError msg)) →
             __rtruediv__ x a h
             = (h', inl (Py.ZeroDivisionError "Cannot divide by zero."))).
Proof.
  split; [|split; [|split]].
  - repeat split; try reflexivity.
    + unfold __rtruediv__.
      destruct ((let* quotient := __truediv__ x a in __pow__ quotient minus_one) h)
        as [h1 [[]|r1]]; intros Hr; by simplify_eq.
    + unfold __rtruediv__. intros ->. reflexivity.
  - unfold __iadd__, __isub__, __imul__, __itruediv__, __ipow__.
    by rewrite !bind_ret.
  - intros (Heqv & Hneg & Hinv & [Hlaw_sub Hlaw_div] & Hsub & Hmul & Hdiv & Hpow)
      v h' r Hv.
    split.
    + unfold __rsub__, Py.bind. intros Hr.
      destruct (__sub__ x a h) as [h1 [e|d]] eqn:Hd; [done|].
      etransitivity; [exact (Hmul _ _ _ _ Hr)|].
      etransitivity; [apply Hneg; exact (Hsub _ _ _ _ _ _ Hd Hv)|].
      apply Hlaw_sub.
    + unfold __rtruediv__, Py.bind. intros Hr.
      destruct (__truediv__ x a h) as [h1 [e|q]] eqn:Hq;
        [by destruct e|].
      destruct (__pow__ q minus_one h1) as [h2 [e|p]] eqn:Hp;
        [by destruct e|].
      simplify_eq.
      etransitivity; [exact (Hpow _ _ _ _ Hp)|].
      etransitivity; [apply Hinv; exact (Hdiv _ _ _ _ _ _ Hq Hv)|].
      apply Hlaw_div.
  - intros h' msg Hq. unfold __rtruediv__, Py.bind. by rewrite Hq.
Qed.

End Operators.

(** Exact rational arithmetic satisfies the laws. *)
Lemma Rational_ordinary :
  Arithmetic.ordinary (ops := Arithmetic.Rational) Qeq Qminus Qdiv Qopp Qinv
    (λ q, q) Arithmetic.rational_number.
Proof.
  unfold Arithmetic.ordinary, Arithmetic.laws.
  split; [exact Q_Setoid|]. split; [exact Qopp_comp|]. split; [exact Qinv_comp|].
  split; [split|].
  - intros u v. ring.
  - intros u v. unfold Qdiv. rewrite Qinv_mult_distr, Qinv_involutive. ring.
  - repeat split.
    + intros x a h h' r v Hr Hv.
      destruct a as [y|[]]; simpl in *; unfold Py.lift in Hr; simplify_eq; reflexivity.
    + intros x h h' r Hr. simpl in Hr. unfold Py.lift in Hr. simplify_eq.
      simpl. ring.
    + intros x a h h' r v Hr Hv.
      destruct a as [y|[]]; simpl in *; try discriminate;
        unfold Py.lift in Hr; injection Hv as <-;
        (destruct (Qeq_bool _ 0); [discriminate|]);
        injection Hr as <- <-; reflexivity.
    + intros x h h' r Hr. simpl in Hr. unfold Py.lift in Hr.
      destruct (Qeq_bool x 0); simplify_eq. simpl. reflexivity.
Qed.

(** C10, witness: [5 - x] and [5 / x] for the exact rational [x = 3/2]. *)
Lemma C10_reflected_and_in_place_operators_witness :
  (∃ r, MathematicalObject.__rsub__ (ops := Arithmetic.Rational) (3 # 2)%Q
          (MathematicalObject.Number (Py.Int 5)) tt = (tt, inr r) ∧
        (r == 7 # 2)%Q) ∧
  (∃ r, MathematicalObject.__rtruediv__ (ops := Arithmetic.Rational) (3 # 2)%Q
          (MathematicalObject.Number (Py.Int 5)) tt = (tt, inr r) ∧
        (r == 10 # 3)%Q).
Proof.
  pose proof (C10_reflected_and_in_place_operators (ops := Arithmetic.Rational)
                Qeq Qminus Qdiv Qopp Qinv (λ q, q) Arithmetic.rational_number
                (3 # 2)%Q (MathematicalObject.Number (Py.Int 5)) tt)
    as (_ & _ & Hcorrect & _).
  specialize (Hcorrect Rational_ordinary (inject_Z 5) tt).
  split.
  - eexists. split; [vm_compute; reflexivity|].
    rewrite (proj1 (Hcorrect _ eq_refl)); [reflexivity|].
    vm_compute. reflexivity.
  - eexists. split; [vm_compute; reflexivity|].
    rewrite (proj2 (Hcorrect _ eq_refl)); [reflexivity|].
    vm_compute. reflexivity.
Defined.

(** C10, counterexample: exact rationals satisfy the laws and
    [0 / x = 0] for [x = 3/2], yet [x.__rtruediv__(0)] raises: it computes
    [x / 0] first. *)
Lemma C10_counterexample_zero_divided_by_object :
  Arithmetic.ordinary (ops := Arithmetic.Rational) Qeq Qminus Qdiv Qopp Qinv
    (λ q, q) Arithmetic.rational_number ∧
  Arithmetic.meaning (λ q : Q, q) Arithmetic.rational_number
    (MathematicalObject.Number (Py.Int 0)) = Some (inject_Z 0) ∧
  (inject_Z 0 / (3 # 2) == 0)%Q ∧
  MathematicalObject.__rtruediv__ (ops := Arithmetic.Rational) (3 # 2)%Q
    (MathematicalObject.Number (Py.Int 0)) tt
  = (tt, inl (Py.ZeroDivisionError "Cannot divide by zero.")).
Proof.
  split; [exact Rational_ordinary|]. split; [reflexivity|].
  split; reflexivity.
Qed.

(** ** More on default-parameter resolution *)

Lemma dict_set_keys_app k v (d : Py.dict) :
  Py.dict_keys (Py.dict_set k v d) =
  Py.dict_keys d ++ (if decide (is_Some (Py.dict_get k d)) then [] else [k]).
Proof.
  unfold Py.dict_keys. induction d as [|[k' v'] d IH]; simpl.
  - destruct (decide (is_Some (@None Py.val))) as [[? ?]|]; [discriminate|done].
  - destruct (decide (k' = k)) as [->|Hk]; simpl.
    + destruct (decide (is_Some (Some v'))) as [|Hn]; [by rewrite app_nil_r|].
      exfalso. apply Hn. eauto.
    + f_equal. apply IH.
Qed.

Lemma step_keys_app params object_type property value d :
  ∃ added, Py.dict_keys (Resolution.step params object_type property value d).1 =
           Py.dict_keys d ++ added.
Proof.
  unfold Resolution.step.
  repeat (match goal with
          | |- context [match Py.style_item ?P ?t ?p with _ => _ end] =>
              destruct (Py.style_item P t p)
          | |- context [if Py.eq_str ?v ?s then _ else _] => destruct (Py.eq_str v s)
          end; simpl);
    rewrite ?dict_set_keys_app, <- ?app_assoc; eauto using app_nil_r.
Qed.

Lemma run_keys_app params object_type used properties d :
  ∃ added, Py.dict_keys (Resolution.run params object_type used properties d).1 =
           Py.dict_keys d ++ added.
Proof.
  revert d. induction properties as [|p rest IH]; intros d; simpl.
  - destruct (decide _); exists []; by rewrite app_nil_r.
  - destruct (decide _); [|exists []; by rewrite app_nil_r].
    destruct (Py.dict_get p d) as [value|]; [|exists []; by rewrite app_nil_r].
    destruct (step_keys_app params object_type p value d) as [a1 H1].
    destruct (Resolution.step params object_type p value d) as [d1 [x|[]]];
      simpl in *; [eauto|].
    destruct (IH d1) as [a2 H2]. exists (a1 ++ a2). by rewrite H2, H1, app_assoc.
Qed.

Lemma run_returns_length params object_type used properties d d' :
  Resolution.run params object_type used properties d = (d', inr tt) →
  length d' = used.
Proof.
  revert d. induction properties as [|p rest IH]; intros d; simpl.
  - destruct (decide _); [|done]. by intros [= <-].
  - destruct (decide _); [|done].
    destruct (Py.dict_get p d) as [value|]; [|done].
    destruct (Resolution.step params object_type p value d) as [d1 [x|[]]]; [done|].
    apply IH.
Qed.

(** X1.  When [_fill_in_missing_params] returns, the element has the
    attributes it had, in the same order: none was added, none removed. *)
Theorem X1_fill_keeps_attribute_names (s : SubFigure.t) (e : Element) :
  let out := SubFigure._fill_in_missing_params {| self := s; element := e |} in
  out.2 = inr tt →
  class_name (element out.1) = class_name e ∧
  Py.dict_keys (__dict__ (element out.1)) = Py.dict_keys (__dict__ e).
Proof.
  intros out. subst out. rewrite SubFigure_fill_run. unfold Resolution.fill. simpl.
  destruct (Resolution.run _ _ _ _ _) as [d' o] eqn:Hrun. simpl.
  intros ->. split; [done|].
  pose proof (run_returns_length _ _ _ _ _ _ Hrun) as Hlen.
  destruct (run_keys_app (SubFigure.default_params s) (class_name e)
              (length (__dict__ e)) (Py.dict_keys (__dict__ e)) (__dict__ e))
    as [added Hk].
  rewrite Hrun in Hk. simpl in Hk.
  assert (length (Py.dict_keys d') = length (Py.dict_keys (__dict__ e))) as Hl
    by (unfold Py.dict_keys; by rewrite !length_fmap).
  rewrite Hk, length_app in Hl.
  destruct added; [by rewrite app_nil_r in Hk|simpl in Hl; lia].
Qed.

(** X1, witness: the sample curve. *)
Lemma X1_fill_keeps_attribute_names_witness :
  Py.dict_keys
    (__dict__ (element (SubFigure._fill_in_missing_params
                          {| self := plain_SubFigure; element := plain_curve |}).1))
  = Py.dict_keys (__dict__ plain_curve).
Proof.
  apply (X1_fill_keeps_attribute_names plain_SubFigure plain_curve).
  vm_compute. reflexivity.
Defined.

Lemma run_without_defaults params object_type properties d :
  (∀ p, Py.dict_get p d ≠ Some (Py.Str "default")) →
  (∀ p, p ∈ properties → is_Some (Py.dict_get p d)) →
  Resolution.run params object_type (length d) properties d = (d, inr tt).
Proof.
  intros Hnone. induction properties as [|p rest IH]; intros Hin; simpl.
  - by destruct (decide _).
  - destruct (decide _); [|done].
    destruct (Hin p) as [value Hv]; [left|]. rewrite Hv.
    unfold Resolution.step.
    destruct (Py.eq_str value "default") eqn:Hd.
    + apply eq_str_true in Hd as ->. by apply Hnone in Hv.
    + apply IH. intros q Hq. apply Hin. by right.
Qed.

(** X2.  An element none of whose attributes is ["default"] is left as it
    is and nothing is raised, whatever the style dictionary holds, by
    either container. *)
Theorem X2_fill_without_defaults_is_identity
    (s : SubFigure.t) (m : MultiFigure.t) (e : Element) :
  (∀ p, Py.dict_get p (__dict__ e) ≠ Some (Py.Str "default")) →
  SubFigure._fill_in_missing_params {| self := s; element := e |}
  = ({| self := s; element := e |}, inr tt) ∧
  MultiFigure._fill_in_missing_params {| self := m; element := e |}
  = ({| self := m; element := e |}, inr tt).
Proof.
  intros Hnone.
  rewrite SubFigure_fill_run, MultiFigure_fill_run. unfold Resolution.fill. simpl.
  rewrite !run_without_defaults; try done;
    try (intros p Hp; by apply dict_get_is_Some).
  by destruct e.
Qed.

(** X2, witness: a curve with every attribute set. *)
Lemma X2_fill_without_defaults_is_identity_witness :
  let e := {| class_name := "Curve";
              __dict__ := [("color", Py.Str "b"); ("line_width", Py.Int 1)] |} in
  let s := plain_SubFigure in
  SubFigure._fill_in_missing_params {| self := s; element := e |}
  = ({| self := s; element := e |}, inr tt).
Proof.
  refine (proj1 (X2_fill_without_defaults_is_identity _ plain_MultiFigure _ _)).
  intros p Hp. apply dict_get_Some_key in Hp as Hk. vm_compute in Hk.
  repeat (apply elem_of_cons in Hk as [->|Hk]; [vm_compute in Hp; discriminate|]).
  inversion Hk.
Defined.

Lemma run_missing_section params object_type properties d p :
  params !! object_type = None →
  p ∈ properties → Py.dict_get p d = Some (Py.Str "default") →
  (∀ q, q ∈ properties → is_Some (Py.dict_get q d)) →
  Resolution.run params object_type (length d) properties d
  = (d, inl (Py.KeyError object_type)).
Proof.
  intros Hsec Hp Hd. induction properties as [|k rest IH]; intros Hin; simpl.
  - inversion Hp.
  - destruct (decide _); [|done].
    destruct (Hin k) as [value Hv]; [left|]. rewrite Hv.
    unfold Resolution.step, Py.style_item. rewrite Hsec.
    destruct (Py.eq_str value "default") eqn:Hdef; [done|].
    apply elem_of_cons in Hp as [->|Hp].
    + rewrite Hd in Hv. injection Hv as <-. vm_compute in Hdef. discriminate.
    + apply IH; [done|]. intros q Hq. apply Hin. by right.
Qed.

(** X3.  When the style dictionary has no entry for the element's class
    and some attribute of the element is ["default"],
    [_fill_in_missing_params] raises [KeyError] on the class name and
    leaves the element as it was. *)
Theorem X3_fill_unknown_class_raises_KeyError (s : SubFigure.t) (e : Element) p :
  SubFigure.default_params s !! class_name e = None →
  Py.dict_get p (__dict__ e) = Some (Py.Str "default") →
  SubFigure._fill_in_missing_params {| self := s; element := e |}
  = ({| self := s; element := e |}, inl (Py.KeyError (class_name e))).
Proof.
  intros Hsec Hp. rewrite SubFigure_fill_run. unfold Resolution.fill. simpl.
  rewrite (run_missing_section _ _ _ _ p); try done.
  - by destruct e.
  - by eapply dict_get_Some_key.
  - intros q Hq. by apply dict_get_is_Some.
Qed.

(** X3, witness: an element of a class the plain style does not know. *)
Lemma X3_fill_unknown_class_raises_KeyError_witness :
  let e := {| class_name := "Histogram";
              __dict__ := [("face_color", Py.Str "default")] |} in
  SubFigure._fill_in_missing_params {| self := plain_SubFigure; element := e |}
  = ({| self := plain_SubFigure; element := e |}, inl (Py.KeyError "Histogram")).
Proof.
  apply (X3_fill_unknown_class_raises_KeyError plain_SubFigure
           {| class_name := "Histogram";
              __dict__ := [("face_color", Py.Str "default")] |} "face_color");
    vm_compute; reflexivity.
Defined.

Lemma step_length params object_type property value d :
  (∀ t, t ∈ Resolution.alias_targets → is_Some (Py.dict_get t d)) →
  is_Some (Py.dict_get property d) →
  length (Resolution.step params object_type property value d).1 = length d.
Proof.
  intros Ht Hp.
  assert (is_Some (Py.dict_get "errorbars_color" d)) as H1
    by (apply Ht; unfold Resolution.alias_targets; repeat constructor).
  assert (is_Some (Py.dict_get "errorbars_line_width" d)) as H2
    by (apply Ht; unfold Resolution.alias_targets; repeat constructor).
  assert (is_Some (Py.dict_get "cap_thickness" d)) as H3
    by (apply Ht; unfold Resolution.alias_targets; repeat constructor).
  unfold Resolution.step.
  repeat (match goal with
          | |- context [match Py.style_item ?P ?t ?p with _ => _ end] =>
              destruct (Py.style_item P t p)
          | |- context [if Py.eq_str ?v ?s then _ else _] => destruct (Py.eq_str v s)
          end; simpl);
    rewrite ?dict_set_length; try done;
    rewrite ?dict_get_set; repeat case_decide; eauto.
Qed.

Lemma run_raises_KeyError params object_type properties d x :
  (∀ t, t ∈ Resolution.alias_targets → is_Some (Py.dict_get t d)) →
  (∀ q, q ∈ properties → is_Some (Py.dict_get q d)) →
  (Resolution.run params object_type (length d) properties d).2 = inl x →
  ∃ key, x = Py.KeyError key.
Proof.
  generalize (eq_refl (length d)). generalize (length d) at 2 3. intros used.
  revert d. induction properties as [|p rest IH]; intros d Hlen Ht Hin; simpl.
  - by destruct (decide _).
  - destruct (decide _); [|done].
    destruct (Hin p) as [value Hv]; [left|]. rewrite Hv.
    pose proof (step_raises params object_type p value d) as Hx.
    pose proof (step_length params object_type p value d Ht (Hin p ltac:(left))) as Hl.
    pose proof (λ q, step_keeps params object_type p value d q) as Hk.
    destruct (Resolution.step params object_type p value d) as [d1 [y|[]]];
      simpl in *; [intros [= <-]; by apply Hx|].
    apply IH; [congruence| |].
    + intros t Hin'. apply Hk. by apply Ht.
    + intros q Hq. apply Hk. apply Hin. by right.
Qed.

(** X4.  For an element that has the three error-bar attributes, the only
    exception [_fill_in_missing_params] can raise is [KeyError]: the
    dictionary never changes size under the loop. *)
Theorem X4_fill_with_errorbar_attributes_raises_only_KeyError
    (s : SubFigure.t) (e : Element) x :
  (∀ t, t ∈ Resolution.alias_targets → is_Some (Py.dict_get t (__dict__ e))) →
  (SubFigure._fill_in_missing_params {| self := s; element := e |}).2 = inl x →
  ∃ key, x = Py.KeyError key.
Proof.
  intros Ht. rewrite SubFigure_fill_run. unfold Resolution.fill. simpl.
  apply run_raises_KeyError; [done|].
  intros q Hq. by apply dict_get_is_Some.
Qed.

(** X4, witness: a scatter plot with error bars whose style lacks
    [marker_style]. *)
Lemma X4_fill_with_errorbar_attributes_raises_only_KeyError_witness :
  let s := plain_SubFigure in
  ∃ key,
    (SubFigure._fill_in_missing_params
       {| self := s;
          element := {| class_name := "Scatter";
                        __dict__ := __dict__ curve_with_errorbars ++
                                    [("marker_style", Py.Str "default")] |} |}).2
    = inl (Py.KeyError key).
Proof.
  eexists.
  destruct (X4_fill_with_errorbar_attributes_raises_only_KeyError
              plain_SubFigure
              {| class_name := "Scatter";
                 __dict__ := __dict__ curve_with_errorbars ++
                             [("marker_style", Py.Str "default")] |}
              (Py.KeyError "marker_style")) as [key Hkey].
  - intros t Ht. unfold Resolution.alias_targets in Ht.
    repeat (apply elem_of_cons in Ht as [->|Ht]; [vm_compute; eauto|]).
    inversion Ht.
  - vm_compute. reflexivity.
  - vm_compute. reflexivity.
Defined.

Lemma dict_set_new k v (d : Py.dict) :
  Py.dict_get k d = None → Py.dict_set k v d = d ++ [(k, v)].
Proof.
  induction d as [|[k' v'] d IH]; simpl; [done|].
  destruct (decide (k' = k)); [done|]. intros H. by rewrite IH.
Qed.

Lemma dict_get_app_first (d1 d2 : Py.dict) k :
  k ∉ Py.dict_keys d1 → Py.dict_get k (d1 ++ d2) = Py.dict_get k d2.
Proof.
  unfold Py.dict_keys. induction d1 as [|[k' v'] d1 IH]; simpl; [done|].
  intros Hk. apply not_elem_of_cons in Hk as [Hne Hk].
  destruct (decide (k' = k)); [congruence|]. by apply IH.
Qed.

Lemma run_skips_set_attributes params object_type d (before : Py.dict) rest :
  Forall (λ kv, ∃ v, Py.dict_get kv.1 d = Some v ∧ v ≠ Py.Str "default") before →
  Resolution.run params object_type (length d) (Py.dict_keys before ++ rest) d =
  Resolution.run params object_type (length d) rest d.
Proof.
  induction 1 as [|[k v0] before (v & Hv & Hne) _ IH]; [done|].
  simpl. destruct (decide _); [|done]. simpl in Hv. rewrite Hv.
  unfold Resolution.step.
  destruct (Py.eq_str v "default") eqn:Hd; [by apply eq_str_true in Hd|].
  exact IH.
Qed.

(** X5.  An element without an [errorbars_color] attribute whose first
    attribute left at ["default"] has the style entry ["same as scatter"]
    gains the attribute [errorbars_color], last in its dictionary, and the
    loop then stops with [RuntimeError], the dictionary having changed
    size during iteration. *)
Theorem X5_fill_alias_on_missing_attribute_raises_RuntimeError
    (s : SubFigure.t) (e : Element) (before after : Py.dict) p face_color :
  __dict__ e = before ++ (p, Py.Str "default") :: after →
  Forall (λ kv, kv.2 ≠ Py.Str "default") before →
  NoDup (Py.dict_keys (__dict__ e)) →
  Py.dict_get "errorbars_color" (__dict__ e) = None →
  Py.style_item (SubFigure.default_params s) (class_name e) p
  = inr (Py.Str "same as scatter") →
  Py.style_item (SubFigure.default_params s) (class_name e) "face_color"
  = inr face_color →
  SubFigure._fill_in_missing_params {| self := s; element := e |}
  = ({| self := s;
        element := {| class_name := class_name e;
                      __dict__ := __dict__ e ++ [("errorbars_color", face_color)] |} |},
     inl size_changed).
Proof.
  intros Hd Hbefore Hnd Hec Hp Hfc.
  rewrite SubFigure_fill_run. unfold Resolution.fill. simpl.
  set (d := __dict__ e) in *.
  assert (Py.dict_keys d = Py.dict_keys before ++ p :: Py.dict_keys after) as Hkeys
    by (rewrite Hd; unfold Py.dict_keys; by rewrite fmap_app).
  rewrite Hkeys in Hnd. apply NoDup_app in Hnd as (Hnd1 & Hdisj & Hnd2).
  assert (Py.dict_get p d = Some (Py.Str "default")) as Hpd.
  { rewrite Hd, dict_get_app_first; [simpl; by destruct (decide (p = p))|].
    intros Hin. apply (Hdisj p Hin). left. }
  rewrite Hkeys, run_skips_set_attributes.
  - simpl. destruct (decide _); [|done]. rewrite Hpd.
    unfold Resolution.step. simpl. rewrite Hp. simpl. rewrite Hfc.
    rewrite (dict_set_new _ _ _ Hec).
    destruct (Py.dict_keys after); simpl;
      (destruct (decide _) as [Hl|_]; [rewrite length_app in Hl; simpl in Hl; lia|done]).
  - rewrite Forall_forall in Hbefore. apply Forall_forall. intros [k v] Hkv.
    exists v. split; [|by apply (Hbefore _ Hkv)]. simpl.
    rewrite Hd. clear -Hkv Hnd1.
    induction before as [|[k' v'] before IH]; [inversion Hkv|].
    simpl in *. apply NoDup_cons in Hnd1 as [Hk' Hnd1].
    apply elem_of_cons in Hkv as [[= -> ->]|Hkv].
    + by destruct (decide (k' = k')).
    + destruct (decide (k' = k)) as [->|]; [|by apply IH].
      exfalso. apply Hk'. by apply (list_elem_of_fmap_2 fst _ (k, v)).
Qed.

(** X5, witness: a scatter plot without [errorbars_color]. *)
Lemma X5_fill_alias_on_missing_attribute_raises_RuntimeError_witness :
  let e := {| class_name := "Scatter";
              __dict__ := [("marker_size", Py.Int 3);
                           ("errorbars_line_width", Py.Str "default")] |} in
  (SubFigure._fill_in_missing_params {| self := plain_SubFigure; element := e |}).2
  = inl size_changed.
Proof.
  intros e.
  rewrite (X5_fill_alias_on_missing_attribute_raises_RuntimeError plain_SubFigure e
             [("marker_size", Py.Int 3)] [] "errorbars_line_width" (Py.Str "k"));
    try reflexivity.
  - by repeat constructor.
  - apply (bool_decide_unpack _). vm_compute. exact I.
Defined.

(** ** Constructing and filling a SubFigure *)

Lemma or_figure_default_cases given params key v :
  SubFigure.or_figure_default given params key = inr v →
  (given ≠ Py.Str "default" → v = given) ∧
  (given = Py.Str "default" → Py.style_item params "Figure" key = inr v).
Proof.
  unfold SubFigure.or_figure_default.
  destruct (Py.eq_str given "default") eqn:Hd; simpl.
  - apply eq_str_true in Hd as ->. intros H. split; [done|]. by intros _.
  - intros [= <-]. split; [done|]. intros ->. vm_compute in Hd. discriminate.
Qed.

(** X6.  A SubFigure that [__init__] returns holds the style its
    [figure_style] loads; each of [legend_is_boxed], [ticks_are_in],
    [log_scale_x] and [log_scale_y] is the argument given, or the entry of
    the style's ["Figure"] section when the argument was ["default"]; and
    it starts without elements, labels, handles or grid. *)
Theorem X6_SubFigure_init_resolves_flags env placement x_label y_label x_lim y_lim
    figure_style log_scale_x log_scale_y show_grid legend_is_boxed ticks_are_in s :
  SubFigure.__init__ env placement x_label y_label x_lim y_lim figure_style
    log_scale_x log_scale_y show_grid legend_is_boxed ticks_are_in = inr s →
  let params := SubFigure.default_params s in
  let resolved given key stored :=
    (given ≠ Py.Str "default" → stored = given) ∧
    (given = Py.Str "default" → Py.style_item params "Figure" key = inr stored) in
  load env figure_style = inr params ∧
  resolved legend_is_boxed "boxed_legend" (SubFigure.legend_is_boxed s) ∧
  resolved ticks_are_in "ticks_are_in" (SubFigure.ticks_are_in s) ∧
  resolved log_scale_x "log_scale_x" (SubFigure.log_scale_x s) ∧
  resolved log_scale_y "log_scale_y" (SubFigure.log_scale_y s) ∧
  SubFigure.placement s = placement ∧
  SubFigure._elements s = [] ∧ SubFigure._labels s = [] ∧
  SubFigure._handles s = [] ∧ SubFigure.grid_is_set s = false.
Proof.
  unfold SubFigure.__init__, Py.and_then.
  destruct (load env figure_style) as [x|params]; [done|].
  destruct (SubFigure.or_figure_default legend_is_boxed params "boxed_legend")
    as [x|v1] eqn:H1; [done|].
  destruct (SubFigure.or_figure_default ticks_are_in params "ticks_are_in")
    as [x|v2] eqn:H2; [done|].
  destruct (SubFigure.or_figure_default log_scale_x params "log_scale_x")
    as [x|v3] eqn:H3; [done|].
  destruct (SubFigure.or_figure_default log_scale_y params "log_scale_y")
    as [x|v4] eqn:H4; [done|].
  destruct (SubFigure.or_figure_default show_grid params "show_grid")
    as [x|v5] eqn:H5; [done|].
  intros [= <-]. simpl.
  repeat match goal with |- _ ∧ _ => split end; try done;
    by eapply or_figure_default_cases.
Qed.

(** X6, witness: the plain SubFigure, built with [ticks_are_in=False] and
    the other flags left to the style. *)
Lemma X6_SubFigure_init_resolves_flags_witness :
  SubFigure.__init__ sample_env (0, 0, 1, 1)%Z "x axis" "y axis" None None "plain"
    (Py.Str "default") (Py.Str "default") (Py.Str "default")
    (Py.Str "default") (Py.Bool false) = inr plain_SubFigure ∧
  SubFigure.ticks_are_in plain_SubFigure = Py.Bool false ∧
  Py.style_item plain "Figure" "boxed_legend"
  = inr (SubFigure.legend_is_boxed plain_SubFigure).
Proof.
  assert (H : SubFigure.__init__ sample_env (0, 0, 1, 1)%Z "x axis" "y axis"
                None None "plain" (Py.Str "default") (Py.Str "default")
                (Py.Str "default") (Py.Str "default") (Py.Bool false)
              = inr plain_SubFigure) by reflexivity.
  split; [exact H|].
  destruct (X6_SubFigure_init_resolves_flags _ _ _ _ _ _ _ _ _ _ _ _ _ H)
    as (_ & [_ Hbox] & [Hticks _] & _).
  split; [by apply Hticks|by apply Hbox].
Defined.

(** X7.  The [show_grid] argument has no effect on the SubFigure that
    [__init__] returns: two constructions that differ only in [show_grid]
    and both return give equal SubFigures, with [grid_is_set = False]. *)
Theorem X7_show_grid_is_ignored env placement x_label y_label x_lim y_lim
    figure_style log_scale_x log_scale_y legend_is_boxed ticks_are_in
    show_grid1 show_grid2 s1 s2 :
  SubFigure.__init__ env placement x_label y_label x_lim y_lim figure_style
    log_scale_x log_scale_y show_grid1 legend_is_boxed ticks_are_in = inr s1 →
  SubFigure.__init__ env placement x_label y_label x_lim y_lim figure_style
    log_scale_x log_scale_y show_grid2 legend_is_boxed ticks_are_in = inr s2 →
  s1 = s2 ∧ SubFigure.grid_is_set s1 = false.
Proof.
  unfold SubFigure.__init__, Py.and_then.
  destruct (load env figure_style) as [x|params]; [done|].
  destruct (SubFigure.or_figure_default legend_is_boxed params "boxed_legend")
    as [x|v1]; [done|].
  destruct (SubFigure.or_figure_default ticks_are_in params "ticks_are_in")
    as [x|v2]; [done|].
  destruct (SubFigure.or_figure_default log_scale_x params "log_scale_x")
    as [x|v3]; [done|].
  destruct (SubFigure.or_figure_default log_scale_y params "log_scale_y")
    as [x|v4]; [done|].
  destruct (SubFigure.or_figure_default show_grid1 params "show_grid")
    as [x|g1]; [done|].
  destruct (SubFigure.or_figure_default show_grid2 params "show_grid")
    as [x|g2]; [done|].
  by intros [= <-] [= <-].
Qed.

(** X7, witness: [show_grid=True] against [show_grid=False]. *)
Lemma X7_show_grid_is_ignored_witness :
  plain_SubFigure = plain_SubFigure ∧ SubFigure.grid_is_set plain_SubFigure = false.
Proof.
  apply (X7_show_grid_is_ignored sample_env (0, 0, 1, 1)%Z "x axis" "y axis"
           None None "plain" (Py.Str "default") (Py.Str "default")
           (Py.Str "default") (Py.Str "default") (Py.Bool true) (Py.Bool false));
    reflexivity.
Defined.

Lemma add_one_spec s e :
  SubFigure._elements (SubFigure.add_one s e) = SubFigure._elements s ++ [e] ∧
  SubFigure._labels (SubFigure.add_one s e) =
    SubFigure._labels s ++ (match label_of e with Some l => [l] | None => [] end) ∧
  SubFigure._handles (SubFigure.add_one s e) = SubFigure._handles s ∧
  SubFigure.default_params (SubFigure.add_one s e) = SubFigure.default_params s.
Proof.
  unfold SubFigure.add_one, label_of.
  destruct (getattr e "label") as [x|label]; [by rewrite app_nil_r|].
  destruct (Py.is_not_None label); [done|by rewrite app_nil_r].
Qed.

(** X8.  [add_element] appends the elements it is given, in order, to
    [_elements], and to [_labels] the [label] of each one that has a
    [label] attribute other than [None]; it leaves [_handles] and the style
    alone.  Adding two batches one after the other is adding them at
    once. *)
Theorem X8_add_element_appends (s : SubFigure.t) (elements more : list Element) :
  SubFigure._elements (SubFigure.add_element s elements)
  = SubFigure._elements s ++ elements ∧
  SubFigure._labels (SubFigure.add_element s elements)
  = SubFigure._labels s ++ omap label_of elements ∧
  SubFigure._handles (SubFigure.add_element s elements) = SubFigure._handles s ∧
  SubFigure.default_params (SubFigure.add_element s elements)
  = SubFigure.default_params s ∧
  SubFigure.add_element (SubFigure.add_element s elements) more
  = SubFigure.add_element s (elements ++ more).
Proof.
  split; [|split; [|split; [|split]]].
  - revert s. induction elements as [|e elements IH]; intros s; simpl.
    + by rewrite app_nil_r.
    + rewrite IH. destruct (add_one_spec s e) as (-> & _).
      by rewrite <- app_assoc.
  - revert s. induction elements as [|e elements IH]; intros s; simpl.
    + by rewrite app_nil_r.
    + rewrite IH. destruct (add_one_spec s e) as (_ & -> & _).
      rewrite <- app_assoc. by destruct (label_of e).
  - revert s. induction elements as [|e elements IH]; intros s; simpl; [done|].
    rewrite IH. by destruct (add_one_spec s e) as (_ & _ & -> & _).
  - revert s. induction elements as [|e elements IH]; intros s; simpl; [done|].
    rewrite IH. by destruct (add_one_spec s e) as (_ & _ & _ & ->).
  - unfold SubFigure.add_element. by rewrite foldl_app.
Qed.

(** ** The grid of a SubFigure *)

Lemma or_figure_default_raises given params key x :
  SubFigure.or_figure_default given params key = inl x → ∃ k, x = Py.KeyError k.
Proof.
  unfold SubFigure.or_figure_default.
  destruct (Py.eq_str given "default"); [|done].
  apply style_item_raises.
Qed.

Lemma init_without_grid env placement x_label y_label x_lim y_lim figure_style
    log_scale_x log_scale_y show_grid legend_is_boxed ticks_are_in s :
  SubFigure.__init__ env placement x_label y_label x_lim y_lim figure_style
    log_scale_x log_scale_y show_grid legend_is_boxed ticks_are_in = inr s →
  SubFigure.grid_is_set s = false.
Proof.
  unfold SubFigure.__init__, Py.and_then.
  destruct (load env figure_style) as [x|params]; [done|].
  repeat match goal with
         | |- context [SubFigure.or_figure_default ?g ?p ?k] =>
             destruct (SubFigure.or_figure_default g p k); [done|]
         end.
  by intros [= <-].
Qed.

(** X9.  Whenever [grid_is_set] is true the four grid attributes are
    assigned: this holds of a SubFigure that [__init__] returns, and
    [add_element] and [set_grid] keep it, [set_grid] also when it raises
    half way; [set_grid] raises nothing but a [KeyError], and then leaves
    [grid_is_set] as it was. *)
Theorem X9_grid_attributes_assigned_when_set :
  (∀ env placement x_label y_label x_lim y_lim figure_style log_scale_x
     log_scale_y show_grid legend_is_boxed ticks_are_in s,
     SubFigure.__init__ env placement x_label y_label x_lim y_lim figure_style
       log_scale_x log_scale_y show_grid legend_is_boxed ticks_are_in = inr s →
     grid_ready s) ∧
  (∀ s elements, grid_ready s → grid_ready (SubFigure.add_element s elements)) ∧
  (∀ s line_width line_style color alpha,
     grid_ready s →
     let out := SubFigure.set_grid line_width line_style color alpha s in
     grid_ready out.1 ∧
     ∀ x, out.2 = inl x →
          (∃ k, x = Py.KeyError k) ∧
          SubFigure.grid_is_set out.1 = SubFigure.grid_is_set s).
Proof.
  split; [|split].
  - intros * H. apply init_without_grid in H. unfold grid_ready. by rewrite H.
  - intros s elements. revert s.
    induction elements as [|e elements IH]; intros s Hs; simpl; [done|].
    apply IH. unfold grid_ready, SubFigure.add_one in *.
    destruct (getattr e "label") as [x|label]; [done|].
    by destruct (Py.is_not_None label).
  - intros s line_width line_style color alpha Hs.
    unfold grid_ready in *. destruct s. simpl in *.
    unfold SubFigure.set_grid, Py.bind, Py.get, Py.put, Py.lift, Py.ret. simpl.
    destruct (SubFigure.or_figure_default line_style _ _) as [x1|v1] eqn:H1; simpl.
    { split; [done|]. intros x [= <-]. split; [|done].
      by eapply or_figure_default_raises. }
    destruct (SubFigure.or_figure_default line_width _ _) as [x2|v2] eqn:H2; simpl.
    { split; [|intros x [= <-]; split; [by eapply or_figure_default_raises|done]].
      intros H. destruct (Hs H) as (_ & ? & ? & ?). eauto. }
    destruct (SubFigure.or_figure_default color _ _) as [x3|v3] eqn:H3; simpl.
    { split; [|intros x [= <-]; split; [by eapply or_figure_default_raises|done]].
      intros H. destruct (Hs H) as (_ & _ & ? & ?). eauto. }
    destruct (SubFigure.or_figure_default alpha _ _) as [x4|v4] eqn:H4; simpl.
    { split; [|intros x [= <-]; split; [by eapply or_figure_default_raises|done]].
      intros H. destruct (Hs H) as (_ & _ & _ & ?). eauto. }
    split; [eauto|done].
Qed.

(** X9, witness: the plain style has no grid entries, so [set_grid] with
    the colour left to the style raises after two assignments. *)
Lemma X9_grid_attributes_assigned_when_set_witness :
  grid_ready plain_SubFigure ∧
  grid_ready (SubFigure.set_grid (Py.Int 1) (Py.Str "--") (Py.Str "default")
                (Py.Str "default") plain_SubFigure).1.
Proof.
  assert (H : grid_ready plain_SubFigure) by (intros H; vm_compute in H; discriminate).
  split; [exact H|].
  exact (proj1 (proj2 (proj2 X9_grid_attributes_assigned_when_set)
                  plain_SubFigure (Py.Int 1) (Py.Str "--") (Py.Str "default")
                  (Py.Str "default") H)).
Defined.

(** X10.  When [set_grid(line_width, line_style, color, alpha)] returns,
    only the grid attributes have changed: each holds the argument given,
    or the entry of the style's ["Figure"] section when the argument was
    ["default"].  Preparing the axes of that SubFigure then returns, and
    its last call is [axes.grid(True, which="major", linestyle=...,
    linewidth=..., color=..., alpha=...)] with these four values. *)
Theorem X10_set_grid_then_axes_draw_the_grid (s s' : SubFigure.t)
    (line_width line_style color alpha : Py.val) (cs : list Backend.call) :
  SubFigure.set_grid line_width line_style color alpha s = (s', inr tt) →
  let resolved given key stored :=
    (given ≠ Py.Str "default" → stored = given) ∧
    (given = Py.Str "default" →
     Py.style_item (SubFigure.default_params s) "Figure" key = inr stored) in
  ∃ style width col al,
    resolved line_style "grid_line_style" style ∧
    resolved line_width "grid_line_width" width ∧
    resolved color "grid_color" col ∧
    resolved alpha "grid_alpha" al ∧
    s' = SubFigure.with_grid s true (Some style) (Some width) (Some col) (Some al) ∧
    ∃ before,
      SubFigure.set_up_axes {| this := s'; calls := cs |}
      = ({| this := SubFigure.with_axes s' (length cs);
            calls := cs ++ before
                     ++ [Backend.grid (length cs) "major" style width col al] |},
         inr (length cs)).
Proof.
  destruct s. 
  unfold SubFigure.set_grid, Py.bind, Py.get, Py.put, Py.lift, Py.ret. simpl.
  destruct (SubFigure.or_figure_default line_style _ _) as [x1|v1] eqn:H1; simpl;
    [done|].
  destruct (SubFigure.or_figure_default line_width _ _) as [x2|v2] eqn:H2; simpl;
    [done|].
  destruct (SubFigure.or_figure_default color _ _) as [x3|v3] eqn:H3; simpl;
    [done|].
  destruct (SubFigure.or_figure_default alpha _ _) as [x4|v4] eqn:H4; simpl;
    [done|].
  intros [= <-]. exists v1, v2, v3, v4.
  apply or_figure_default_cases in H1, H2, H3, H4.
  repeat match goal with |- _ ∧ _ => split; [assumption || reflexivity|] end.
  unfold SubFigure.set_up_axes, Py.bind, receiver, backend, update, when,
    assigned, Py.ret, Py.raise. simpl.
  destruct placement as [[[row col] rowspan] colspan].
  destruct x_lim, y_lim, (Py.truthy log_scale_x), (Py.truthy log_scale_y),
    (Py.truthy ticks_are_in); simpl; rewrite <- ?app_assoc; simpl;
    first [ by eexists [_; _; _] | by eexists [_; _; _; _]
          | by eexists [_; _; _; _; _] | by eexists [_; _; _; _; _; _]
          | by eexists [_; _; _; _; _; _; _]
          | by eexists [_; _; _; _; _; _; _; _] ].
Qed.

(** X10, witness: a dashed grey grid on the plain SubFigure. *)
Lemma X10_set_grid_then_axes_draw_the_grid_witness :
  ∃ s',
    SubFigure.set_grid (Py.Int 1) (Py.Str "--") (Py.Str "gray") (Py.Float (1 # 2))
      plain_SubFigure = (s', inr tt) ∧
    ∃ before,
      SubFigure.set_up_axes {| this := s'; calls := [] |}
      = ({| this := SubFigure.with_axes s' 0;
            calls := before ++ [Backend.grid 0 "major" (Py.Str "--") (Py.Int 1)
                                  (Py.Str "gray") (Py.Float (1 # 2))] |},
         inr 0).
Proof.
  eexists. split; [reflexivity|].
  destruct (X10_set_grid_then_axes_draw_the_grid plain_SubFigure _ (Py.Int 1)
              (Py.Str "--") (Py.Str "gray") (Py.Float (1 # 2)) [] eq_refl)
    as (style & width & col & al & [H1 _] & [H2 _] & [H3 _] & [H4 _] & _
        & before & Hrun).
  rewrite (H1 ltac:(discriminate)), (H2 ltac:(discriminate)),
    (H3 ltac:(discriminate)), (H4 ltac:(discriminate)) in Hrun.
  exists before. exact Hrun.
Defined.

(** ** Adding SubFigures to a MultiFigure *)

Lemma int_ge_number n v : is_number v = true → ∃ b, MultiFigure.int_ge n v = inr b.
Proof. destruct v; try discriminate; simpl; eauto. Qed.

(** X11.  [add_SubFigure] never accepts a placement with a negative row
    or column: it raises and leaves the MultiFigure as it was.  When the
    size of the figure is a pair of numbers, what it raises is a
    [GraphingException]. *)
Theorem X11_add_SubFigure_refuses_negative_placement env (row col rowspan colspan : Z)
    x_label y_label x_lim y_lim log_scale_x log_scale_y show_grid legend_is_boxed
    ticks_are_in (m : MultiFigure.t) :
  (row < 0 ∨ col < 0)%Z →
  ∃ x,
    MultiFigure.add_SubFigure env (row, col, rowspan, colspan) x_label y_label
      x_lim y_lim log_scale_x log_scale_y show_grid legend_is_boxed ticks_are_in m
    = (m, inl x) ∧
    ∀ width height,
      MultiFigure.size m = Py.Tuple [width; height] →
      is_number width = true → is_number height = true →
      ∃ msg, x = Py.GraphingException msg.
Proof.
  intros Hneg.
  unfold MultiFigure.add_SubFigure, Py.bind, Py.get, Py.put, Py.lift, Py.ret,
    Py.raise. simpl.
  destruct (let? bound := MultiFigure.getitem (MultiFigure.size m) 0 in
            MultiFigure.int_ge row bound) as [x|rows_out] eqn:Hrow; simpl.
  { eexists. split; [done|]. intros width height Hsize Hw Hh.
    rewrite Hsize in Hrow. simpl in Hrow.
    destruct (int_ge_number row width Hw) as [b Hb]. rewrite Hb in Hrow. done. }
  destruct rows_out; simpl; [eauto 10|].
  destruct (let? bound := MultiFigure.getitem (MultiFigure.size m) 1 in
            MultiFigure.int_ge col bound) as [x|cols_out] eqn:Hcol; simpl.
  { eexists. split; [done|]. intros width height Hsize Hw Hh.
    rewrite Hsize in Hcol. simpl in Hcol.
    destruct (int_ge_number col height Hh) as [b Hb]. rewrite Hb in Hcol. done. }
  destruct cols_out; simpl; [eauto 10|].
  assert ((row <? 0)%Z || (col <? 0)%Z = true) as ->.
  { apply orb_true_iff. destruct Hneg; [left|right]; by apply Z.ltb_lt. }
  eauto 10.
Qed.

(** X11, witness: row [-1] on the plain MultiFigure. *)
Lemma X11_add_SubFigure_refuses_negative_placement_witness :
  ∃ x, add_SubFigure_at (-1, 0, 1, 1)%Z plain_MultiFigure = (plain_MultiFigure, inl x) ∧
       ∃ msg, x = Py.GraphingException msg.
Proof.
  destruct (X11_add_SubFigure_refuses_negative_placement sample_env (-1) 0 1 1
              "x axis" "y axis" None None (Py.Str "default") (Py.Str "default")
              (Py.Str "default") (Py.Str "default") (Py.Str "default")
              plain_MultiFigure) as (x & Hrun & Hkind); [left; lia|].
  exists x. split; [exact Hrun|].
  apply (Hkind (Py.Int 11) (Py.Int 7)); reflexivity.
Defined.

(** X12.  When [add_SubFigure] returns, the SubFigure it returns is the
    one [SubFigure.__init__] builds from the arguments and the figure style
    of the MultiFigure; it has been appended after the SubFigures that were
    there, which are untouched, and nothing else of the MultiFigure has
    changed; its row and column are not negative.  When [add_SubFigure]
    raises, the MultiFigure is as it was. *)
Theorem X12_add_SubFigure_appends_a_new_SubFigure env (row col rowspan colspan : Z)
    x_label y_label x_lim y_lim log_scale_x log_scale_y show_grid legend_is_boxed
    ticks_are_in (m : MultiFigure.t) :
  let out := MultiFigure.add_SubFigure env (row, col, rowspan, colspan) x_label
               y_label x_lim y_lim log_scale_x log_scale_y show_grid
               legend_is_boxed ticks_are_in m in
  match out.2 with
  | inl _ => out.1 = m
  | inr new_SubFigure =>
      SubFigure.__init__ env (row, col, rowspan, colspan) x_label y_label x_lim
        y_lim (MultiFigure.figure_style m) log_scale_x log_scale_y show_grid
        legend_is_boxed ticks_are_in = inr new_SubFigure ∧
      MultiFigure._SubFigures out.1 = MultiFigure._SubFigures m ++ [new_SubFigure] ∧
      out.1 = MultiFigure.with_SubFigures m (MultiFigure._SubFigures out.1) ∧
      (0 ≤ row)%Z ∧ (0 ≤ col)%Z
  end.
Proof.
  unfold MultiFigure.add_SubFigure, Py.bind, Py.get, Py.put, Py.lift, Py.ret,
    Py.raise. simpl.
  destruct (let? bound := MultiFigure.getitem (MultiFigure.size m) 0 in
            MultiFigure.int_ge row bound) as [x|[]]; simpl; try done.
  destruct (let? bound := MultiFigure.getitem (MultiFigure.size m) 1 in
            MultiFigure.int_ge col bound) as [x|[]]; simpl; try done.
  destruct ((row <? 0)%Z || (col <? 0)%Z) eqn:Hneg; simpl; try done.
  apply orb_false_iff in Hneg as [Hr%Z.ltb_ge Hc%Z.ltb_ge].
  by destruct (SubFigure.__init__ _ _ _ _ _ _ _ _ _ _ _ _).
Qed.

Section Styled.
Context (env : Collaborators).

(** X13.  Every SubFigure of a MultiFigure holds the style of the
    MultiFigure, the one its [figure_style] loads: this holds of a
    MultiFigure that [__init__] returns and [add_SubFigure] keeps it,
    whether it returns or raises. *)
Theorem X13_SubFigures_share_the_figure_style :
  (∀ num_rows num_cols size title figure_style legend_is_boxed m,
     MultiFigure.__init__ env num_rows num_cols size title figure_style
       legend_is_boxed = inr m →
     styled env m) ∧
  (∀ placement x_label y_label x_lim y_lim log_scale_x log_scale_y show_grid
     legend_is_boxed ticks_are_in m,
     styled env m →
     styled env (MultiFigure.add_SubFigure env placement x_label y_label x_lim
                   y_lim log_scale_x log_scale_y show_grid legend_is_boxed
                   ticks_are_in m).1).
Proof.
  split.
  - intros * . unfold MultiFigure.__init__, Py.and_then.
    destruct (load env figure_style) as [x|params] eqn:Hload; [done|].
    destruct (SubFigure.or_figure_default size params "size"); [done|].
    destruct (SubFigure.or_figure_default legend_is_boxed params "boxed_legend");
      [done|].
    intros [= <-]. split; simpl; [done|constructor].
  - intros [[[row col] rowspan] colspan] * [Hload Hall].
    unfold MultiFigure.add_SubFigure, Py.bind, Py.get, Py.put, Py.lift, Py.ret,
      Py.raise. simpl.
    destruct (let? bound := MultiFigure.getitem (MultiFigure.size m) 0 in
              MultiFigure.int_ge row bound) as [x|[]]; simpl; try done.
    destruct (let? bound := MultiFigure.getitem (MultiFigure.size m) 1 in
              MultiFigure.int_ge col bound) as [x|[]]; simpl; try done.
    destruct ((row <? 0)%Z || (col <? 0)%Z); simpl; try done.
    destruct (SubFigure.__init__ _ _ _ _ _ _ _ _ _ _ _ _) as [x|sf] eqn:Hinit;
      simpl; [done|].
    split; [done|]. simpl. apply Forall_app. split; [done|].
    constructor; [|constructor].
    unfold SubFigure.__init__, Py.and_then in Hinit. rewrite Hload in Hinit.
    repeat match type of Hinit with
           | context [SubFigure.or_figure_default ?g ?p ?k] =>
               destruct (SubFigure.or_figure_default g p k); [done|]
           end.
    by injection Hinit as <-.
Qed.

End Styled.

(** X13, witness: a SubFigure added to the plain MultiFigure. *)
Lemma X13_SubFigures_share_the_figure_style_witness :
  styled sample_env plain_MultiFigure ∧
  styled sample_env (add_SubFigure_at (1, 0, 1, 2)%Z plain_MultiFigure).1.
Proof.
  assert (H : styled sample_env plain_MultiFigure) by (split; [reflexivity|constructor]).
  split; [exact H|].
  exact (proj2 (X13_SubFigures_share_the_figure_style sample_env) (1, 0, 1, 2)%Z
           "x axis" "y axis" None None (Py.Str "default") (Py.Str "default")
           (Py.Str "default") (Py.Str "default") (Py.Str "default")
           plain_MultiFigure H).
Defined.

(** ** Preparing a SubFigure *)

(** X14.  Whatever [_prepare_SubFigure] does, return or raise, it assigns
    [_axes], keeps every other attribute but [_elements] and [_handles],
    keeps the number of elements and only appends to [_handles], which are
    never reset; it makes no legend call when [legend] is false or the
    SubFigure has no label.  When it returns, it returns [_labels] and
    [_handles]. *)
Theorem X14_prepare_SubFigure_frame env legend (σ σ' : Scene SubFigure.t) r :
  SubFigure._prepare_SubFigure env legend σ = (σ', r) →
  fixed (this σ') = fixed (this σ) ∧
  SubFigure._axes (this σ') = Some (length (calls σ)) ∧
  length (SubFigure._elements (this σ')) = length (SubFigure._elements (this σ)) ∧
  (∃ more, SubFigure._handles (this σ') = SubFigure._handles (this σ) ++ more) ∧
  (∃ new, calls σ' = calls σ ++ new ∧
          (legend = false ∨ SubFigure._labels (this σ) = [] →
           Forall (λ c, Backend.is_legend c = false) new)) ∧
  (∀ labels handles, r = inr (labels, handles) →
     labels = SubFigure._labels (this σ) ∧
     handles = SubFigure._handles (this σ')).
Proof.
  intros Hrun.
  apply prepare_SubFigure_spec in Hrun
    as (deco & plots & legends & more & Hc & Hd & Hp & _ & Hnone & Hfix & Hax & Hh
        & Hl & _ & _ & Hret & _).
  split; [done|]. split; [done|]. split; [done|]. split; [eauto|].
  split.
  - exists (deco ++ plots ++ legends). split; [done|].
    intros Hno. rewrite (Hnone Hno), app_nil_r. apply Forall_app. split.
    + eapply Forall_impl; [exact Hd|]. intros c Hc'. by destruct c.
    + eapply Forall_impl; [exact Hp|]. intros c Hc'. by destruct c.
  - intros labels handles ->.
    by destruct (Hret _ _ eq_refl) as (_ & -> & -> & _).
Qed.

(** X14, witness: a SubFigure with the plain curve, prepared without
    legend. *)
Lemma X14_prepare_SubFigure_frame_witness :
  let σ := {| this := SubFigure.add_element plain_SubFigure [plain_curve];
              calls := [] |} in
  SubFigure._axes (this (SubFigure._prepare_SubFigure sample_env false σ).1) = Some 0.
Proof.
  intros σ.
  destruct (SubFigure._prepare_SubFigure sample_env false σ) as [σ' r] eqn:Hrun.
  exact (proj1 (proj2 (X14_prepare_SubFigure_frame sample_env false σ σ' r Hrun))).
Defined.

Lemma plot_calls_app cs1 cs2 :
  plot_calls (cs1 ++ cs2) = plot_calls cs1 ++ plot_calls cs2.
Proof. unfold plot_calls. apply omap_app. Qed.

Lemma plot_calls_decoration cs :
  Forall (λ c, is_decoration c = true) cs → plot_calls cs = [].
Proof.
  induction 1 as [|c cs Hc _ IH]; [done|].
  destruct c; try discriminate Hc; exact IH.
Qed.

Lemma plot_calls_legends {A} (P : A → Backend.call) cs :
  (∀ a, Backend.is_plot_element (P a) = false) →
  Forall (λ c, ∃ a, c = P a) cs → plot_calls cs = [].
Proof.
  intros HP. induction 1 as [|c cs [a ->] _ IH]; [done|].
  specialize (HP a). destruct (P a); try discriminate HP; exact IH.
Qed.

Section ZOrders.
Context (env : Collaborators).

(** The [z_order]s of a run of [_plot_element] calls that starts at [z]. *)
Lemma plot_loop_z_orders axes k : ∀ i z (σ σ' : Scene SubFigure.t) r,
  i + k = length (SubFigure._elements (this σ)) →
  SubFigure.plot_loop env axes (seq i k) z σ = (σ', r) →
  ∃ new,
    calls σ' = calls σ ++ new ∧
    (∀ c, plot_calls new !! 0 = Some c → c.2 = z) ∧
    (∀ n c c', plot_calls new !! n = Some c → plot_calls new !! S n = Some c' →
               c'.2 = next_z_order env c).
Proof.
  induction k as [|k IH]; intros i z σ σ' r Hlen Hrun.
  - injection Hrun as <- <-. exists []. rewrite app_nil_r. by split.
  - destruct (lookup_lt_is_Some_2 (SubFigure._elements (this σ)) i) as [e He]; [lia|].
    rewrite <- cons_seq, (plot_loop_cons _ _ _ _ _ e) in Hrun by done.
    cbv zeta in Hrun.
    destruct (Resolution.fill _ e) as [e1 [x|[]]]; cbn [fst snd] in Hrun.
    { injection Hrun as <- <-. exists []. rewrite app_nil_r. by split. }
    destruct (_plot_element env e1 axes z) as [e2 [x|]] eqn:Hplot;
      cbn [fst snd] in Hrun.
    { injection Hrun as <- <-. exists [Backend.plot_element e1 axes z].
      split; [done|]. split.
      - by intros c [= <-].
      - intros n c c' _ Hc'. done. }
    apply IH in Hrun as (new & Hc & Hfirst & Hnext);
      [|simpl; rewrite !length_insert; lia].
    cbn [this calls] in Hc.
    exists (Backend.plot_element e1 axes z :: new).
    split; [rewrite Hc; by rewrite <- app_assoc|].
    split; [by intros c [= <-]|].
    intros [|n] c c' Hn Hn'.
    + injection Hn as <-. simpl in Hn'.
      rewrite (Hfirst _ Hn'). simpl. by rewrite Hplot.
    + exact (Hnext n c c' Hn Hn').
Qed.

(** X15.  In the [_plot_element] calls of one [_prepare_SubFigure], the
    first [z_order] is 0 and each following one is the previous one plus
    2, or the previous one itself when the element plotted before has no
    [_label] attribute, or a [_label] other than [None] and no [_handle]
    attribute: the [continue] of the loop skips [z_order += 2]. *)
Theorem X15_z_orders_of_the_plotted_elements legend (σ σ' : Scene SubFigure.t) r :
  SubFigure._prepare_SubFigure env legend σ = (σ', r) →
  ∃ new,
    calls σ' = calls σ ++ new ∧
    (∀ c, plot_calls new !! 0 = Some c → c.2 = 0%Z) ∧
    (∀ n c c', plot_calls new !! n = Some c → plot_calls new !! S n = Some c' →
               c'.2 = next_z_order env c).
Proof.
  intros Hrun.
  unfold SubFigure._prepare_SubFigure in Hrun. unfold Py.bind at 1 in Hrun.
  destruct (SubFigure.set_up_axes σ) as [σa ra] eqn:Hsetup.
  apply set_up_axes_spec in Hsetup as (deco & Hca & Hdeco & Hthis & Hax & _ & _).
  apply plot_calls_decoration in Hdeco.
  destruct ra as [x|a].
  { injection Hrun as <- <-. exists deco. rewrite Hdeco. by split. }
  pose proof (Hax a eq_refl) as ->. clear Hax.
  rewrite bind_receiver in Hrun. rewrite Hthis in Hrun.
  change (SubFigure._elements (SubFigure.with_axes ?s _)) with
    (SubFigure._elements s) in Hrun.
  change (SubFigure._labels (SubFigure.with_axes ?s _)) with
    (SubFigure._labels s) in Hrun.
  destruct (SubFigure._elements (this σ)) as [|e0 els] eqn:Hels.
  { injection Hrun as <- <-. exists deco. rewrite Hdeco. by split. }
  rewrite <- Hels in *. clear e0 els Hels.
  unfold Py.bind at 1 2 in Hrun.
  destruct (SubFigure.plot_loop env _ _ 0 σa) as [σp rp] eqn:Hloop.
  apply plot_loop_z_orders in Hloop as (plots & Hcp & Hfirst & Hnext);
    [|rewrite Hthis; reflexivity].
  destruct rp as [x|[]].
  { injection Hrun as <- <-. exists (deco ++ plots).
    rewrite Hcp, Hca, <- app_assoc, plot_calls_app, Hdeco. by split. }
  rewrite bind_receiver in Hrun.
  destruct (match SubFigure._labels (this σ) with [] => false | _ :: _ => legend end).
  - unfold when in Hrun.
    destruct (SubFigure.try_legend env _ _ _ _ σp) as [σl rl] eqn:Hleg.
    apply try_legend_spec in Hleg as (legends & Hcl & _ & _ & Hfl & _).
    eapply (plot_calls_legends (λ d, Backend.axes_legend _ _)) in Hfl; [|done].
    exists (deco ++ plots ++ legends).
    assert (calls σ' = calls σl) as ->.
    { destruct rl as [x|[]]; [by injection Hrun as <- <-|].
      rewrite bind_receiver in Hrun. by injection Hrun as <- <-. }
    rewrite Hcl, Hcp, Hca, <- !app_assoc, !plot_calls_app, Hdeco, Hfl, app_nil_r.
    by split.
  - unfold when, Py.ret in Hrun. rewrite bind_receiver in Hrun.
    injection Hrun as <- <-. exists (deco ++ plots).
    rewrite Hcp, Hca, <- app_assoc, plot_calls_app, Hdeco. by split.
Qed.

End ZOrders.

(** X15, witness: a curve without [_label] followed by a labelled one. *)
Lemma X15_z_orders_of_the_plotted_elements_witness :
  let σ := {| this := SubFigure.add_element plain_SubFigure
                        [curve_with_errorbars; plain_curve];
              calls := [] |} in
  ∃ new,
    calls (SubFigure._prepare_SubFigure sample_env true σ).1 = [] ++ new ∧
    (∀ c, plot_calls new !! 0 = Some c → c.2 = 0%Z) ∧
    (∀ n c c', plot_calls new !! n = Some c → plot_calls new !! S n = Some c' →
               c'.2 = next_z_order sample_env c).
Proof.
  intros σ.
  apply (X15_z_orders_of_the_plotted_elements sample_env true σ _
           (SubFigure._prepare_SubFigure sample_env true σ).2).
  by destruct (SubFigure._prepare_SubFigure sample_env true σ).
Defined.

(** ** Preparing, displaying and saving a MultiFigure *)

(** X16.  A MultiFigure without SubFigures is displayed without
    complaint: [display(legend=False)] creates the figure and its grid,
    sets the title and shows the figure, and returns; [save_figure] with
    [legend=False] does the same and saves instead of showing. *)
Theorem X16_empty_MultiFigure_is_displayed env (m : MultiFigure.t)
    (cs : list Backend.call) (file_name : string) :
  MultiFigure._SubFigures m = [] →
  let start := [Backend.figure "constrained" (MultiFigure.size m);
                Backend.GridSpec (MultiFigure.num_rows m) (MultiFigure.num_cols m);
                Backend.suptitle (MultiFigure.title m)] in
  MultiFigure.display env false {| this := m; calls := cs |}
  = ({| this := MultiFigure.with_figure m (length cs);
        calls := cs ++ start ++ [Backend.show] |}, inr tt) ∧
  MultiFigure.save_figure env file_name false {| this := m; calls := cs |}
  = ({| this := MultiFigure.with_figure m (length cs);
        calls := cs ++ start ++ [Backend.savefig file_name "tight"] |}, inr tt).
Proof.
  intros Hnone start.
  unfold MultiFigure.display, MultiFigure.save_figure,
    MultiFigure._prepare_MultiFigure.
  unfold Py.bind, receiver, backend, update, when, Py.ret. cbn [this calls].
  rewrite Hnone. simpl. rewrite <- !app_assoc. done.
Qed.

(** X16, witness: the plain MultiFigure. *)
Lemma X16_empty_MultiFigure_is_displayed_witness :
  (MultiFigure.display sample_env false {| this := plain_MultiFigure; calls := [] |}).2
  = inr tt.
Proof.
  rewrite (proj1 (X16_empty_MultiFigure_is_displayed sample_env plain_MultiFigure []
                    "figure.png" eq_refl)).
  reflexivity.
Defined.

Section EmptySubFigure.
Context (env : Collaborators) (b : bool).

(** The loop over the SubFigures returns only if each of them has an
    element. *)
Lemma prepare_loop_returns k : ∀ i labels handles (σ σ' : Scene MultiFigure.t) lh,
  i + k = length (MultiFigure._SubFigures (this σ)) →
  MultiFigure.prepare_loop env b (seq i k) labels handles σ = (σ', inr lh) →
  ∀ sf, sf ∈ drop i (MultiFigure._SubFigures (this σ)) → SubFigure._elements sf ≠ [].
Proof.
  induction k as [|k IH]; intros i labels handles σ σ' lh Hlen Hrun sf Hsf.
  - rewrite drop_ge in Hsf by lia. inversion Hsf.
  - destruct (lookup_lt_is_Some_2 (MultiFigure._SubFigures (this σ)) i)
      as [sf0 Hsf0]; [lia|].
    rewrite (drop_S _ _ _ Hsf0) in Hsf.
    rewrite <- cons_seq in Hrun.
    change (MultiFigure.prepare_loop env b (i :: seq (S i) k) labels handles) with
      (let* lh := MultiFigure.on_SubFigure i (SubFigure._prepare_SubFigure env b) in
       let '(SubFigure_labels, SubFigure_handles) := lh in
       MultiFigure.prepare_loop env b (seq (S i) k)
         (labels ++ SubFigure_labels) (handles ++ SubFigure_handles)) in Hrun.
    unfold Py.bind at 1 in Hrun.
    rewrite (on_SubFigure_run i sf0) in Hrun by done. cbv zeta in Hrun.
    destruct (SubFigure._prepare_SubFigure env b {| this := sf0; calls := calls σ |})
      as [ρ rs] eqn:Hprep.
    cbn [fst snd] in Hrun.
    destruct rs as [x|[ls hs]]; [done|].
    apply prepare_SubFigure_spec in Hprep
      as (deco & plots & legends & more & _ & _ & _ & _ & _ & _ & _ & _ & _ & _ & _
          & Hret & _).
    destruct (Hret _ _ eq_refl) as (Hne & _).
    apply elem_of_cons in Hsf as [->|Hsf]; [exact Hne|].
    eapply (IH (S i)) in Hrun; [exact Hrun| |].
    + cbn [this]. 
      change (MultiFigure._SubFigures (MultiFigure.with_SubFigures _ ?l)) with l.
      rewrite length_insert. lia.
    + cbn [this].
      change (MultiFigure._SubFigures (MultiFigure.with_SubFigures _ ?l)) with l.
      rewrite drop_insert_lt by lia. exact Hsf.
Qed.

End EmptySubFigure.

(** X17.  One SubFigure without elements keeps the whole MultiFigure from
    being drawn: [_prepare_MultiFigure] raises, and [display] and
    [save_figure] raise the same exception after the same calls, without
    showing or saving anything. *)
Theorem X17_empty_SubFigure_blocks_the_MultiFigure env (m : MultiFigure.t)
    (cs : list Backend.call) (legend : bool) (file_name : string)
    (sf : SubFigure.t) :
  sf ∈ MultiFigure._SubFigures m →
  SubFigure._elements sf = [] →
  let σ := {| this := m; calls := cs |} in
  ∃ x,
    (MultiFigure._prepare_MultiFigure env legend σ).2 = inl x ∧
    MultiFigure.display env legend σ
    = ((MultiFigure._prepare_MultiFigure env legend σ).1, inl x) ∧
    MultiFigure.save_figure env file_name legend σ
    = ((MultiFigure._prepare_MultiFigure env legend σ).1, inl x).
Proof.
  intros Hsf Hnone σ.
  assert (∃ x, (MultiFigure._prepare_MultiFigure env legend σ).2 = inl x) as [x Hx].
  { destruct (MultiFigure._prepare_MultiFigure env legend σ) as [σ' [x|[]]] eqn:Hrun;
      [eauto|exfalso].
    unfold MultiFigure._prepare_MultiFigure in Hrun.
    rewrite bind_receiver, bind_backend, bind_update, bind_backend in Hrun.
    cbn [this calls] in Hrun.
    unfold Py.bind at 1 in Hrun.
    destruct (MultiFigure.prepare_loop env _ _ [] [] _) as [σl [y|lh]] eqn:Hloop;
      [done|].
    eapply prepare_loop_returns in Hloop; [by apply Hloop| |].
    - reflexivity.
    - cbn [this]. rewrite drop_0. exact Hsf. }
  exists x. split; [done|].
  unfold MultiFigure.display, MultiFigure.save_figure.
  unfold Py.bind at 1 3.
  destruct (MultiFigure._prepare_MultiFigure env legend σ) as [σ' r].
  simpl in Hx. by subst r.
Qed.

(** X17, witness: the plain SubFigure, which has no element, in the plain
    MultiFigure. *)
Lemma X17_empty_SubFigure_blocks_the_MultiFigure_witness :
  ∃ x,
    (MultiFigure.display sample_env false
       {| this := MultiFigure.with_SubFigures plain_MultiFigure [plain_SubFigure];
          calls := [] |}).2 = inl x.
Proof.
  destruct (X17_empty_SubFigure_blocks_the_MultiFigure sample_env
              (MultiFigure.with_SubFigures plain_MultiFigure [plain_SubFigure])
              [] false "figure.png" plain_SubFigure)
    as (x & _ & Hshow & _); [by left|reflexivity|].
  exists x. by rewrite Hshow.
Defined.

(** ** Plotting a Heatmap *)

(** X18.  A Heatmap that the constructor returns can always be plotted:
    [_plot_element] makes one [imshow] call with the attributes given, at
    the [z_order] given, with [extent] the concatenation of the two ranges
    when both were given and without [extent] otherwise, and then one
    [colorbar] call exactly when the image was not a file name and
    [show_color_bar] was true.  The image shown is what [imread] returned
    for a file name, and the array of the data otherwise. *)
Theorem X18_built_Heatmap_is_plotted lib (image : Py.val)
    (x_axis_range y_axis_range : option (Q * Q)) (color_map : Py.val)
    (show_color_bar : bool)
    (alpha_value aspect_ratio origin_position interpolation : Py.val)
    (h : Heatmap.t) (axes : nat) (z_order : Z) :
  Heatmap.new lib image x_axis_range y_axis_range color_map show_color_bar
    alpha_value aspect_ratio origin_position interpolation = inr h →
  let extent :=
    match x_axis_range, y_axis_range with
    | Some x, Some y => Some (Heatmap.concat_ranges x y)
    | _, _ => None
    end in
  let bar := match image with Py.Str _ => false | _ => show_color_bar end in
  Heatmap._plot_element h axes z_order
  = inr (imshow (Heatmap.image h) color_map alpha_value aspect_ratio
           origin_position interpolation extent z_order
         :: if bar then [colorbar axes] else []) ∧
  (∀ file_name, image = Py.Str file_name →
                imread lib file_name = inr (Heatmap.image h)) ∧
  ((∀ file_name, image ≠ Py.Str file_name) →
   Heatmap.image h = np_array lib image).
Proof.
  unfold Heatmap.new, Heatmap.__post_init__, Py.bind, Py.get, Py.put, Py.lift,
    Py.ret. simpl.
  destruct image; simpl;
    try destruct (imread lib s) as [x|pixels] eqn:Hread; simpl;
    destruct x_axis_range as [x0|], y_axis_range as [y0|]; simpl;
    intros Hh; simplify_eq; unfold Heatmap._plot_element; simpl;
    (split; [by destruct show_color_bar|]);
    (split; [intros ? ?; by simplify_eq|]);
    intros Harray; try done; exfalso; by eapply Harray.
Qed.

(** X18, witness: a heatmap read from a file, with both ranges. *)
Lemma X18_built_Heatmap_is_plotted_witness :
  ∃ h, Heatmap.new sample_numerics (Py.Str "image.png") (Some (0, 10)%Q)
         (Some (0, 5)%Q) (Py.Str "gray") true (Py.Float 1) (Py.Str "auto")
         (Py.Str "upper") (Py.Str "none") = inr h ∧
       Heatmap._plot_element h 0 4
       = inr [imshow (Py.Obj 7) (Py.Str "gray") (Py.Float 1) (Py.Str "auto")
                (Py.Str "upper") (Py.Str "none") (Some (0, 10, 0, 5)%Q) 4].
Proof.
  eexists. split; [reflexivity|].
  exact (proj1 (X18_built_Heatmap_is_plotted sample_numerics (Py.Str "image.png")
                  (Some (0, 10)%Q) (Some (0, 5)%Q) (Py.Str "gray") true (Py.Float 1)
                  (Py.Str "auto") (Py.Str "upper") (Py.Str "none") _ 0 4 eq_refl)).
Defined.

(** ** Errors of the reflected operators *)

Section ReflectedErrors.
Import MathematicalObject.
Context {Heap Obj : Type} {ops : Operators Heap Obj}.

(** X19.  [__rtruediv__] raises whenever [__truediv__], or the power
    [-1] of its result, raises: a [ZeroDivisionError] with the message
    ["Cannot divide by zero."] in place of any [ZeroDivisionError], and the
    exception itself otherwise, after the same effect on the program's
    objects.  So, where [x / 0] raises a [ZeroDivisionError], so does
    [0 / x].  [__rpow__] raises [NotImplementedError] and has no effect. *)
Theorem X19_errors_of_the_reflected_operators (x : Obj) (a : operand Obj) (h : Heap) :
  let inverse_of_quotient :=
    (let* quotient := __truediv__ x a in __pow__ quotient minus_one) h in
  (∀ h' msg, inverse_of_quotient = (h', inl (Py.ZeroDivisionError msg)) →
             __rtruediv__ x a h
             = (h', inl (Py.ZeroDivisionError "Cannot divide by zero."))) ∧
  (∀ h' e, inverse_of_quotient = (h', inl e) →
           (∀ msg, e ≠ Py.ZeroDivisionError msg) →
           __rtruediv__ x a h = (h', inl e)) ∧
  (∀ h' msg, __truediv__ x a h = (h', inl (Py.ZeroDivisionError msg)) →
             __rtruediv__ x a h
             = (h', inl (Py.ZeroDivisionError "Cannot divide by zero."))) ∧
  (∀ h' e, __rtruediv__ x a h = (h', inl e) →
           ∃ e', inverse_of_quotient = (h', inl e') ∧
                 (e = e' ∨ e = Py.ZeroDivisionError "Cannot divide by zero.")) ∧
  __rpow__ x a h = (h, inl Py.NotImplementedError).
Proof.
  intros inverse_of_quotient. subst inverse_of_quotient.
  unfold __rtruediv__.
  repeat match goal with |- _ ∧ _ => split end.
  - by intros h' msg ->.
  - intros h' e -> He. destruct e as [?|?|?|?|msg| |?|?|?]; try done.
    by destruct (He msg).
  - intros h' msg Hq. unfold Py.bind. by rewrite Hq.
  - intros h' e.
    destruct ((let* quotient := __truediv__ x a in __pow__ quotient minus_one) h)
      as [h1 [[]|r]]; intros He; simplify_eq; eauto.
  - reflexivity.
Qed.

End ReflectedErrors.

(** X19, witness: [0 / x] for the exact rational [x = 3/2]. *)
Lemma X19_errors_of_the_reflected_operators_witness :
  MathematicalObject.__rtruediv__ (ops := Arithmetic.Rational) (3 # 2)%Q
    (MathematicalObject.Number (Py.Int 0)) tt
  = (tt, inl (Py.ZeroDivisionError "Cannot divide by zero.")).
Proof.
  apply (proj1 (proj2 (proj2 (X19_errors_of_the_reflected_operators
                                (ops := Arithmetic.Rational) (3 # 2)%Q
                                (MathematicalObject.Number (Py.Int 0)) tt)))
           tt "division by zero").
  reflexivity.
Defined.
